(** * Path normalisation, configuration resolution and the temporary
      workspace of sanguine (sanguine/common.py, sanguine/folders.py)

    Python [str] is modelled as [string], for strings of ASCII characters:
    [str.lower] and [str.islower] look at the letters A-Z and a-z only.  A
    Python [assert] is modelled as the interpreter runs it by default,
    raising [AssertionError] ([py_assert]); the marker assertion of
    [rm_tmp_tree], the one statement between a caller and the recursive
    removal, is modelled for both values of [__debug__] ([assert_stmt]),
    since [python -O] compiles it out.  Functions that may raise return a
    [res]; functions that also log or touch the filesystem run in the
    state monad [M], over a filesystem interface [Filesystem] and the
    library functions [PyLib] ([os.path.abspath], [os.path.isabs],
    [os.path.split], [repr]).  The embedding comes first, then the notions
    the properties are stated with, a lexical model of [os.path] and a
    model filesystem to run the code on, and last the proofs. *)

Set Warnings "-register-all".
From Stdlib Require Import ZArith List Bool Lia Arith.
From Stdlib Require Import Strings.Ascii Strings.String Numbers.DecimalString.
Import ListNotations.
Open Scope string_scope.

(* ================================================================= *)
(** ** Python string primitives *)

Module PyStr.

Definition is_upper (c : ascii) : bool :=
  let n := nat_of_ascii c in Nat.leb 65 n && Nat.leb n 90.

Definition lower_char (c : ascii) : ascii :=
  if is_upper c then ascii_of_nat (nat_of_ascii c + 32) else c.

(** [s.lower()] for a string of ASCII characters; a character above 127
    is left as it is *)
Fixpoint lower (s : string) : string :=
  match s with
  | EmptyString => EmptyString
  | String c s' => String (lower_char c) (lower s')
  end.

(** [s.startswith(pre)] *)
Definition startswith (s pre : string) : bool := String.prefix pre s.

(** [s.endswith(suf)]: some suffix of [s] is [suf]. *)
Fixpoint endswith (s suf : string) : bool :=
  String.eqb s suf ||
  match s with
  | EmptyString => false
  | String _ s' => endswith s' suf
  end.

(** [sub in s] *)
Fixpoint contains (s sub : string) : bool :=
  String.prefix sub s ||
  match s with
  | EmptyString => false
  | String _ s' => contains s' sub
  end.

(** [s[n:]] *)
Fixpoint slice_from (n : nat) (s : string) : string :=
  match n, s with
  | O, _ => s
  | S _, EmptyString => EmptyString
  | S k, String _ s' => slice_from k s'
  end.

(** [s.replace(old, new)] for a non-empty [old]: the occurrences are found
    from the left and do not overlap.  [skip] counts the characters of a
    matched occurrence that are still to be passed over. *)
Fixpoint replace_aux (old new : string) (skip : nat) (s : string) : string :=
  match s with
  | EmptyString => EmptyString
  | String c s' =>
      match skip with
      | S k => replace_aux old new k s'
      | O =>
          if String.prefix old s
          then new ++ replace_aux old new (String.length old - 1) s'
          else String c (replace_aux old new 0 s')
      end
  end.

(** with an empty [old], Python puts [new] before every character and at
    the end *)
Fixpoint interleave (new s : string) : string :=
  match s with
  | EmptyString => new
  | String c s' => new ++ String c (interleave new s')
  end.

Definition replace (s old new : string) : string :=
  match old with
  | EmptyString => interleave new s
  | String _ _ => replace_aux old new 0 s
  end.

(** [str(n)] for an [int] *)
Definition str_of_int (n : Z) : string := NilEmpty.string_of_int (Z.to_int n).

(** [sep.join(l)] *)
Fixpoint join (sep : string) (l : list string) : string :=
  match l with
  | [] => EmptyString
  | [x] => x
  | x :: l' => x ++ sep ++ join sep l'
  end.

(** [s.split(c)] for a one-character separator *)
Fixpoint split_on (c : ascii) (s : string) : list string :=
  match s with
  | EmptyString => [EmptyString]
  | String a s' =>
      if Ascii.eqb a c then EmptyString :: split_on c s'
      else match split_on c s' with
           | [] => [String a EmptyString]
           | h :: t => String a h :: t
           end
  end.

(** [s[::-1]] *)
Fixpoint srev (s : string) : string :=
  match s with
  | EmptyString => EmptyString
  | String c s' => srev s' ++ String c EmptyString
  end.

(** [s.replace(a, b)] for single characters *)
Fixpoint map_char (f : ascii -> ascii) (s : string) : string :=
  match s with
  | EmptyString => EmptyString
  | String c s' => String (f c) (map_char f s')
  end.

End PyStr.

(* ================================================================= *)
(** ** Exceptions and results *)

Inductive exn_class : Set :=
| AssertionError
| SanguinicError        (* class SanguinicError(Exception) *)
| OSError
| TypeError
| AttributeError
| OtherException        (* any other subclass of Exception *)
| NonException.         (* BaseException outside Exception: KeyboardInterrupt, SystemExit *)

Record exn : Set := mk_exn { exn_cls : exn_class; exn_msg : string }.

Definition exn_class_eqb (a b : exn_class) : bool :=
  match a, b with
  | AssertionError, AssertionError | SanguinicError, SanguinicError
  | OSError, OSError | TypeError, TypeError | AttributeError, AttributeError
  | OtherException, OtherException | NonException, NonException => true
  | _, _ => false
  end.

(** [except Exception] *)
Definition is_Exception (e : exn) : bool := negb (exn_class_eqb (exn_cls e) NonException).
(** [except OSError] *)
Definition is_OSError (e : exn) : bool := exn_class_eqb (exn_cls e) OSError.

Definition assertion_error : exn := mk_exn AssertionError "".
Definition type_error : exn := mk_exn TypeError "".
Definition attribute_error : exn := mk_exn AttributeError "".

(** The result of a call: a value, an exception, or no answer within the
    given number of recursive calls. *)
Inductive res (A : Type) : Type :=
| Ok (a : A)
| Raise (e : exn)
| NoFuel.
Arguments Ok {A} a.
Arguments Raise {A} e.
Arguments NoFuel {A}.

Definition rbind {A B} (r : res A) (k : A -> res B) : res B :=
  match r with
  | Ok a => k a
  | Raise e => Raise e
  | NoFuel => NoFuel
  end.

(** [assert cond] with [__debug__] true, the interpreter's default *)
Definition py_assert (cond : bool) : res unit :=
  if cond then Ok tt else Raise assertion_error.

(** How the interpreter was started: [__debug__] is [True] unless Python
    runs with [-O]; an [assert] statement is compiled only when it is
    [True] ([abort_if_not] is the code's check for both cases). *)
Class Interpreter : Type := { __debug__ : bool }.

(** [assert cond] under the interpreter at hand *)
Definition assert_stmt {PY : Interpreter} (cond : bool) : res unit :=
  if __debug__ then py_assert cond else Ok tt.

Declare Scope res_scope.
Delimit Scope res_scope with res.
Notation "x <- c ;; k" := (rbind c (fun x => k))
  (at level 61, c at next level, right associativity) : res_scope.
Notation "c ;;; k" := (rbind c (fun _ => k))
  (at level 61, right associativity) : res_scope.

Fixpoint rmapM {A B} (f : A -> res B) (l : list A) : res (list B) :=
  match l with
  | [] => Ok []
  | a :: l' => (b <- f a ;; bs <- rmapM f l' ;; Ok (b :: bs))%res
  end.

(* ================================================================= *)
(** ** JSON values, the configuration object *)

Inductive json : Type :=
| JNull
| JBool (b : bool)
| JNum (n : Z)
| JStr (s : string)
| JList (l : list json)
| JDict (d : list (string * json)).

(** a [dict] keeps its insertion order *)
Definition config := list (string * json).

(** [d.get(key)] *)
Fixpoint dict_get (d : config) (key : string) : option json :=
  match d with
  | [] => None
  | (k, v) :: d' => if String.eqb k key then Some v else dict_get d' key
  end.

(** [d.get(key, default)] *)
Definition dict_get_default (d : config) (key : string) (default : json) : json :=
  match dict_get d key with
  | Some v => v
  | None => default
  end.

(** [x == s] for a string [s] *)
Definition json_eq_str (x : json) (s : string) : bool :=
  match x with
  | JStr t => String.eqb t s
  | _ => false
  end.

(** [s in l] for a list of JSON values *)
Definition str_in_jlist (s : string) (l : list json) : bool :=
  existsb (fun x => json_eq_str x s) l.

(** [s in d] for a dict *)
Definition str_in_dict (s : string) (d : config) : bool :=
  match dict_get d s with Some _ => true | None => false end.

(* ================================================================= *)
(** ** The environment: filesystem, library functions, log *)

(** What the code does to the outside world, in the order it does it. *)
Inductive event : Type :=
| EvIsdir (path : string)          (* os.path.isdir *)
| EvRmtree (path : string)         (* shutil.rmtree *)
| EvMakedirs (path : string)       (* os.makedirs *)
| EvSleep (seconds : Z)            (* time.sleep *)
| EvWarn (msg : string)            (* warn() *)
| EvInfo (msg : string)            (* info() *)
| EvCritical (msg : string).       (* critical() *)

(** The filesystem calls of common.py; [None] is a normal return, [Some e]
    the exception the call raises. *)
Class Filesystem (W : Type) : Type := {
  os_path_isdir : W -> string -> bool;
  shutil_rmtree : W -> string -> W * option exn;
  os_makedirs : W -> string -> W * option exn
}.

(** Library functions the code calls and the repository does not define. *)
Class PyLib : Type := {
  os_path_abspath : string -> string;
  os_path_isabs : string -> bool;
  os_path_split : string -> string * string;
  repr : json -> string
}.

Record state (W : Type) : Type := mk_state { world : W; events : list event }.
Arguments mk_state {W} world events.
Arguments world {W} s.
Arguments events {W} s.

Definition M (W A : Type) : Type := state W -> res A * state W.

Section StateMonad.
Context {W : Type} {FS : Filesystem W}.

Definition ret {A} (a : A) : M W A := fun s => (Ok a, s).

Definition bind {A B} (m : M W A) (k : A -> M W B) : M W B :=
  fun s =>
    match m s with
    | (Ok a, s') => k a s'
    | (Raise e, s') => (Raise e, s')
    | (NoFuel, s') => (NoFuel, s')
    end.

Definition raise {A} (e : exn) : M W A := fun s => (Raise e, s).

Definition lift {A} (r : res A) : M W A := fun s => (r, s).

Definition emit (ev : event) : M W unit :=
  fun s => (Ok tt, mk_state (world s) (events s ++ [ev])%list).

(** [try: body except C as e: handler e], [catches] deciding the class [C] *)
Definition try_except {A} (body : M W A) (catches : exn -> bool)
    (handler : exn -> M W A) : M W A :=
  fun s =>
    match body s with
    | (Raise e, s') => if catches e then handler e s' else (Raise e, s')
    | r => r
    end.

Definition isdir (path : string) : M W bool :=
  fun s => (Ok (os_path_isdir (world s) path),
            mk_state (world s) (events s ++ [EvIsdir path])%list).

Definition rmtree (path : string) : M W unit :=
  fun s =>
    let (w', r) := shutil_rmtree (world s) path in
    (match r with None => Ok tt | Some e => Raise e end,
     mk_state w' (events s ++ [EvRmtree path])%list).

Definition makedirs (path : string) : M W unit :=
  fun s =>
    let (w', r) := os_makedirs (world s) path in
    (match r with None => Ok tt | Some e => Raise e end,
     mk_state w' (events s ++ [EvMakedirs path])%list).

Definition sleep (seconds : Z) : M W unit := emit (EvSleep seconds).
Definition warn (msg : string) : M W unit := emit (EvWarn msg).
Definition info (msg : string) : M W unit := emit (EvInfo msg).
Definition critical (msg : string) : M W unit := emit (EvCritical msg).

End StateMonad.

Declare Scope m_scope.
Delimit Scope m_scope with M.
Notation "x <- c ;; k" := (bind c (fun x => k))
  (at level 61, c at next level, right associativity) : m_scope.
Notation "c ;;; k" := (bind c (fun _ => k))
  (at level 61, right associativity) : m_scope.

(* ================================================================= *)
(** ** sanguine/common.py *)

Import PyStr.

Section Common.
Context {W : Type} {FS : Filesystem W} {PL : PyLib} {PY : Interpreter}.

(** [abort_if_not(cond, f)].  The message function [f] is only called when
    the condition fails and has no effect, so its value is passed;
    [lineno] and [file] are what [traceback.extract_stack] gives for the
    caller. *)
Definition abort_if_not (cond : bool) (f : option string)
    (lineno : Z) (file : string) : M W unit :=
  if cond then ret tt
  else
    let msg := "abort_if_not() failed" in
    let msg := match f with Some m => msg ++ ":" ++ m | None => msg end in
    (critical (msg ++ " @line " ++ str_of_int lineno ++ " of " ++ file) ;;;
     raise (mk_exn SanguinicError msg))%M.

Definition ADDED_FOLDER : string := "JBSLtet9".
Definition MAX_RMTREE_RETRIES : Z := 3.
Definition MAX_RESERVE_FOLDERS : nat := 10.

(** the segment the destructive operations look for *)
Definition marker_segment : string := "\" ++ ADDED_FOLDER ++ "\".

Record TmpPath : Type := mk_TmpPath { tmpdir : string }.

(** [TmpPath.__init__] *)
Definition TmpPath_init (basetmpdir : string) : res TmpPath :=
  (py_assert (endswith basetmpdir "\") ;;;
   Ok (mk_TmpPath (basetmpdir ++ ADDED_FOLDER ++ "\")))%res.

(** the [for i in range(MAX_RESERVE_FOLDERS)] loop of [__enter__]; the
    result is [self] and [ok] when the loop is left *)
Fixpoint reserve_loop (self : TmpPath) (range : list nat) : M W (TmpPath * bool) :=
  match range with
  | [] => ret (self, false)
  | i :: range' =>
      let reservefolder := tmpdir self ++ "_" ++ str_of_int (Z.of_nat i) ++ "\" in
      (b <- isdir reservefolder ;;
       if negb b then ret (mk_TmpPath reservefolder, true)
       else
         try_except
           (rmtree reservefolder ;;; ret (mk_TmpPath reservefolder, true))
           is_Exception
           (fun e2 =>
              warn ("Error removing " ++ reservefolder ++ ": " ++ exn_msg e2) ;;;
              reserve_loop self range'))%M
  end.

(** [TmpPath.__enter__] *)
Definition TmpPath_enter (self : TmpPath) : M W TmpPath :=
  (b <- isdir (tmpdir self) ;;
   self <- (if b then
              try_except
                (rmtree (tmpdir self) ;;; ret self)
                is_Exception
                (fun e =>
                   warn ("Error removing " ++ tmpdir self ++ ": " ++ exn_msg e) ;;;
                   r <- reserve_loop self (seq 0 MAX_RESERVE_FOLDERS) ;;
                   abort_if_not (snd r) None 273 "common.py" ;;;
                   info ("Will use " ++ tmpdir (fst r) ++ " as tmpdir") ;;;
                   ret (fst r))
            else ret self) ;;
   makedirs (tmpdir self) ;;;
   ret self)%M.

(** [TmpPath.tmp_dir] *)
Definition TmpPath_tmp_dir (self : TmpPath) : string := tmpdir self.

(** [TmpPath.tmp_in_tmp] *)
Definition tmp_in_tmp (tmpbase prefix : string) (num : Z) : res string :=
  (py_assert (endswith tmpbase "\") ;;;
   py_assert (contains tmpbase marker_segment) ;;;
   Ok (tmpbase ++ prefix ++ str_of_int num ++ "\"))%res.

(** the [while True] loop of [rm_tmp_tree]; [fuel] bounds the iterations *)
Fixpoint rm_tmp_tree_loop (fuel : nat) (tmppath : string) (nretries : Z) : M W unit :=
  match fuel with
  | O => lift NoFuel
  | S fuel' =>
      let nretries := (nretries - 1)%Z in
      try_except
        (rmtree tmppath)
        is_OSError
        (fun e =>
           if (nretries <=? 0)%Z then
             warn ("Error trying to remove temp tree " ++ tmppath ++ ": " ++ exn_msg e
                   ++ ". Will not retry, should be removed on restart")
           else
             (warn ("Error trying to remove temp tree " ++ tmppath ++ ": " ++ exn_msg e
                    ++ ". Will retry in 1 sec, " ++ str_of_int nretries ++ " retries left") ;;;
              sleep 1 ;;;
              rm_tmp_tree_loop fuel' tmppath nretries)%M)
  end.

(** [TmpPath.rm_tmp_tree] *)
Definition rm_tmp_tree (fuel : nat) (tmppath : string) : M W unit :=
  (lift (assert_stmt (contains tmppath marker_segment)) ;;;
   rm_tmp_tree_loop fuel tmppath MAX_RMTREE_RETRIES)%M.

(** [TmpPath.__exit__] *)
Definition TmpPath_exit (fuel : nat) (self : TmpPath) (exc_val : option exn) : M W unit :=
  (rm_tmp_tree fuel (tmpdir self) ;;;
   match exc_val with
   | Some e => raise e
   | None => ret tt
   end)%M.

(** *** normalized stuff *)

Definition normalize_dir_path (path : string) : res string :=
  let path := os_path_abspath path in
  (py_assert (negb (contains path "/")) ;;;
   py_assert (negb (endswith path "\")) ;;;
   Ok (lower path ++ "\"))%res.

Definition is_normalized_dir_path (path : string) : bool :=
  String.eqb path (lower (os_path_abspath path) ++ "\").

Definition normalize_file_path (path : string) : res string :=
  (py_assert (negb (endswith path "\") && negb (endswith path "/")) ;;;
   let path := os_path_abspath path in
   py_assert (negb (contains path "/")) ;;;
   Ok (lower path))%res.

Definition is_normalized_file_path (path : string) : bool :=
  String.eqb path (lower (os_path_abspath path)).

Definition to_short_path (base path : string) : res string :=
  (py_assert (startswith path base) ;;;
   Ok (slice_from (String.length base) path))%res.

Definition normalize_file_name (fname : string) : res string :=
  (py_assert (negb (contains fname "\") && negb (contains fname "/")) ;;;
   Ok (lower fname))%res.

End Common.

(* ================================================================= *)
(** ** sanguine/folders.py *)

Section FoldersPy.
Context {W : Type} {FS : Filesystem W} {PL : PyLib}.

Definition _normalize_config_dir_path (path configdir : string) : res string :=
  if os_path_isabs path then normalize_dir_path path
  else normalize_dir_path (configdir ++ path).

(** the [for key, val in config.items()] loop of [_config_dir_path]; the
    result is [path] and [replaced] after the loop *)
Fixpoint subst_keys (path : string) (items : config) (replaced : bool) : string * bool :=
  match items with
  | [] => (path, replaced)
  | (key, JStr val) :: items' =>
      let newpath := replace path ("{" ++ key ++ "}") val in
      if negb (String.eqb newpath path) then subst_keys newpath items' true
      else subst_keys path items' replaced
  | _ :: items' => subst_keys path items' replaced
  end.

(** [_config_dir_path]; [fuel] bounds the depth of the recursion *)
Fixpoint _config_dir_path (fuel : nat) (path configdir : string) (cfg : config)
    : res string :=
  match fuel with
  | O => NoFuel
  | S fuel' =>
      (path <- _normalize_config_dir_path path configdir ;;
       let path := replace path "{CONFIG-DIR}" configdir in
       let '(path, replaced) := subst_keys path cfg false in
       if replaced then _config_dir_path fuel' path configdir cfg
       else Ok path)%res
  end.

(** [_config_dir_path] on a value taken from the configuration:
    [os.path.isabs] raises [TypeError] on anything but a string *)
Definition _config_dir_path_json (fuel : nat) (v : json) (configdir : string)
    (cfg : config) : res string :=
  match v with
  | JStr path => _config_dir_path fuel path configdir cfg
  | _ => Raise type_error
  end.

Definition _normalize_mo2_dir_path (path mo2dir : string) : M W string :=
  (out <- lift (if os_path_isabs path then normalize_dir_path path
                else normalize_dir_path (mo2dir ++ path)) ;;
   abort_if_not (startswith out mo2dir)
     (Some ("expected path within mo2, got " ++ repr (JStr path))) 33 "folders.py" ;;;
   ret out)%M.

Record Folders : Type := mk_Folders {
  config_dir : string;
  mo2_dir : string;
  download_dirs : list string;
  ignore_dirs : list string;
  cache_dir : string;
  tmp_dir : string;
  github_dir : string;
  own_mod_names : list string
}.

Definition default_ignores : list string :=
  [ "plugins\data\RootBuilder"; "crashDumps"; "logs"; "webcache";
    "overwrite\Root\Logs"; "overwrite\ShaderCache" ].

(** one turn of the [for ignore in ignores] loop of [Folders.__init__],
    from the value [acc] of [self.ignore_dirs] *)
Definition ignore_step (mo2dir : string) (ignore : json) (acc : list string)
    : M W (list string) :=
  if json_eq_str ignore "{DEFAULT-IGNORES}" then
    (ds <- lift (rmapM (fun defignore => normalize_dir_path (mo2dir ++ defignore))
                   default_ignores) ;;
     ret (acc ++ ds)%list)%M
  else
    match ignore with
    | JStr path => (d <- _normalize_mo2_dir_path path mo2dir ;; ret (acc ++ [d])%list)%M
    | _ => raise type_error      (* os.path.isabs on a non-string *)
    end.

(** the [for ignore in ignores] loop *)
Fixpoint ignore_loop (mo2dir : string) (ignores : list json) (acc : list string)
    : M W (list string) :=
  match ignores with
  | [] => ret acc
  | ignore :: ignores' =>
      (acc' <- ignore_step mo2dir ignore acc ;;
       ignore_loop mo2dir ignores' acc')%M
  end.

(** [normalize_file_name(om)] for an element [om] of the [ownmods] value:
    a value without [in] raises [TypeError]; a list or a dict passes or
    fails the assertion by its members and then has no [lower] *)
Definition normalize_file_name_json (om : json) : res string :=
  match om with
  | JStr fname => normalize_file_name fname
  | JList l =>
      (py_assert (negb (str_in_jlist "\" l) && negb (str_in_jlist "/" l)) ;;;
       Raise attribute_error)%res
  | JDict d =>
      (py_assert (negb (str_in_dict "\" d) && negb (str_in_dict "/" d)) ;;;
       Raise attribute_error)%res
  | _ => Raise type_error
  end.

(** the elements a [for] loop sees in a JSON value *)
Definition json_iter (v : json) : res (list json) :=
  match v with
  | JList l => Ok l
  | JStr s => Ok (map (fun c => JStr (String c EmptyString)) (list_ascii_of_string s))
  | JDict d => Ok (map (fun kv => JStr (fst kv)) d)
  | _ => Raise type_error
  end.

Definition is_jstr (v : json) : bool := match v with JStr _ => true | _ => false end.
Definition is_jlist (v : json) : bool := match v with JList _ => true | _ => false end.

(** [Folders.__init__], the statements before the [ignores] loop: the
    values of [self.config_dir], [self.mo2_dir] and [self.download_dirs] *)
Definition Folders_init_roots (fuel : nat) (jsonconfigfname : string) (jsonconfig : config)
    : M W (string * string * list string) :=
  (config_dir <- lift (normalize_dir_path (fst (os_path_split jsonconfigfname))) ;;
   abort_if_not (str_in_dict "mo2" jsonconfig)
     (Some "'mo2' must be present in config") 64 "folders.py" ;;;
   let mo2 := dict_get_default jsonconfig "mo2" JNull in
   abort_if_not (is_jstr mo2)
     (Some ("config.'mo2' must be a string, got " ++ repr mo2)) 66 "folders.py" ;;;
   mo2_dir <- lift (_config_dir_path_json fuel mo2 config_dir jsonconfig) ;;
   let dls := if negb (str_in_dict "downloads" jsonconfig)
              then JList [JStr (mo2_dir ++ "downloads\")]
              else dict_get_default jsonconfig "downloads" JNull in
   let dls := if is_jstr dls then JList [dls] else dls in
   abort_if_not (is_jlist dls)
     (Some ("'downloads' in config must be a string or a list, got " ++ repr dls))
     75 "folders.py" ;;;
   download_dirs <-
     lift (rmapM (fun dl => _config_dir_path_json fuel dl config_dir jsonconfig)
             (match dls with JList l => l | _ => [] end)) ;;
   ret (config_dir, mo2_dir, download_dirs))%M.

(** the value of [ignores] in [Folders.__init__] *)
Definition config_ignores (jsonconfig : config) : json :=
  dict_get_default jsonconfig "ignores" (JList [JStr "{DEFAULT-IGNORES}"]).

(** [Folders.__init__], the statements after the [ignores] loop *)
Definition Folders_init_rest (fuel : nat) (jsonconfig : config)
    (config_dir mo2_dir : string) (download_dirs ignore_dirs : list string)
    : M W Folders :=
  (cache_dir <-
     lift (_config_dir_path_json fuel
             (dict_get_default jsonconfig "cache" (JStr (config_dir ++ "..\sanguine.cache\")))
             config_dir jsonconfig) ;;
   tmp_dir <-
     lift (_config_dir_path_json fuel
             (dict_get_default jsonconfig "tmp" (JStr (config_dir ++ "..\sanguine.tmp\")))
             config_dir jsonconfig) ;;
   github_dir <-
     lift (_config_dir_path_json fuel
             (dict_get_default jsonconfig "github" (JStr config_dir))
             config_dir jsonconfig) ;;
   oms <- lift (json_iter (dict_get_default jsonconfig "ownmods" (JList []))) ;;
   own_mod_names <- lift (rmapM normalize_file_name_json oms) ;;
   ret (mk_Folders config_dir mo2_dir download_dirs ignore_dirs cache_dir tmp_dir
          github_dir own_mod_names))%M.

(** [Folders.__init__] *)
Definition Folders_init (fuel : nat) (jsonconfigfname : string) (jsonconfig : config)
    : M W Folders :=
  (roots <- Folders_init_roots fuel jsonconfigfname jsonconfig ;;
   let '(config_dir, mo2_dir, download_dirs) := roots in
   let ignores := config_ignores jsonconfig in
   abort_if_not (is_jlist ignores)
     (Some ("'ignores' in config must be a list, got " ++ repr ignores)) 80 "folders.py" ;;;
   ignore_dirs <- ignore_loop mo2_dir (match ignores with JList l => l | _ => [] end) [] ;;
   Folders_init_rest fuel jsonconfig config_dir mo2_dir download_dirs ignore_dirs)%M.

(** A generator run to its end: what it yielded and, if it stopped on an
    exception, which. *)
Definition generated (A : Type) : Type := (list A * option exn)%type.

(** the loop of [Folders.all_mo2_own_mod_dirs] over the names left *)
Fixpoint all_mo2_own_mod_dirs_from (mo2dir : string) (names : list string)
    : generated string :=
  match names with
  | [] => ([], None)
  | ownmod :: names' =>
      let out := mo2dir ++ ownmod in
      if is_normalized_dir_path out then
        let (ys, stop) := all_mo2_own_mod_dirs_from mo2dir names' in (out :: ys, stop)
      else ([], Some assertion_error)
  end.

(** [Folders.all_mo2_own_mod_dirs] *)
Definition all_mo2_own_mod_dirs (self : Folders) : generated string :=
  all_mo2_own_mod_dirs_from (mo2_dir self) (own_mod_names self).

(** [Folders.dir_path_to_short_path] *)
Definition dir_path_to_short_path (self : Folders) (dirpath : string) : res string :=
  (py_assert (is_normalized_dir_path dirpath) ;;;
   to_short_path (mo2_dir self) dirpath)%res.

End FoldersPy.

(* ================================================================= *)
(** ** Notions used to state the properties *)

(** One substitution pass in the words of the specification: the
    config-directory placeholder, then the placeholder of every
    string-valued key; the flag tells whether any of these replacements
    changed the string. *)
Definition spec_subst_step (acc : string * bool) (kv : string * json) : string * bool :=
  match snd kv with
  | JStr val =>
      let p := replace (fst acc) ("{" ++ fst kv ++ "}") val in
      (p, snd acc || negb (String.eqb p (fst acc)))
  | _ => acc
  end.

Definition spec_pass (cfg : config) (configdir n : string) : string * bool :=
  let p0 := replace n "{CONFIG-DIR}" configdir in
  fold_left spec_subst_step cfg (p0, negb (String.eqb p0 n)).

(** the reserve slot [i] under [base_dir], a directory inside the marker
    directory *)
Definition reserve_slot (base_dir : string) (i : nat) : string :=
  base_dir ++ ADDED_FOLDER ++ "\" ++ "_" ++ str_of_int (Z.of_nat i) ++ "\".

(** the reserve slot [i] as [base_dir + MARKER + "_" + i + separator] *)
Definition sibling_slot (base_dir : string) (i : nat) : string :=
  base_dir ++ ADDED_FOLDER ++ "_" ++ str_of_int (Z.of_nat i) ++ "\".

(** the paths asked of [os.path.isdir], in order *)
Fixpoint examined (evs : list event) : list string :=
  match evs with
  | [] => []
  | EvIsdir p :: evs' => p :: examined evs'
  | _ :: evs' => examined evs'
  end.

(** the paths handed to [shutil.rmtree], in order *)
Fixpoint removals (evs : list event) : list string :=
  match evs with
  | [] => []
  | EvRmtree p :: evs' => p :: removals evs'
  | _ :: evs' => removals evs'
  end.

(** the paths handed to [os.makedirs], in order *)
Fixpoint creations (evs : list event) : list string :=
  match evs with
  | [] => []
  | EvMakedirs p :: evs' => p :: creations evs'
  | _ :: evs' => creations evs'
  end.

Section Properties.
Context {W : Type} {FS : Filesystem W}.

(** [path] exists and its removal fails, now and after every failed
    removal, as long as [Inv] holds of the filesystem *)
Definition unremovable (Inv : W -> Prop) (path : string) : Prop :=
  forall w, Inv w ->
    os_path_isdir w path = true /\
    exists w' e, shutil_rmtree w path = (w', Some e) /\ is_Exception e = true /\ Inv w'.

(** [first_usable w slots seen w' slot]: going through [slots] in order
    from the filesystem [w], [slot] is the first one that does not exist or
    is removed; [seen] are the slots looked at and [w'] is the filesystem
    left. *)
Inductive first_usable : W -> list string -> list string -> W -> string -> Prop :=
| fu_absent w s slots :
    os_path_isdir w s = false ->
    first_usable w (s :: slots) [s] w s
| fu_removed w s slots w' :
    os_path_isdir w s = true ->
    shutil_rmtree w s = (w', None) ->
    first_usable w (s :: slots) [s] w' s
| fu_next w s slots w' e seen w'' slot :
    os_path_isdir w s = true ->
    shutil_rmtree w s = (w', Some e) ->
    is_Exception e = true ->
    first_usable w' slots seen w'' slot ->
    first_usable w (s :: slots) (s :: seen) w'' slot.

(** [attempts n w path w' removed evs]: at most [n] removals of [path] are
    tried from [w], each failure an [OSError], with a warning and one
    second of sleep between two of them; [removed] tells whether one
    succeeded, [evs] is what was done and [w'] the filesystem left. *)
Inductive attempts : nat -> W -> string -> W -> bool -> list event -> Prop :=
| att_removed n w path w' :
    shutil_rmtree w path = (w', None) ->
    attempts (S n) w path w' true [EvRmtree path]
| att_give_up w path w' e :
    shutil_rmtree w path = (w', Some e) ->
    is_OSError e = true ->
    attempts 1 w path w' false
      [EvRmtree path;
       EvWarn ("Error trying to remove temp tree " ++ path ++ ": " ++ exn_msg e
               ++ ". Will not retry, should be removed on restart")]
| att_retry n w path w' e w'' removed evs :
    shutil_rmtree w path = (w', Some e) ->
    is_OSError e = true ->
    attempts (S n) w' path w'' removed evs ->
    attempts (S (S n)) w path w'' removed
      (EvRmtree path ::
       EvWarn ("Error trying to remove temp tree " ++ path ++ ": " ++ exn_msg e
               ++ ". Will retry in 1 sec, " ++ str_of_int (Z.of_nat (S n))
               ++ " retries left") ::
       EvSleep 1 :: evs).

End Properties.

(* ================================================================= *)
(** ** A lexical model of the library functions (ntpath, repr)

    [os.path] on Windows for drive-letter paths, after [ntpath.splitroot],
    [ntpath.normpath], [ntpath.isabs] and [ntpath.split] of Python 3.12,
    with a fixed working directory.  UNC and device prefixes, and the
    per-drive working directories of Windows, are outside the model: a
    path that names another drive without a root is taken from that
    drive's root, and the two separators that open a UNC path are read as
    one root.  The model serves to run the code on drive-letter paths;
    what is proved of UNC paths is proved from the answers of
    [os.path.abspath] itself. *)

Module NtPath.

Definition sep : ascii := "\"%char.
Definition altsep : ascii := "/"%char.
Definition colon : ascii := ":"%char.

Definition is_sep (c : ascii) : bool := Ascii.eqb c sep || Ascii.eqb c altsep.

(** [path.replace(altsep, sep)] on one character *)
Definition unslash (c : ascii) : ascii := if Ascii.eqb c altsep then sep else c.

(** [splitroot]: the drive if any, whether a root follows, the rest *)
Definition splitroot (p : string) : option string * bool * string :=
  match p with
  | EmptyString => (None, false, EmptyString)
  | String c0 p1 =>
      if is_sep c0 then (None, true, p1)
      else
        match p1 with
        | String c1 p2 =>
            if Ascii.eqb c1 colon then
              let drive := String c0 (String c1 EmptyString) in
              match p2 with
              | String c2 p3 =>
                  if is_sep c2 then (Some drive, true, p3)
                  else (Some drive, false, p2)
              | EmptyString => (Some drive, false, EmptyString)
              end
            else (None, false, p)
        | EmptyString => (None, false, p)
        end
  end.

(** the component loop of [normpath] for a rooted path; [stack] holds the
    components kept so far, the last one first *)
Fixpoint norm_comps (stack comps : list string) : list string :=
  match comps with
  | [] => rev stack
  | c :: comps' =>
      if String.eqb c "" || String.eqb c "." then norm_comps stack comps'
      else if String.eqb c ".." then norm_comps (tl stack) comps'
      else norm_comps (c :: stack) comps'
  end.

(** a component free of separators; a component [normpath] keeps *)
Definition nosep (c : string) : bool :=
  negb (contains c "\") && negb (contains c "/").

Definition regular (c : string) : bool :=
  negb (String.eqb c "") && negb (String.eqb c ".") && negb (String.eqb c "..")
  && nosep c.

Definition all_regular (cs : list string) : Prop := Forall (fun c => regular c = true) cs.
Definition all_nosep (cs : list string) : Prop := Forall (fun c => nosep c = true) cs.

Definition cwd_drive : string := "C:".
Definition cwd_comps : list string := ["work"].

Definition render (drive : string) (comps : list string) : string :=
  drive ++ "\" ++ join "\" comps.

(** [os.path.abspath] *)
Definition abspath (p : string) : string :=
  let '(drive, rooted, rest) := splitroot p in
  let comps := split_on sep (map_char unslash rest) in
  let d := match drive with Some d => d | None => cwd_drive end in
  let base := if rooted then []
              else if String.eqb (lower d) (lower cwd_drive) then cwd_comps
              else [] in
  render d (norm_comps (rev base) comps).

(** [os.path.isabs] *)
Definition isabs (p : string) : bool := snd (fst (splitroot p)).

(** [rest] cut after its last separator, both parts reversed *)
Fixpoint split_tail (acc : string) (rrest : string) : string * string :=
  match rrest with
  | EmptyString => (EmptyString, acc)
  | String c r => if is_sep c then (rrest, acc) else split_tail (String c acc) r
  end.

Fixpoint lstrip_seps (s : string) : string :=
  match s with
  | String c s' => if is_sep c then lstrip_seps s' else s
  | EmptyString => EmptyString
  end.

(** [os.path.split] *)
Definition split (p : string) : string * string :=
  let '(drive, rooted, rest) := splitroot p in
  let n := String.length p - String.length rest in
  let prefix := substring 0 n p in
  let '(rhead, tail) := split_tail EmptyString (srev rest) in
  (prefix ++ srev (lstrip_seps rhead), tail).

Definition dquote : ascii := ascii_of_nat 34.
Definition squote : ascii := "'"%char.

Definition hex_digit (n : nat) : ascii :=
  if Nat.ltb n 10 then ascii_of_nat (48 + n) else ascii_of_nat (87 + n).

Fixpoint escape (quote : ascii) (s : string) : string :=
  match s with
  | EmptyString => EmptyString
  | String c s' =>
      let n := nat_of_ascii c in
      (if Ascii.eqb c "\"%char then "\\"
       else if Ascii.eqb c quote then String "\"%char (String c EmptyString)
       else if Nat.eqb n 10 then "\n"
       else if Nat.eqb n 13 then "\r"
       else if Nat.eqb n 9 then "\t"
       else if Nat.ltb n 32 || Nat.eqb n 127 then
         "\x" ++ String (hex_digit (n / 16)) (String (hex_digit (n mod 16)) EmptyString)
       else String c EmptyString) ++ escape quote s'
  end.

(** [repr] of a string (ASCII) *)
Definition repr_str (s : string) : string :=
  let q := if contains s (String squote EmptyString)
              && negb (contains s (String dquote EmptyString))
           then dquote else squote in
  String q (escape q s) ++ String q EmptyString.

(** [repr] of a parsed JSON value *)
Fixpoint repr_json (v : json) : string :=
  match v with
  | JNull => "None"
  | JBool true => "True"
  | JBool false => "False"
  | JNum n => str_of_int n
  | JStr s => repr_str s
  | JList l => "[" ++ join ", " (map repr_json l) ++ "]"
  | JDict d => "{" ++ join ", " (map (fun kv => repr_str (fst kv) ++ ": " ++ repr_json (snd kv)) d) ++ "}"
  end.

#[export] Instance pylib : PyLib := {
  os_path_abspath := abspath;
  os_path_isabs := isabs;
  os_path_split := split;
  repr := repr_json
}.

End NtPath.

(* ================================================================= *)
(** ** A model filesystem

    The directories that exist, the paths another process holds open, and
    the removals that are going to fail once: [rmtree] on a held path
    always raises; otherwise it raises the first pending fault registered
    for the path and uses it up; without one it removes the directory and
    all below it. *)

Module SimFS.

Record fs : Type := mk_fs {
  dirs : list string;                 (* the directories that exist *)
  locked : list string;               (* paths whose removal always fails *)
  rm_faults : list (string * exn)     (* removals that fail once *)
}.

Definition mem (p : string) (l : list string) : bool := existsb (String.eqb p) l.

Fixpoint pop_fault (p : string) (faults : list (string * exn))
    : option (exn * list (string * exn)) :=
  match faults with
  | [] => None
  | (q, e) :: faults' =>
      if String.eqb q p then Some (e, faults')
      else match pop_fault p faults' with
           | Some (e', rest) => Some (e', (q, e) :: rest)
           | None => None
           end
  end.

Definition file_not_found : exn := mk_exn OSError "No such file or directory".
Definition file_exists : exn := mk_exn OSError "File exists".
Definition in_use : exn := mk_exn OSError "The process cannot access the file".

Definition sim_isdir (w : fs) (p : string) : bool := mem p (dirs w).

Definition sim_rmtree (w : fs) (p : string) : fs * option exn :=
  if mem p (locked w) then (w, Some in_use)
  else
    match pop_fault p (rm_faults w) with
    | Some (e, faults') => (mk_fs (dirs w) (locked w) faults', Some e)
    | None =>
        if mem p (dirs w)
        then (mk_fs (filter (fun d => negb (startswith d p)) (dirs w))
                (locked w) (rm_faults w), None)
        else (w, Some file_not_found)
    end.

(** the prefixes of [s] that end with a separator, after [pre] *)
Fixpoint dir_prefixes (pre s : string) : list string :=
  match s with
  | EmptyString => []
  | String c s' =>
      let pre' := pre ++ String c EmptyString in
      if Ascii.eqb c NtPath.sep then pre' :: dir_prefixes pre' s'
      else dir_prefixes pre' s'
  end.

Definition add_dir (ds : list string) (d : string) : list string :=
  if mem d ds then ds else (ds ++ [d])%list.

Definition sim_makedirs (w : fs) (p : string) : fs * option exn :=
  if mem p (dirs w) then (w, Some file_exists)
  else (mk_fs (fold_left add_dir (dir_prefixes EmptyString p ++ [p])%list (dirs w))
          (locked w) (rm_faults w), None).

#[export] Instance filesystem : Filesystem fs := {
  os_path_isdir := sim_isdir;
  shutil_rmtree := sim_rmtree;
  os_makedirs := sim_makedirs
}.

End SimFS.

(* ================================================================= *)
(** ** Scenarios *)

Module Scenarios.
Import NtPath SimFS.

(** the interpreter as started by default, and under [python -O] *)
#[export] Instance python : Interpreter := {| __debug__ := true |}.
Definition python_O : Interpreter := {| __debug__ := false |}.

Definition base : string := "c:\tmp\".
Definition marker_dir : string := "c:\tmp\JBSLtet9\".
Definition self0 : TmpPath := mk_TmpPath marker_dir.
Definition lock_error : exn := mk_exn OSError "Access is denied".

(** nothing on disk *)
Definition fs_empty : fs := mk_fs [] [] [].

(** the marker directory and the ten reserve slots exist and are held
    open by another process *)
Definition fs_all_locked : fs :=
  let held := marker_dir :: map (reserve_slot base) (seq 0 MAX_RESERVE_FOLDERS) in
  mk_fs (base :: held) held [].

(** a stale marker directory whose next removal fails *)
Definition fs_stale : fs :=
  mk_fs [base; marker_dir] [] [(marker_dir, lock_error)].

(** as [fs_stale], with reserve slot 0 present and failing once as well *)
Definition fs_stale_slot0 : fs :=
  mk_fs [base; marker_dir; reserve_slot base 0] []
    [(marker_dir, lock_error); (reserve_slot base 0, lock_error)].

(** the workspace, with a subdirectory, locked for two removals *)
Definition fs_two_faults : fs :=
  mk_fs [base; marker_dir; marker_dir ++ "sub\"] []
    [(marker_dir, lock_error); (marker_dir, lock_error)].

(** a mod directory with content, no workspace anywhere *)
Definition fs_mods : fs :=
  mk_fs ["c:\mo2\"; "c:\mo2\mods\"; "c:\mo2\mods\skyui\"] [] [].

Definition config_file : string := "c:\cfg\sanguine.json".

Definition config_ownmods : config :=
  [("mo2", JStr "c:\MO2"); ("ownmods", JList [JStr "MyPatch"])].

Definition config_ignores_inside : config :=
  [("mo2", JStr "c:\MO2");
   ("ignores", JList [JStr "{DEFAULT-IGNORES}"; JStr "Mods\Cache"])].

Definition config_ignores_outside : config :=
  [("mo2", JStr "c:\MO2"); ("ignores", JList [JStr "logs"; JStr "..\other"])].

(** an [ignores] entry that resolves to the root of the drive *)
Definition config_ignores_root : config :=
  [("mo2", JStr "c:\MO2"); ("ignores", JList [JStr ".."])].

(** a value that names the config directory by its placeholder *)
Definition config_placeholder : config :=
  [("mo2", JStr "{CONFIG-DIR}MO2")].

(** the configuration of the fixed-point example *)
Definition config_tokens : config :=
  [("mo2", JStr "M\"); ("x", JStr "{mo2}sub\")].

End Scenarios.

(* ================================================================= *)
(** ** More of sanguine/common.py *)

Module PyStrMore.
Import PyStr.

Definition is_lower_letter (c : ascii) : bool :=
  let n := nat_of_ascii c in Nat.leb 97 n && Nat.leb n 122.

Fixpoint any_char (f : ascii -> bool) (s : string) : bool :=
  match s with
  | EmptyString => false
  | String c s' => f c || any_char f s'
  end.

(** [s.islower()] for a string of ASCII characters: no upper-case letter
    and at least one lower-case one.  A character above 127 counts as
    caseless here, while Python knows cased ones among them. *)
Definition islower (s : string) : bool :=
  negb (any_char is_upper s) && any_char is_lower_letter s.

Definition is_ascii_char (c : ascii) : bool := Nat.ltb (nat_of_ascii c) 128.

(** [s.isascii()] *)
Fixpoint isascii (s : string) : bool :=
  match s with
  | EmptyString => true
  | String c s' => is_ascii_char c && isascii s'
  end.

(** [c.isspace()] for a character below 256 *)
Definition is_space (c : ascii) : bool :=
  let n := nat_of_ascii c in
  (Nat.leb 9 n && Nat.leb n 13) || (Nat.leb 28 n && Nat.leb n 32)
  || Nat.eqb n 133 || Nat.eqb n 160.

(** [s.rstrip()] *)
Fixpoint rstrip (s : string) : string :=
  match s with
  | EmptyString => EmptyString
  | String c s' =>
      match rstrip s' with
      | EmptyString => if is_space c then EmptyString else String c EmptyString
      | r => String c r
      end
  end.

(** [s[:n]] *)
Fixpoint slice_to (n : nat) (s : string) : string :=
  match n, s with
  | O, _ => EmptyString
  | S _, EmptyString => EmptyString
  | S k, String c s' => String c (slice_to k s')
  end.

(** the newline character *)
Definition nl : string := String (ascii_of_nat 10) EmptyString.

End PyStrMore.

Import PyStrMore.

Definition index_error : exn := mk_exn OtherException "IndexError".

Section CommonMore.
Context {PL : PyLib}.

Definition is_short_file_path (fpath : string) : res bool :=
  (py_assert (negb (endswith fpath "\") && negb (endswith fpath "/")) ;;;
   if negb (islower fpath) then Ok false
   else Ok (negb (os_path_isabs fpath)))%res.

Definition is_short_dir_path (fpath : string) : bool :=
  islower fpath && endswith fpath "\" && negb (os_path_isabs fpath).

Definition is_normalized_file_name (fname : string) : bool :=
  if contains fname "/" || contains fname "\" then false
  else islower fname.

Definition normalize_archive_intra_path (fpath : string) : res string :=
  (b <- is_short_file_path (lower fpath) ;;
   py_assert b ;;;
   Ok (lower fpath))%res.

(** [is_esl_flagged], [open_rb] giving the bytes of the file or the
    exception of [open]: [f.read(10)] takes at most ten bytes and
    [buf[0x9]] raises [IndexError] on fewer *)
Definition is_esl_flagged (open_rb : string -> res (list Z)) (filename : string)
    : res bool :=
  (content <- open_rb filename ;;
   let buf := firstn 10 content in
   match nth_error buf 9 with
   | Some b => Ok (Z.eqb (Z.land b 2) 2)
   | None => Raise index_error
   end)%res.

End CommonMore.

Section DictOfLists.
Variables K V : Type.
Variable key_eqb : K -> K -> bool.

(** a [dict] whose values are lists, in insertion order *)
Definition dict_of_lists : Type := list (K * list V).

(** [d.get(key)] *)
Fixpoint dol_get (d : dict_of_lists) (key : K) : option (list V) :=
  match d with
  | [] => None
  | (k, l) :: d' => if key_eqb k key then Some l else dol_get d' key
  end.

(** [add_to_dict_of_lists]; the dict after the call *)
Fixpoint add_to_dict_of_lists (dicttolook : dict_of_lists) (key : K) (val : V)
    : dict_of_lists :=
  match dicttolook with
  | [] => [(key, [val])]
  | (k, l) :: d' =>
      if key_eqb k key then (k, (l ++ [val])%list) :: d'
      else (k, l) :: add_to_dict_of_lists d' key val
  end.

End DictOfLists.
Arguments dol_get {K V} key_eqb d key.
Arguments add_to_dict_of_lists {K V} key_eqb dicttolook key val.

(* ================================================================= *)
(** ** More of sanguine/folders.py *)

Section FoldersMore.
Context {PL : PyLib}.

(** [Folders.all_own_mods] *)
Definition all_own_mods (self : Folders) : generated string :=
  (own_mod_names self, None).

(** the loop of [Folders.all_git_own_mod_dirs] over the names left *)
Fixpoint all_git_own_mod_dirs_from (githubdir : string) (names : list string)
    : generated string :=
  match names with
  | [] => ([], None)
  | ownmod :: names' =>
      let out := githubdir ++ "\mo2\mods" ++ ownmod in
      if is_normalized_dir_path out then
        let (ys, stop) := all_git_own_mod_dirs_from githubdir names' in (out :: ys, stop)
      else ([], Some assertion_error)
  end.

(** [Folders.all_git_own_mod_dirs] *)
Definition all_git_own_mod_dirs (self : Folders) : generated string :=
  all_git_own_mod_dirs_from (github_dir self) (own_mod_names self).

(** [Folders.file_path_to_short_path] *)
Definition file_path_to_short_path (self : Folders) (fpath : string) : res string :=
  (py_assert (is_normalized_file_path fpath) ;;;
   to_short_path (mo2_dir self) fpath)%res.

(** [Folders.short_file_path_to_path] *)
Definition short_file_path_to_path (self : Folders) (fpath : string) : res string :=
  (b <- is_short_file_path fpath ;;
   py_assert b ;;;
   Ok (mo2_dir self ++ fpath))%res.

(** [Folders.short_dir_path_to_path] *)
Definition short_dir_path_to_path (self : Folders) (dirpath : string) : res string :=
  (py_assert (is_short_dir_path dirpath) ;;;
   Ok (mo2_dir self ++ dirpath))%res.

(** [Folders.normalize_config_dir_path] *)
Definition normalize_config_dir_path (self : Folders) (path : string) : res string :=
  _normalize_config_dir_path path (config_dir self).

(** [Folders.normalize_config_file_path] *)
Definition normalize_config_file_path (self : Folders) (path : string) : res string :=
  let spl := os_path_split path in
  (d <- _normalize_config_dir_path (fst spl) (config_dir self) ;;
   Ok (d ++ snd spl))%res.

End FoldersMore.

(** a computation that leaves the filesystem alone and, when it returns,
    has logged nothing *)
Definition quiet {W A : Type} (m : M W A) : Prop :=
  forall st r st', m st = (r, st') ->
    world st' = world st /\ (forall a, r = Ok a -> st' = st).

(* ================================================================= *)
(** ** modlist.py

    The lines of [modlist.txt], as iterating the file opened by
    [openModTxtFile] gives them, are the argument of [ModList_init]; what
    [write] and [writeDisablingIf] do is the list of strings handed to
    [wfile.write]. *)

Module ModListPy.

Record ModList : Type := mk_ModList { modlist : list string }.

(** the filter of [__init__] *)
Definition kept (s : string) : bool :=
  endswith s "_separator" || negb (startswith s "-").

(** [ModList.__init__] *)
Definition ModList_init (rfile : list string) : ModList :=
  mk_ModList (rev (filter kept (map rstrip rfile))).

Definition header : string :=
  "# This file was automatically modified by mo2git." ++ nl.

(** [ModList.write] *)
Definition write (self : ModList) : list string :=
  header :: map (fun line => line ++ nl) (rev (modlist self)).

(** the loop of [writeDisablingIf]: the strings written and the exception
    that stopped it; [mod0[0]] raises [IndexError] on an empty line *)
Fixpoint writeDisablingIf_loop (lines : list string) (f : string -> bool)
    : generated string :=
  match lines with
  | [] => ([], None)
  | mod0 :: lines' =>
      match mod0 with
      | EmptyString => ([], Some index_error)
      | String c _ =>
          let out :=
            if Ascii.eqb c "+" then
              let mod_ := slice_from 1 mod0 in
              if f mod_ then "-" ++ mod_ ++ nl else mod0 ++ nl
            else mod0 ++ nl in
          let (ws, stop) := writeDisablingIf_loop lines' f in (out :: ws, stop)
      end
  end.

(** [ModList.writeDisablingIf] *)
Definition writeDisablingIf (self : ModList) (f : string -> bool) : generated string :=
  let (ws, stop) := writeDisablingIf_loop (rev (modlist self)) f in
  (header :: ws, stop).

(** the loop of [allEnabled] *)
Fixpoint allEnabled_from (lines : list string) : generated string :=
  match lines with
  | [] => ([], None)
  | mod_ :: lines' =>
      match mod_ with
      | EmptyString => ([], Some index_error)
      | String c _ =>
          let (ys, stop) := allEnabled_from lines' in
          if Ascii.eqb c "+" then (slice_from 1 mod_ :: ys, stop) else (ys, stop)
      end
  end.

(** [ModList.allEnabled] *)
Definition allEnabled (self : ModList) : generated string :=
  allEnabled_from (modlist self).

(** [ModList.isSeparator] *)
Definition isSeparator (modname : string) : option string :=
  if endswith modname "_separator"
  then Some (slice_to (String.length modname - String.length "_separator") modname)
  else None.

(** the lines a text file gives when iterated: each ends with its
    newline, but for a last line without one *)
Fixpoint file_lines (content : string) : list string :=
  match content with
  | EmptyString => []
  | String c content' =>
      if Ascii.eqb c (ascii_of_nat 10) then String c EmptyString :: file_lines content'
      else match file_lines content' with
           | [] => [String c EmptyString]
           | l :: ls => String c l :: ls
           end
  end.

(** the file a series of [wfile.write] calls leaves *)
Definition written (chunks : list string) : string := String.concat "" chunks.

(** no newline in [s] *)
Definition nonl (s : string) : Prop := contains s nl = false.

(** the lines [__init__] keeps, in file order *)
Definition kept_lines (rfile : list string) : list string :=
  filter kept (map rstrip rfile).

(** the names [allEnabled] is after: the lines that start with ["+"],
    without it *)
Definition plus (l : string) : bool := startswith l "+".
Definition enabled_names (lines : list string) : list string :=
  map (slice_from 1) (filter plus lines).

(** what [writeDisablingIf] writes for one line, before the newline *)
Definition disabled_line (f : string -> bool) (l : string) : string :=
  if plus l && f (slice_from 1 l) then "-" ++ slice_from 1 l else l.

End ModListPy.

(* ================================================================= *)
(** ** sanguine/install/_install_checks.py

    [importlib.import_module] either returns or raises [ImportError],
    [subprocess.call] returns the exit status of git or raises;
    [os._exit] ends the process. *)

Module InstallChecks.

Definition REQUIRED_PIP_MODULES : list string := ["json5"; "bethesda-structs"; "pywin32"].

Definition PIP2PYTHON_MODULE_NAME_REMAPPING : config :=
  [("bethesda-structs", JStr "bethesda_structs");
   ("pywin32", JList [JStr "win32api"; JStr "win32file"])].

Inductive ievent : Type :=
| IvImport (module : string)            (* importlib.import_module *)
| IvCall (args : list string)           (* subprocess.call *)
| IvCritical (msg : string)
| IvInfo (msg : string).

(** how the process goes on after a statement *)
Inductive flow (A : Type) : Type :=
| Next (a : A)
| Exit (status : Z)                      (* os._exit *)
| Fail (e : exn).
Arguments Next {A} a.
Arguments Exit {A} status.
Arguments Fail {A} e.

Record env : Type := mk_env {
  importable : string -> bool;     (* does the import return *)
  git_version : Z + exn            (* the status of git --version, or the
                                      exception of subprocess.call *)
}.

Definition I (A : Type) : Type := list ievent -> flow A * list ievent.

Definition iret {A} (a : A) : I A := fun t => (Next a, t).

Definition ibind {A B} (m : I A) (k : A -> I B) : I B :=
  fun t =>
    match m t with
    | (Next a, t') => k a t'
    | (Exit s, t') => (Exit s, t')
    | (Fail e, t') => (Fail e, t')
    end.

Definition iemit (ev : ievent) : I unit := fun t => (Next tt, (t ++ [ev])%list).

Definition os_exit {A} (status : Z) : I A := fun t => (Exit status, t).

Section WithEnv.
Variable E : env.

Definition _is_module_installed (module : string) : I bool :=
  ibind (iemit (IvImport module)) (fun _ => iret (importable E module)).

Definition _not_installed (msg : string) : I unit :=
  ibind (iemit (IvCritical msg)) (fun _ =>
  ibind (iemit (IvCritical
           "Aborting. Please make sure to run sanguine-rose/sanguine-install.py")) (fun _ =>
  os_exit 1)).

Definition _check_module (m : string) : I unit :=
  ibind (_is_module_installed m) (fun ok =>
  if negb ok then _not_installed ("Module " ++ m ++ " is not installed.")
  else iret tt).

Fixpoint for_each {A} (body : A -> I unit) (l : list A) : I unit :=
  match l with
  | [] => iret tt
  | a :: l' => ibind (body a) (fun _ => for_each body l')
  end.

(** [_check_module] on a value of the remapping: a name, or one of the
    names of a list *)
Definition check_json_name (v : json) : I unit :=
  match v with
  | JStr s => _check_module s
  | _ => fun t => (Fail type_error, t)
  end.

Definition check_pip_module (m : string) : I unit :=
  match dict_get PIP2PYTHON_MODULE_NAME_REMAPPING m with
  | Some val =>
      match val with
      | JList l => for_each check_json_name l
      | _ => check_json_name val
      end
  | None => _check_module m
  end.

Definition subprocess_call (args : list string) : I Z :=
  ibind (iemit (IvCall args)) (fun _ =>
  fun t => match git_version E with
           | inl rc => (Next rc, t)
           | inr e => (Fail e, t)
           end).

Definition check_sanguine_prerequisites (frominstall : bool) : I unit :=
  ibind (for_each check_pip_module REQUIRED_PIP_MODULES) (fun _ =>
  ibind (subprocess_call ["git"; "--version"]) (fun rc =>
  ibind (if negb (Z.eqb rc 0) then
           ibind (iemit (IvCritical "git is not found in PATH.")) (fun _ =>
           ibind (iemit (IvCritical
                    ((if frominstall then "Aborting. " else "")
                     ++ "Please make sure to install "
                     ++ String (ascii_of_nat 34) "Git for Windows"
                     ++ String (ascii_of_nat 34) " or "
                     ++ String (ascii_of_nat 34) "GitHub Desktop"
                     ++ String (ascii_of_nat 34)
                          " (preferred) and include folder with git.exe into PATH."))) (fun _ =>
           os_exit 1))
         else iret tt) (fun _ =>
  iemit (IvInfo "All sanguine prerequisites are ok.")))).

End WithEnv.

(** the Python modules the check imports, in order *)
Definition python_modules : list string :=
  ["json5"; "bethesda_structs"; "win32api"; "win32file"].

(** the modules of [ms] up to the first that cannot be imported, it
    included *)
Fixpoint tried (E : env) (ms : list string) : list string :=
  match ms with
  | [] => []
  | m :: ms' => m :: (if importable E m then tried E ms' else [])
  end.

Definition git_message (frominstall : bool) : string :=
  (if frominstall then "Aborting. " else "")
  ++ "Please make sure to install "
  ++ String (ascii_of_nat 34) "Git for Windows"
  ++ String (ascii_of_nat 34) " or "
  ++ String (ascii_of_nat 34) "GitHub Desktop"
  ++ String (ascii_of_nat 34) " (preferred) and include folder with git.exe into PATH.".

End InstallChecks.

(* ================================================================= *)
(** ** More scenarios *)

Module MoreScenarios.
Import NtPath SimFS Scenarios ModListPy.

(** a resolved configuration *)
Definition folders0 : Folders :=
  mk_Folders "c:\cfg\" "c:\mo2\" ["c:\mo2\downloads\"] [] "c:\sanguine.cache\"
    "c:\sanguine.tmp\" "c:\cfg\" ["mypatch"].

Definition config_two_ignores : config :=
  [("mo2", JStr "c:\MO2"); ("ignores", JList [JStr "logs"; JStr "Mods\Cache"])].

Definition interrupt : exn := mk_exn NonException "KeyboardInterrupt".
Definition value_error : exn := mk_exn OtherException "ValueError".

(** the workspace, its next removal raising something that is no
    [OSError] *)
Definition fs_odd_fault : fs :=
  mk_fs [base; marker_dir] [] [(marker_dir, value_error)].

(** a plugin file: a header of twelve bytes, the flags at offset 8 *)
Definition plugin_bytes : list Z := [84; 69; 83; 52; 0; 0; 0; 0; 0; 2; 0; 0]%Z.

Definition modlist_txt : string :=
  "# This file was automatically generated by Mod Organizer." ++ nl
  ++ "+Patch" ++ nl ++ "-Old" ++ nl ++ "+Textures  " ++ nl
  ++ "-Visuals_separator" ++ nl.

Definition modlist_blank : list string := ["+Patch" ++ nl; nl; "-Old" ++ nl].

End MoreScenarios.

(* ================================================================= *)
(** * Facts about the string primitives *)

Module PyStrFacts.
Import PyStr.

Lemma append_nil_r (s : string) : s ++ "" = s.
Proof. induction s; simpl; congruence. Qed.

Lemma append_assoc (a b c : string) : (a ++ b) ++ c = a ++ (b ++ c).
Proof. induction a; simpl; congruence. Qed.

Lemma append_eq_nil (a b : string) : a ++ b = "" -> a = "" /\ b = "".
Proof. destruct a; simpl; [auto | discriminate]. Qed.

Lemma length_append (a b : string) :
  String.length (a ++ b) = String.length a + String.length b.
Proof. induction a; simpl; congruence. Qed.

Lemma eqb_cons (c d : ascii) (s t : string) :
  String.eqb (String c s) (String d t) = Ascii.eqb c d && String.eqb s t.
Proof. simpl. destruct (Ascii.eqb c d); reflexivity. Qed.

Lemma prefix_nil (s : string) : String.prefix "" s = true.
Proof. destruct s; reflexivity. Qed.

Lemma prefix_cons (c d : ascii) (m s : string) :
  String.prefix (String c m) (String d s) = Ascii.eqb c d && String.prefix m s.
Proof.
  simpl. destruct (Ascii.eqb_spec c d) as [->|Hne].
  - destruct (ascii_dec d d); [reflexivity | congruence].
  - destruct (ascii_dec c d); [congruence | reflexivity].
Qed.

Lemma prefix_app (a b : string) : String.prefix a (a ++ b) = true.
Proof.
  induction a as [|c a IH]; [apply prefix_nil|].
  change (String c a ++ b) with (String c (a ++ b)).
  rewrite prefix_cons, Ascii.eqb_refl. exact IH.
Qed.

Lemma prefix_app_l (m s t : string) :
  String.prefix m s = true -> String.prefix m (s ++ t) = true.
Proof.
  revert s. induction m as [|c m IH]; intros s H; [apply prefix_nil|].
  destruct s as [|d s]; [discriminate|].
  change (String d s ++ t) with (String d (s ++ t)).
  rewrite prefix_cons in *. apply andb_true_iff in H as [-> H]. simpl. auto.
Qed.

Lemma startswith_app (a b : string) : startswith (a ++ b) a = true.
Proof. apply prefix_app. Qed.

Lemma slice_from_app (a b : string) : slice_from (String.length a) (a ++ b) = b.
Proof. induction a; simpl; [destruct b; reflexivity | assumption]. Qed.

Lemma startswith_slice (s base : string) :
  startswith s base = true -> s = base ++ slice_from (String.length base) s.
Proof.
  unfold startswith. revert s. induction base as [|c base IH]; intros s H.
  - destruct s; reflexivity.
  - destruct s as [|d s]; [discriminate|].
    rewrite prefix_cons in H. apply andb_true_iff in H as [Hc H].
    apply Ascii.eqb_eq in Hc. subst d. simpl. f_equal. auto.
Qed.

Lemma contains_app_l (s t m : string) :
  contains s m = true -> contains (s ++ t) m = true.
Proof.
  induction s as [|c s IH]; cbn [contains append]; intros H.
  - rewrite orb_false_r in H. destruct m; [|discriminate].
    destruct t; reflexivity.
  - apply orb_true_iff in H as [H|H].
    + change (String c (s ++ t)) with (String c s ++ t).
      rewrite (prefix_app_l _ _ _ H). reflexivity.
    + rewrite (IH H). apply orb_true_r.
Qed.

Lemma contains_app_r (s t m : string) :
  contains t m = true -> contains (s ++ t) m = true.
Proof.
  intros H. induction s as [|c s IH]; cbn [contains append]; [exact H|].
  rewrite IH. apply orb_true_r.
Qed.

Lemma contains_refl (m : string) : contains m m = true.
Proof.
  destruct m as [|a m]; [reflexivity|]. cbn [contains].
  rewrite <- (append_nil_r (String a m)) at 2.
  rewrite prefix_app. reflexivity.
Qed.

Lemma endswith_refl (s : string) : endswith s s = true.
Proof. destruct s; cbn [endswith]; rewrite String.eqb_refl; reflexivity. Qed.

Lemma endswith_app (s suf : string) : endswith (s ++ suf) suf = true.
Proof.
  induction s as [|c s IH]; cbn [endswith append]; [apply endswith_refl|].
  rewrite IH. apply orb_true_r.
Qed.

Lemma endswith_contains (s m : string) : endswith s m = true -> contains s m = true.
Proof.
  induction s as [|c s IH]; cbn [endswith contains]; intros H.
  - rewrite orb_false_r in *. apply String.eqb_eq in H. subst m. reflexivity.
  - apply orb_true_iff in H as [H|H].
    + apply String.eqb_eq in H. subst m. apply (contains_refl (String c s)).
    + rewrite (IH H). apply orb_true_r.
Qed.

(** a string that ends with [m] after a non-empty tail [n] has [m] in [n],
    when [m] is one character *)
Lemma endswith_app_tail (a n : string) (c : ascii) :
  n <> "" -> endswith (a ++ n) (String c "") = true ->
  contains n (String c "") = true.
Proof.
  intros Hn. induction a as [|d a IH]; cbn [append]; intros H.
  - apply endswith_contains. exact H.
  - cbn [endswith] in H. apply orb_true_iff in H as [H|H]; [|auto].
    rewrite eqb_cons in H. apply andb_true_iff in H as [_ H].
    apply String.eqb_eq, append_eq_nil in H. tauto.
Qed.

Lemma lower_app (a b : string) : lower (a ++ b) = lower a ++ lower b.
Proof. induction a; simpl; congruence. Qed.

Lemma lower_char_idem (c : ascii) : lower_char (lower_char c) = lower_char c.
Proof. destruct c as [[] [] [] [] [] [] [] []]; reflexivity. Qed.

Lemma lower_idem (s : string) : lower (lower s) = lower s.
Proof. induction s; simpl; rewrite ?lower_char_idem; congruence. Qed.

Lemma lower_char_backslash (c : ascii) :
  Ascii.eqb (lower_char c) "\" = Ascii.eqb c "\".
Proof. destruct c as [[] [] [] [] [] [] [] []]; reflexivity. Qed.

Lemma lower_char_slash (c : ascii) :
  Ascii.eqb (lower_char c) "/" = Ascii.eqb c "/".
Proof. destruct c as [[] [] [] [] [] [] [] []]; reflexivity. Qed.

Lemma lower_char_colon (c : ascii) :
  Ascii.eqb (lower_char c) ":" = Ascii.eqb c ":".
Proof. destruct c as [[] [] [] [] [] [] [] []]; reflexivity. Qed.

Lemma lower_char_dot (c : ascii) :
  Ascii.eqb (lower_char c) "." = Ascii.eqb c ".".
Proof. destruct c as [[] [] [] [] [] [] [] []]; reflexivity. Qed.

Lemma lower_char_not_upper (c : ascii) : is_upper (lower_char c) = false.
Proof. destruct c as [[] [] [] [] [] [] [] []]; reflexivity. Qed.

Lemma lower_eq_nil (s : string) : lower s = "" -> s = "".
Proof. destruct s; [reflexivity | discriminate]. Qed.

(** comparing with a one-character string that lowering leaves alone *)
Lemma lower_eqb_char (s : string) (c : ascii) :
  (forall d, Ascii.eqb (lower_char d) c = Ascii.eqb d c) ->
  String.eqb (lower s) (String c "") = String.eqb s (String c "").
Proof.
  intros Hc. destruct s as [|d s]; [reflexivity|].
  simpl lower. rewrite !eqb_cons, Hc. f_equal.
  destruct s; reflexivity.
Qed.

Lemma endswith_lower (s : string) (c : ascii) :
  (forall d, Ascii.eqb (lower_char d) c = Ascii.eqb d c) ->
  endswith (lower s) (String c "") = endswith s (String c "").
Proof.
  intros Hc. induction s as [|d s IH]; [reflexivity|].
  change (lower (String d s)) with (String (lower_char d) (lower s)).
  cbn [endswith]. rewrite IH. f_equal.
  apply (lower_eqb_char (String d s) c Hc).
Qed.

Lemma contains_char_cons (d c : ascii) (s : string) :
  contains (String d s) (String c "") = Ascii.eqb c d || contains s (String c "").
Proof.
  cbn [contains]. rewrite prefix_cons, prefix_nil, andb_true_r. reflexivity.
Qed.

Lemma contains_char_nil (c : ascii) : contains "" (String c "") = false.
Proof. reflexivity. Qed.

Lemma contains_lower (s : string) (c : ascii) :
  (forall d, Ascii.eqb (lower_char d) c = Ascii.eqb d c) ->
  contains (lower s) (String c "") = contains s (String c "").
Proof.
  intros Hc. induction s as [|d s IH]; [reflexivity|].
  change (lower (String d s)) with (String (lower_char d) (lower s)).
  rewrite !contains_char_cons, IH. f_equal.
  rewrite (Ascii.eqb_sym c), Hc. apply Ascii.eqb_sym.
Qed.

Lemma contains_char_app (a b : string) (c : ascii) :
  contains (a ++ b) (String c "") = contains a (String c "") || contains b (String c "").
Proof.
  induction a as [|d a IH]; [reflexivity|].
  change (String d a ++ b) with (String d (a ++ b)).
  rewrite !contains_char_cons, IH. apply orb_assoc.
Qed.

(** lowering leaves no upper-case letter *)
Lemma contains_lower_upper (s : string) (c : ascii) :
  is_upper c = true -> contains (lower s) (String c "") = false.
Proof.
  intros Hc. induction s as [|d s IH]; [reflexivity|].
  change (lower (String d s)) with (String (lower_char d) (lower s)).
  rewrite contains_char_cons, IH, orb_false_r.
  destruct (Ascii.eqb_spec c (lower_char d)) as [E|]; [|reflexivity].
  rewrite E, lower_char_not_upper in Hc. discriminate.
Qed.

(** a pattern with a character that [s] lacks does not occur in [s] *)
Lemma replace_aux_absent (old new s : string) (c : ascii) :
  (forall t, String.prefix old t = true -> contains t (String c "") = true) ->
  contains s (String c "") = false ->
  replace_aux old new 0 s = s.
Proof.
  intros Hold. induction s as [|d s IH]; intros Hs; [reflexivity|].
  cbn [replace_aux].
  destruct (String.prefix old (String d s)) eqn:Hp.
  - apply Hold in Hp. congruence.
  - rewrite contains_char_cons in Hs. apply orb_false_iff in Hs as [_ Hs].
    rewrite (IH Hs). reflexivity.
Qed.

Lemma last_char_differs (a b : string) (c d : ascii) :
  c <> d -> a ++ String c "" <> b ++ String d "".
Proof.
  intros Hcd. revert b. induction a as [|x a IH]; intros [|y b]; simpl; intros E.
  - congruence.
  - injection E as _ E. destruct b; discriminate.
  - injection E as _ E. destruct a; discriminate.
  - injection E as _ E. exact (IH _ E).
Qed.

End PyStrFacts.

(* ================================================================= *)
(** * The temporary workspace (TmpPath) *)

Section TmpPathFacts.
Context {W : Type} {FS : Filesystem W} {PY : Interpreter}.
Import PyStr PyStrFacts.

Lemma marker_segment_eq : marker_segment = "\JBSLtet9\".
Proof. reflexivity. Qed.

Lemma rm_tmp_tree_marked (fuel : nat) (path : string) (st : state W) :
  contains path marker_segment = true ->
  rm_tmp_tree fuel path st = rm_tmp_tree_loop fuel path MAX_RMTREE_RETRIES st.
Proof.
  intros H. unfold rm_tmp_tree, bind, lift, assert_stmt, py_assert. rewrite H.
  destruct __debug__; reflexivity.
Qed.

(** without its [assert] statements the function is its removal loop,
    whatever the path *)
Lemma rm_tmp_tree_optimized (fuel : nat) (path : string) (st : state W) :
  __debug__ = false ->
  rm_tmp_tree fuel path st = rm_tmp_tree_loop fuel path MAX_RMTREE_RETRIES st.
Proof.
  intros H. unfold rm_tmp_tree, bind, lift, assert_stmt. rewrite H. reflexivity.
Qed.

(** C1 (as amended). Under an interpreter that executes [assert]
    statements ([__debug__] true, the default), [rm_tmp_tree] called with a
    path that lacks the marker segment raises [AssertionError] and leaves
    the state as it was: the filesystem is untouched and no call of
    [shutil.rmtree] (or any other event) has been made. *)
Theorem C1_rm_tmp_tree_refuses_unmarked (fuel : nat) (path : string) (st : state W) :
  __debug__ = true ->
  contains path marker_segment = false ->
  rm_tmp_tree fuel path st = (Raise assertion_error, st).
Proof.
  intros Hd H. unfold rm_tmp_tree, bind, lift, assert_stmt, py_assert.
  rewrite Hd, H. reflexivity.
Qed.

(** C10. From a base that ends with the separator and contains the marker
    segment, [tmp_in_tmp] returns [tmpbase + prefix + str(num) + "\"];
    the result ends with the separator, contains the marker segment, and
    passes the marker assertion of [rm_tmp_tree]. *)
Theorem C10_tmp_in_tmp_stays_marked (tmpbase prefix : string) (num : Z) :
  endswith tmpbase "\" = true ->
  contains tmpbase marker_segment = true ->
  let sub := tmpbase ++ prefix ++ str_of_int num ++ "\" in
  tmp_in_tmp tmpbase prefix num = Ok sub /\
  endswith sub "\" = true /\
  contains sub marker_segment = true /\
  forall fuel (st : state W),
    rm_tmp_tree fuel sub st = rm_tmp_tree_loop fuel sub MAX_RMTREE_RETRIES st.
Proof.
  intros He Hc sub.
  assert (Hsub : contains sub marker_segment = true)
    by (apply contains_app_l; exact Hc).
  repeat split.
  - unfold tmp_in_tmp. rewrite He, Hc. reflexivity.
  - unfold sub. rewrite <- !append_assoc. apply endswith_app.
  - exact Hsub.
  - intros fuel st. apply rm_tmp_tree_marked. exact Hsub.
Qed.

Lemma rm_tmp_tree_loop_step (fuel n : nat) (path : string) (st : state W) :
  rm_tmp_tree_loop (S fuel) path (Z.of_nat (S n)) st =
  try_except (rmtree path) is_OSError
    (fun e =>
       if (Z.of_nat n <=? 0)%Z then
         warn ("Error trying to remove temp tree " ++ path ++ ": " ++ exn_msg e
               ++ ". Will not retry, should be removed on restart")
       else
         (warn ("Error trying to remove temp tree " ++ path ++ ": " ++ exn_msg e
                ++ ". Will retry in 1 sec, " ++ str_of_int (Z.of_nat n) ++ " retries left") ;;;
          sleep 1 ;;;
          rm_tmp_tree_loop fuel path (Z.of_nat n))%M) st.
Proof.
  cbn [rm_tmp_tree_loop].
  replace (Z.of_nat (S n) - 1)%Z with (Z.of_nat n) by lia.
  reflexivity.
Qed.

(** the loop of [rm_tmp_tree] does what [attempts] describes *)
Lemma rm_tmp_tree_loop_attempts (n : nat) (w : W) (path : string) (w' : W)
    (removed : bool) (evs : list event) :
  attempts n w path w' removed evs ->
  forall fuel ev0, n <= fuel ->
    rm_tmp_tree_loop fuel path (Z.of_nat n) (mk_state w ev0)
    = (Ok tt, mk_state w' (ev0 ++ evs)%list).
Proof.
  induction 1 as [n w path w' Hrm | w path w' e Hrm He
                 | n w path w' e w'' removed evs Hrm He _ IH];
    intros fuel ev0 Hfuel; (destruct fuel as [|fuel]; [lia|]);
    rewrite rm_tmp_tree_loop_step;
    unfold try_except, rmtree; cbn [world events]; rewrite Hrm.
  - reflexivity.
  - rewrite He. change (Z.of_nat 0 <=? 0)%Z with true. cbv iota.
    unfold warn, emit. cbn [world events]. rewrite <- app_assoc. reflexivity.
  - rewrite He.
    destruct (Z.of_nat (S n) <=? 0)%Z eqn:E; [apply Z.leb_le in E; lia|].
    unfold bind, warn, sleep, emit. cbn [world events].
    rewrite IH by lia. rewrite <- !app_assoc. reflexivity.
Qed.

Lemma attempts_removals (n : nat) (w : W) (path : string) (w' : W)
    (removed : bool) (evs : list event) :
  attempts n w path w' removed evs -> List.length (removals evs) <= n.
Proof. induction 1; cbn [removals List.length]; lia. Qed.

Lemma attempts_removed (n : nat) (w : W) (path : string) (w' : W) (evs : list event) :
  attempts n w path w' true evs ->
  exists w0, shutil_rmtree w0 path = (w', None).
Proof.
  remember true as b eqn:Hb. induction 1; try discriminate; eauto.
Qed.

Lemma attempts_given_up (n : nat) (w : W) (path : string) (w' : W) (evs : list event) :
  attempts n w path w' false evs ->
  exists msg, last evs (EvSleep 0) = EvWarn msg.
Proof.
  remember false as b eqn:Hb. induction 1 as [| |n w path w' e w'' removed evs Hrm He Hat IH].
  - discriminate.
  - eexists. reflexivity.
  - destruct (IH Hb) as [msg Hmsg]. exists msg.
    destruct evs as [|ev evs]; [inversion Hat|].
    cbn [last] in *. exact Hmsg.
Qed.

(** C8. With the marker in [path], [rm_tmp_tree] tries the removal at most
    [MAX_RMTREE_RETRIES] = 3 times, a warning and [time.sleep(1)] after
    each failure but the last.  However the attempts go — a success at the
    first, second or third, or three [OSError]s — the call returns
    normally; after a success the directory is gone (the filesystem
    removing what [shutil.rmtree] reports removed), after three failures
    the last thing done is the warning. *)
Theorem C8_release_retries_and_swallows (fuel : nat) (path : string) (st : state W)
    (w' : W) (removed : bool) (evs : list event) :
  contains path marker_segment = true ->
  3 <= fuel ->
  attempts (Z.to_nat MAX_RMTREE_RETRIES) (world st) path w' removed evs ->
  rm_tmp_tree fuel path st = (Ok tt, mk_state w' (events st ++ evs)%list) /\
  List.length (removals evs) <= 3 /\
  (removed = true ->
   (forall w1 w2, shutil_rmtree w1 path = (w2, None) -> os_path_isdir w2 path = false) ->
   os_path_isdir w' path = false) /\
  (removed = false -> exists msg, last evs (EvSleep 0) = EvWarn msg).
Proof.
  intros Hm Hfuel Hat. change (Z.to_nat MAX_RMTREE_RETRIES) with 3 in Hat.
  repeat split.
  - rewrite rm_tmp_tree_marked by exact Hm.
    destruct st as [w ev0]. cbn [world events] in *.
    exact (rm_tmp_tree_loop_attempts _ _ _ _ _ _ Hat fuel ev0 Hfuel).
  - exact (attempts_removals _ _ _ _ _ _ Hat).
  - intros -> Hfs. destruct (attempts_removed _ _ _ _ _ Hat) as [w0 Hw0]. eauto.
  - intros ->. exact (attempts_given_up _ _ _ _ _ Hat).
Qed.


Lemma attempts_total (n : nat) (path : string) :
  (forall w1 w2 e, shutil_rmtree w1 path = (w2, Some e) -> is_OSError e = true) ->
  forall w, exists w' removed evs, attempts (S n) w path w' removed evs.
Proof.
  intros Hos. induction n as [|n IH]; intros w;
    destruct (shutil_rmtree w path) as [w1 [e|]] eqn:Hrm.
  - do 3 eexists. eapply att_give_up; eauto.
  - do 3 eexists. eapply att_removed; eauto.
  - destruct (IH w1) as (w' & removed & evs & Hat).
    do 3 eexists. eapply att_retry; eauto.
  - do 3 eexists. eapply att_removed; eauto.
Qed.

Lemma examined_app (a b : list event) : examined (a ++ b) = (examined a ++ examined b)%list.
Proof. induction a as [|[] a IH]; cbn [examined app]; congruence. Qed.

Lemma removals_app (a b : list event) : removals (a ++ b) = (removals a ++ removals b)%list.
Proof. induction a as [|[] a IH]; cbn [removals app]; congruence. Qed.

Lemma creations_app (a b : list event) : creations (a ++ b) = (creations a ++ creations b)%list.
Proof. induction a as [|[] a IH]; cbn [creations app]; congruence. Qed.

Lemma TmpPath_init_tmpdir (base : string) (self : TmpPath) :
  TmpPath_init base = Ok self ->
  endswith base "\" = true /\ tmpdir self = base ++ ADDED_FOLDER ++ "\".
Proof.
  unfold TmpPath_init, py_assert. destruct (endswith base "\"); cbn [rbind]; [|discriminate].
  intros E. injection E as <-. auto.
Qed.

Lemma reserve_folder_slot (base : string) (self : TmpPath) (i : nat) :
  TmpPath_init base = Ok self ->
  tmpdir self ++ "_" ++ str_of_int (Z.of_nat i) ++ "\" = reserve_slot base i.
Proof.
  intros H. apply TmpPath_init_tmpdir in H as [_ ->].
  unfold reserve_slot. rewrite !append_assoc. reflexivity.
Qed.

(** every workspace path of a [TmpPath] carries the marker segment *)
Lemma TmpPath_init_marked (base : string) (self : TmpPath) :
  TmpPath_init base = Ok self -> contains (tmpdir self) marker_segment = true.
Proof.
  intros H. apply TmpPath_init_tmpdir in H as [He ->].
  assert (Hb : exists b, base = b ++ "\").
  { clear - He. induction base as [|c base IH]; [discriminate|].
    cbn [endswith] in He. apply orb_true_iff in He as [He|He].
    - apply String.eqb_eq in He. exists "". exact He.
    - destruct (IH He) as [b ->]. exists (String c b). reflexivity. }
  destruct Hb as [b ->]. rewrite append_assoc.
  apply contains_app_r. apply (contains_refl marker_segment).
Qed.

Lemma reserve_slot_marked (base : string) (i : nat) :
  endswith base "\" = true -> contains (reserve_slot base i) marker_segment = true.
Proof.
  intros He.
  assert (H : TmpPath_init base = Ok (mk_TmpPath (base ++ ADDED_FOLDER ++ "\")))
    by (unfold TmpPath_init; rewrite He; reflexivity).
  rewrite <- (reserve_folder_slot base _ i H).
  apply contains_app_l. exact (TmpPath_init_marked _ _ H).
Qed.

(** with every slot of [range] occupied and unremovable the loop ends with
    [ok] false and has created nothing *)
Lemma reserve_loop_all_locked (Inv : W -> Prop) (self : TmpPath) (range : list nat) :
  (forall i, In i range ->
     unremovable Inv (tmpdir self ++ "_" ++ str_of_int (Z.of_nat i) ++ "\")) ->
  forall st, Inv (world st) ->
    exists st', reserve_loop self range st = (Ok (self, false), st') /\
                Inv (world st') /\
                creations (events st') = creations (events st).
Proof.
  induction range as [|i range IH]; intros Hlock st Hinv.
  - exists st. auto.
  - destruct (Hlock i (or_introl eq_refl) (world st) Hinv)
      as (Hdir & w' & e & Hrm & He & Hinv').
    cbn [reserve_loop]. unfold bind at 1, isdir at 1. cbn [world events].
    rewrite Hdir. cbn [negb].
    unfold try_except, bind at 1, rmtree at 1. cbn [world events].
    rewrite Hrm, He. unfold bind at 1, warn, emit. cbn [world events].
    edestruct IH as (st' & Hloop & Hinv'' & Hcr);
      [intros j Hj; apply Hlock; right; exact Hj | | ].
    2:{ exists st'. split; [exact Hloop|]. split; [exact Hinv''|].
        rewrite Hcr. cbn [events]. rewrite !creations_app. cbn [creations].
        rewrite !app_nil_r. reflexivity. }
    exact Hinv'.
Qed.

(** C3. With the marker directory and all ten reserve slots present and
    unremovable, [__enter__] raises [SanguinicError] from
    [abort_if_not(ok)]; no [os.makedirs] call is made, so no existing
    directory is taken as the workspace. *)
Theorem C3_enter_fails_when_all_slots_locked (Inv : W -> Prop) (base : string)
    (self : TmpPath) (st : state W) :
  TmpPath_init base = Ok self ->
  Inv (world st) ->
  unremovable Inv (tmpdir self) ->
  (forall i, i < MAX_RESERVE_FOLDERS -> unremovable Inv (reserve_slot base i)) ->
  exists st',
    TmpPath_enter self st = (Raise (mk_exn SanguinicError "abort_if_not() failed"), st') /\
    creations (events st') = creations (events st).
Proof.
  intros Hinit Hinv Hdir Hslots.
  destruct (Hdir (world st) Hinv) as (Hd & w' & e & Hrm & He & Hinv').
  unfold TmpPath_enter. unfold bind at 1, isdir at 1. cbn [world events].
  rewrite Hd. unfold bind at 1, try_except, bind at 1, rmtree at 1. cbn [world events].
  rewrite Hrm, He. unfold bind at 1, warn, emit. cbn [world events].
  assert (Hlock : forall i, In i (seq 0 MAX_RESERVE_FOLDERS) ->
            unremovable Inv (tmpdir self ++ "_" ++ str_of_int (Z.of_nat i) ++ "\")).
  { intros i Hi. rewrite (reserve_folder_slot base self i Hinit).
    apply Hslots. apply in_seq in Hi. lia. }
  unfold bind at 1.
  match goal with
  | |- context [reserve_loop self _ ?s] =>
      destruct (reserve_loop_all_locked Inv self _ Hlock s Hinv') as (st' & Hloop & _ & Hcr);
      rewrite Hloop
  end.
  cbn [snd fst]. unfold bind at 1, abort_if_not, bind, critical, emit, raise.
  cbn [world events].
  eexists. split; [reflexivity|].
  cbn [events] in *. rewrite creations_app, Hcr.
  rewrite !creations_app. cbn [creations]. rewrite !app_nil_r. reflexivity.
Qed.

Lemma firstn_seq_le (n m a : nat) : n <= m -> firstn n (seq a m) = seq a n.
Proof.
  revert m a. induction n as [|n IH]; intros m a Hle; [reflexivity|].
  destruct m as [|m]; [lia|]. cbn [seq firstn]. f_equal. apply IH. lia.
Qed.

(** the slots looked at are an initial part of the list, the chosen one
    the last of them *)
Lemma first_usable_initial (w : W) (slots seen : list string) (w' : W) (slot : string) :
  first_usable w slots seen w' slot ->
  exists k, k < List.length slots /\ seen = firstn (S k) slots /\
            nth_error slots k = Some slot.
Proof.
  induction 1 as [w s slots Hd | w s slots w' Hd Hrm
                 | w s slots w' e seen w'' slot Hd Hrm He _ IH].
  - exists 0. cbn [List.length firstn nth_error]. split; [lia|]. split; reflexivity.
  - exists 0. cbn [List.length firstn nth_error]. split; [lia|]. split; reflexivity.
  - destruct IH as (k & Hk & -> & Hnth). exists (S k). cbn [List.length nth_error].
    split; [lia|]. split; [reflexivity | exact Hnth].
Qed.

(** replaces a call on the filesystem in the goal by its known result, the
    path compared up to computation *)
Ltac use_call f :=
  match goal with
  | H : f ?w _ = ?r |- context [f ?w ?p] =>
      replace (f w p) with r by (symmetry; exact H)
  end.

(** the loop of [__enter__] finds what [first_usable] describes *)
Lemma reserve_loop_first_usable (self : TmpPath) (range : list nat) :
  forall w seen w' slot ev0,
    first_usable w
      (map (fun i => tmpdir self ++ "_" ++ str_of_int (Z.of_nat i) ++ "\") range)
      seen w' slot ->
    exists evs,
      reserve_loop self range (mk_state w ev0)
      = (Ok (mk_TmpPath slot, true), mk_state w' (ev0 ++ evs)%list) /\
      examined evs = seen /\ creations evs = [].
Proof.
  induction range as [|i range IH]; intros w seen w' slot ev0 Hfu;
    cbn [map] in Hfu; inversion Hfu; subst; clear Hfu;
    cbn [reserve_loop]; unfold bind at 1, isdir at 1; cbn [world events];
    use_call os_path_isdir; cbn [negb].
  - exists [EvIsdir (tmpdir self ++ "_" ++ str_of_int (Z.of_nat i) ++ "\")].
    repeat split.
  - unfold try_except, bind at 1, rmtree at 1. cbn [world events].
    use_call shutil_rmtree.
    eexists [EvIsdir _; EvRmtree _]. unfold ret. rewrite <- app_assoc.
    repeat split.
  - unfold try_except, bind at 1, rmtree at 1. cbn [world events].
    use_call shutil_rmtree.
    match goal with H : is_Exception _ = _ |- _ => rewrite H end.
    unfold bind at 1, warn, emit. cbn [world events].
    match goal with
    | H : first_usable _ _ _ _ _ |- context [reserve_loop self range (mk_state _ ?ev)] =>
        destruct (IH _ _ _ _ ev H) as (evs & Hloop & Hex & Hcr)
    end.
    rewrite Hloop.
    eexists (EvIsdir _ :: EvRmtree _ :: EvWarn _ :: evs).
    rewrite <- !app_assoc. cbn [app examined creations].
    rewrite Hex, Hcr. repeat split.
Qed.

(** C6 (as amended). When the marker directory exists and its removal
    fails, the slots looked at are [base_dir + MARKER + "\" + "_" + i + "\"]
    for i = 0, 1, ... in increasing order, up to the first one that does
    not exist or is removed; [os.makedirs] is called on that one, and it is
    the workspace when that call returns. *)
Theorem C6_reserve_slots_in_order (base : string) (self : TmpPath) (st : state W)
    (w1 : W) (e : exn) (seen : list string) (w2 : W) (slot : string) :
  TmpPath_init base = Ok self ->
  os_path_isdir (world st) (tmpdir self) = true ->
  shutil_rmtree (world st) (tmpdir self) = (w1, Some e) ->
  is_Exception e = true ->
  first_usable w1 (map (reserve_slot base) (seq 0 MAX_RESERVE_FOLDERS)) seen w2 slot ->
  (exists k, k < MAX_RESERVE_FOLDERS /\
             seen = map (reserve_slot base) (seq 0 (S k)) /\
             slot = reserve_slot base k) /\
  exists evs,
    examined evs = tmpdir self :: seen /\
    creations evs = [slot] /\
    TmpPath_enter self st =
      (match snd (os_makedirs w2 slot) with
       | None => Ok (mk_TmpPath slot)
       | Some e' => Raise e'
       end,
       mk_state (fst (os_makedirs w2 slot)) (events st ++ evs)%list).
Proof.
  intros Hinit Hd Hrm He Hfu. split.
  - destruct (first_usable_initial _ _ _ _ _ Hfu) as (k & Hk & Hseen & Hnth).
    rewrite length_map, length_seq in Hk.
    exists k. split; [exact Hk|]. split.
    + rewrite Hseen, firstn_map, firstn_seq_le by lia. reflexivity.
    + rewrite nth_error_map in Hnth.
      rewrite nth_error_seq in Hnth.
      destruct (Nat.ltb_spec k MAX_RESERVE_FOLDERS) as [_|Hge]; [|lia].
      cbn in Hnth. congruence.
  - rewrite (map_ext _ (fun i => tmpdir self ++ "_" ++ str_of_int (Z.of_nat i) ++ "\")) in Hfu
      by (intros i; symmetry; apply (reserve_folder_slot base self i Hinit)).
    unfold TmpPath_enter. unfold bind at 1, isdir at 1. cbn [world events].
    rewrite Hd. unfold bind at 1, try_except, bind at 1, rmtree at 1. cbn [world events].
    rewrite Hrm, He. unfold bind at 1, warn, emit. cbn [world events].
    unfold bind at 1.
    match goal with
    | |- context [reserve_loop self _ (mk_state _ ?ev)] =>
        destruct (reserve_loop_first_usable self _ _ _ _ _ ev Hfu) as (evs & Hloop & Hex & Hcr);
        rewrite Hloop
    end.
    cbn [snd fst]. unfold bind at 1, abort_if_not, ret.
    unfold bind at 1, info, emit. cbn [world events].
    unfold bind at 1, makedirs. cbn [world events tmpdir].
    destruct (os_makedirs w2 slot) as [w3 [e'|]]; cbn [fst snd];
      (eexists (EvIsdir _ :: EvRmtree _ :: EvWarn _ :: evs ++ [EvInfo _; EvMakedirs _])%list;
       split; [|split]);
      try (cbn [examined]; rewrite examined_app, Hex; cbn [examined]; rewrite app_nil_r; reflexivity);
      try (cbn [creations]; rewrite creations_app, Hcr; reflexivity);
      rewrite <- !app_assoc; reflexivity.
Qed.

End TmpPathFacts.

(* ================================================================= *)
(** * Normalized and short paths *)

Section PathFacts.
Context {PL : PyLib}.
Import PyStr PyStrFacts.

(** C9. [to_short_path(b, b + s)] passes its assertion and returns [s],
    for every two strings, so for a normalized directory [b] and a short
    path [s]. *)
Theorem C9_to_short_path_round_trip (b s : string) :
  to_short_path b (b ++ s) = Ok s.
Proof.
  unfold to_short_path. rewrite startswith_app. cbn [py_assert rbind].
  rewrite slice_from_app. reflexivity.
Qed.

Lemma normalize_dir_path_Ok (path out : string) :
  normalize_dir_path path = Ok out ->
  contains (os_path_abspath path) "/" = false /\
  endswith (os_path_abspath path) "\" = false /\
  out = lower (os_path_abspath path) ++ "\".
Proof.
  unfold normalize_dir_path, py_assert.
  destruct (contains (os_path_abspath path) "/"); cbn [negb rbind]; [discriminate|].
  destruct (endswith (os_path_abspath path) "\"); cbn [negb rbind]; [discriminate|].
  intros E. injection E as <-. auto.
Qed.

Lemma normalize_file_path_Ok (path out : string) :
  normalize_file_path path = Ok out ->
  endswith path "\" = false /\ endswith path "/" = false /\
  contains (os_path_abspath path) "/" = false /\
  out = lower (os_path_abspath path).
Proof.
  unfold normalize_file_path, py_assert.
  destruct (endswith path "\"); cbn [negb andb rbind]; [discriminate|].
  destruct (endswith path "/"); cbn [negb andb rbind]; [discriminate|].
  destruct (contains (os_path_abspath path) "/"); cbn [negb rbind]; [discriminate|].
  intros E. injection E as <-. auto.
Qed.

(** a normalized directory path has no upper-case letter *)
Lemma normalize_dir_path_no_upper (path out : string) (c : ascii) :
  normalize_dir_path path = Ok out -> is_upper c = true ->
  contains out (String c "") = false.
Proof.
  intros H Hc. apply normalize_dir_path_Ok in H as (_ & _ & ->).
  rewrite contains_char_app, contains_lower_upper by exact Hc.
  rewrite contains_char_cons. cbn [contains_char_nil orb].
  destruct (Ascii.eqb_spec c "\") as [->|]; [discriminate Hc | reflexivity].
Qed.

Section Idempotence.
(** What is used of [os.path.abspath]: the lower-cased form of an absolute
    path is its own absolute form, and a separator added to an absolute
    path that has none at its end is dropped again. *)
Hypothesis abspath_lower :
  forall p, os_path_abspath (lower (os_path_abspath p)) = lower (os_path_abspath p).
Hypothesis abspath_trailing_sep :
  forall p, endswith (os_path_abspath p) "\" = false ->
            os_path_abspath (os_path_abspath p ++ "\") = os_path_abspath p.


Lemma normalize_file_path_accepts_output (p q : string) :
  normalize_file_path p = Ok q -> endswith q "\" = false ->
  normalize_file_path q = Ok q.
Proof.
  intros H Hq. apply normalize_file_path_Ok in H as (_ & _ & Hs & ->).
  set (a := os_path_abspath p) in *.
  assert (Hs' : contains (lower a) "/" = false)
    by (rewrite contains_lower by apply lower_char_slash; exact Hs).
  assert (He : endswith (lower a) "/" = false).
  { destruct (endswith (lower a) "/") eqn:E; [|reflexivity].
    apply endswith_contains in E. congruence. }
  unfold normalize_file_path. rewrite Hq, He. cbn [negb andb py_assert rbind].
  pose proof (abspath_lower p) as Hl. fold a in Hl. rewrite Hl.
  rewrite Hs', lower_idem. reflexivity.
Qed.

End Idempotence.

Lemma append_sep_inj (a b : string) : a ++ "\" = b ++ "\" -> a = b.
Proof.
  revert b. induction a as [|x a IH]; intros [|y b] E; cbn in E.
  - reflexivity.
  - injection E as _ E. destruct b; discriminate.
  - injection E as _ E. destruct a; discriminate.
  - injection E as -> E. f_equal. exact (IH _ E).
Qed.

(** Where [os.path.abspath] returns a result of [normalize_dir_path]
    whole, its final separator kept, the second call fails. *)
Lemma normalize_dir_path_rejects_root (p q : string) :
  normalize_dir_path p = Ok q -> os_path_abspath q = q ->
  normalize_dir_path q = Raise assertion_error.
Proof.
  intros H Hq. apply normalize_dir_path_Ok in H as (Hs & _ & ->).
  unfold normalize_dir_path. rewrite Hq.
  rewrite contains_char_app, contains_lower by apply lower_char_slash.
  rewrite Hs, endswith_app. reflexivity.
Qed.

(** A UNC share root is such a path.  [ntpath.abspath] returns
    [\\Server\Share] as it is and keeps the final separator of
    [\\server\share\], a drive followed by its root; with these two
    answers the first call accepts the share and the second rejects what
    the first returned. *)
Lemma unc_share_root_not_idempotent :
  os_path_abspath "\\Server\Share" = "\\Server\Share" ->
  os_path_abspath "\\server\share\" = "\\server\share\" ->
  normalize_dir_path "\\Server\Share" = Ok "\\server\share\" /\
  normalize_dir_path "\\server\share\" = Raise assertion_error /\
  rbind (normalize_dir_path "\\Server\Share") normalize_dir_path
  <> normalize_dir_path "\\Server\Share".
Proof.
  intros H1 H2.
  assert (E1 : normalize_dir_path "\\Server\Share" = Ok "\\server\share\")
    by (unfold normalize_dir_path; rewrite H1; reflexivity).
  assert (E2 : normalize_dir_path "\\server\share\" = Raise assertion_error)
    by exact (normalize_dir_path_rejects_root _ _ E1 H2).
  split; [exact E1|]. split; [exact E2|].
  rewrite E1. cbn [rbind]. rewrite E2. discriminate.
Qed.

(** C5 (as amended). Let [q] be what [normalize_dir_path] returns for
    [p].  If [os.path.abspath] gives [q] back without its final separator,
    as it does unless [q] is a root, then [normalize_dir_path(q)] is [q]:
    the second call changes nothing.  Let [q] be what
    [normalize_file_path] returns for [p].  If [q] does not end with the
    separator and is its own absolute path, then [normalize_file_path(q)]
    is [q]. *)
Theorem C5_normalize_idempotent :
  (forall p q, normalize_dir_path p = Ok q ->
               q = os_path_abspath q ++ "\" ->
               rbind (normalize_dir_path p) normalize_dir_path = normalize_dir_path p) /\
  (forall p q, normalize_file_path p = Ok q ->
               endswith q "\" = false ->
               os_path_abspath q = q ->
               rbind (normalize_file_path p) normalize_file_path = normalize_file_path p).
Proof.
  split.
  - intros p q E Hq. rewrite E. cbn [rbind].
    apply normalize_dir_path_Ok in E as (Hs & He & ->).
    apply append_sep_inj in Hq.
    unfold normalize_dir_path. rewrite <- Hq.
    rewrite contains_lower by apply lower_char_slash.
    rewrite endswith_lower by apply lower_char_backslash.
    rewrite Hs, He, lower_idem. reflexivity.
  - intros p q E He Hq. rewrite E. cbn [rbind].
    apply normalize_file_path_Ok in E as (_ & _ & Hs & ->).
    assert (Hs' : contains (lower (os_path_abspath p)) "/" = false)
      by (rewrite contains_lower by apply lower_char_slash; exact Hs).
    assert (He' : endswith (lower (os_path_abspath p)) "/" = false).
    { destruct (endswith (lower (os_path_abspath p)) "/") eqn:E; [|reflexivity].
      apply endswith_contains in E. congruence. }
    unfold normalize_file_path. rewrite He, He'. cbn [negb andb py_assert rbind].
    rewrite Hq, Hs', lower_idem. reflexivity.
Qed.

End PathFacts.

(* ================================================================= *)
(** * Configuration resolution (folders.py) *)

Section ConfigFacts.
Context {PL : PyLib}.
Import PyStr PyStrFacts.

Lemma config_dir_placeholder_has_C (t : string) :
  String.prefix "{CONFIG-DIR}" t = true -> contains t "C" = true.
Proof.
  destruct t as [|a t]; [discriminate|].
  rewrite prefix_cons. intros H. apply andb_true_iff in H as [_ H].
  destruct t as [|b t]; [discriminate|].
  rewrite prefix_cons in H. apply andb_true_iff in H as [H _].
  rewrite !contains_char_cons, H. apply orb_true_r.
Qed.

(** On a normalized path the replacement of [{CONFIG-DIR}] finds nothing:
    the path is in lower case, the placeholder is not. *)
Lemma config_dir_placeholder_absent (path configdir n : string) :
  _normalize_config_dir_path path configdir = Ok n ->
  replace n "{CONFIG-DIR}" configdir = n.
Proof.
  intros H. unfold replace.
  apply (replace_aux_absent _ _ _ "C"%char config_dir_placeholder_has_C).
  unfold _normalize_config_dir_path in H.
  destruct (os_path_isabs path);
    exact (normalize_dir_path_no_upper _ _ "C"%char H eq_refl).
Qed.

Lemma spec_subst_step_str (p : string) (b : bool) (key val : string) :
  spec_subst_step (p, b) (key, JStr val) =
  (replace p ("{" ++ key ++ "}") val,
   b || negb (String.eqb (replace p ("{" ++ key ++ "}") val) p)).
Proof. reflexivity. Qed.

Lemma spec_subst_step_other (p : string) (b : bool) (key : string) (val : json) :
  is_jstr val = false -> spec_subst_step (p, b) (key, val) = (p, b).
Proof. destruct val; try reflexivity. discriminate. Qed.

Lemma subst_keys_spec (items : config) (path : string) (replaced : bool) :
  subst_keys path items replaced = fold_left spec_subst_step items (path, replaced).
Proof.
  revert path replaced.
  induction items as [|[key val] items IH]; intros path replaced; [reflexivity|].
  cbn [fold_left].
  destruct (is_jstr val) eqn:Hv.
  - destruct val; try discriminate. rewrite spec_subst_step_str. cbn [subst_keys].
    destruct (String.eqb (replace path ("{" ++ key ++ "}") s) path) eqn:E; cbn [negb].
    + apply String.eqb_eq in E. rewrite E, orb_false_r. apply IH.
    + rewrite orb_true_r. apply IH.
  - rewrite spec_subst_step_other by exact Hv.
    destruct val; try discriminate; cbn [subst_keys]; apply IH.
Qed.

Lemma spec_steps_flag (items : config) (p : string) (b : bool) :
  snd (fold_left spec_subst_step items (p, b)) = false ->
  fst (fold_left spec_subst_step items (p, b)) = p /\ b = false.
Proof.
  revert p b. induction items as [|[key val] items IH]; intros p b H.
  - cbn in *. auto.
  - cbn [fold_left] in *. destruct (is_jstr val) eqn:Hv.
    + destruct val; try discriminate. rewrite spec_subst_step_str in *.
      destruct (IH _ _ H) as [Hp Hb]. apply orb_false_iff in Hb as [Hb Hc].
      apply negb_false_iff, String.eqb_eq in Hc. rewrite Hp, Hc. auto.
    + rewrite spec_subst_step_other in * by exact Hv. apply IH. exact H.
Qed.

(** one call of [_config_dir_path] is one pass of the specification *)
Lemma config_dir_path_pass (fuel : nat) (path configdir : string) (cfg : config) :
  _config_dir_path (S fuel) path configdir cfg =
  (n <- normalize_dir_path (if os_path_isabs path then path else configdir ++ path) ;;
   let (s, performed) := spec_pass cfg configdir n in
   if performed then _config_dir_path fuel s configdir cfg else Ok s)%res.
Proof.
  cbn [_config_dir_path].
  replace (normalize_dir_path (if os_path_isabs path then path else configdir ++ path))
    with (_normalize_config_dir_path path configdir)
    by (unfold _normalize_config_dir_path; destruct (os_path_isabs path); reflexivity).
  destruct (_normalize_config_dir_path path configdir) as [n| |] eqn:Hn;
    cbn [rbind]; try reflexivity.
  unfold spec_pass. rewrite (config_dir_placeholder_absent _ _ _ Hn).
  rewrite String.eqb_refl. cbn [negb]. rewrite subst_keys_spec. reflexivity.
Qed.

(** The recursion of [_config_dir_path]: a call normalizes the value (a
    relative one joined to the base directory first) and makes one pass
    over the keys; it is repeated on the new string whenever the pass
    changed the string, and a result is returned only by a pass that
    replaced nothing.  The replacement of the config-directory placeholder
    is in [spec_pass], where it changes nothing
    ([config_dir_placeholder_absent]). *)
Lemma config_dir_path_fixed_point (configdir : string) (cfg : config) :
  (forall fuel path,
     _config_dir_path (S fuel) path configdir cfg =
     (n <- normalize_dir_path (if os_path_isabs path then path else configdir ++ path) ;;
      let (s, performed) := spec_pass cfg configdir n in
      if performed then _config_dir_path fuel s configdir cfg else Ok s)%res) /\
  (forall fuel path n,
     normalize_dir_path (if os_path_isabs path then path else configdir ++ path) = Ok n ->
     fst (spec_pass cfg configdir n) <> n ->
     _config_dir_path (S fuel) path configdir cfg =
     _config_dir_path fuel (fst (spec_pass cfg configdir n)) configdir cfg) /\
  (forall fuel path r,
     _config_dir_path fuel path configdir cfg = Ok r ->
     exists path',
       normalize_dir_path (if os_path_isabs path' then path' else configdir ++ path') = Ok r /\
       spec_pass cfg configdir r = (r, false)).
Proof.
  split; [|split].
  - intros fuel path. apply config_dir_path_pass.
  - intros fuel path n Hn Hch. rewrite config_dir_path_pass, Hn. cbn [rbind].
    destruct (spec_pass cfg configdir n) as [s performed] eqn:Hp. cbn [fst] in *.
    destruct performed; [reflexivity|]. exfalso. apply Hch.
    assert (Hn' : _normalize_config_dir_path path configdir = Ok n)
      by (unfold _normalize_config_dir_path; destruct (os_path_isabs path); exact Hn).
    unfold spec_pass in Hp. rewrite (config_dir_placeholder_absent _ _ _ Hn') in Hp.
    pose proof (spec_steps_flag cfg n (negb (String.eqb n n))) as Hf.
    rewrite Hp in Hf. destruct (Hf eq_refl) as [Hs _]. exact Hs.
  - induction fuel as [|fuel IH]; intros path r H; [discriminate|].
    rewrite config_dir_path_pass in H.
    destruct (normalize_dir_path (if os_path_isabs path then path else configdir ++ path))
      as [n| |] eqn:Hn; cbn [rbind] in H; try discriminate.
    destruct (spec_pass cfg configdir n) as [s performed] eqn:Hp.
    destruct performed; [exact (IH _ _ H)|].
    injection H as <-. exists path.
    assert (Hn' : _normalize_config_dir_path path configdir = Ok n)
      by (unfold _normalize_config_dir_path; destruct (os_path_isabs path); exact Hn).
    assert (Hs : s = n).
    { unfold spec_pass in Hp. rewrite (config_dir_placeholder_absent _ _ _ Hn') in Hp.
      pose proof (spec_steps_flag cfg n (negb (String.eqb n n))) as Hf.
      rewrite Hp in Hf. destruct (Hf eq_refl) as [Hs _]. exact Hs. }
    subst s. auto.
Qed.

(** a pattern with an upper-case letter does not occur in a normalized
    path *)
Lemma upper_pattern_absent (path configdir n old new : string) (c : ascii) :
  _normalize_config_dir_path path configdir = Ok n ->
  is_upper c = true -> contains old (String c "") = true ->
  replace n old new = n.
Proof.
  intros H Hc Hold. destruct old as [|o old]; [discriminate Hold|].
  unfold replace. apply (replace_aux_absent _ _ _ c).
  - intros t Hp. rewrite (startswith_slice t _ Hp). apply contains_app_l. exact Hold.
  - unfold _normalize_config_dir_path in H.
    destruct (os_path_isabs path); exact (normalize_dir_path_no_upper _ _ c H Hc).
Qed.

(** C2. The config-directory placeholder is never substituted.
    [_config_dir_path] normalizes the value, which lower-cases it, before
    [str.replace] looks for the upper-case [{CONFIG-DIR}]: whatever the
    value and the config directory, that replacement returns the
    normalized value as it is, and so does the replacement for a key that
    has an upper-case letter.  The call therefore does what it would do
    without line 13: the pass over the keys starts from the normalized
    value, lower-cased placeholder included. *)
Theorem C2_config_dir_placeholder_not_substituted (fuel : nat)
    (path configdir : string) (cfg : config) (n : string) :
  _normalize_config_dir_path path configdir = Ok n ->
  replace n "{CONFIG-DIR}" configdir = n /\
  (forall key val c,
     is_upper c = true -> contains key (String c "") = true ->
     replace n ("{" ++ key ++ "}") val = n) /\
  _config_dir_path (S fuel) path configdir cfg =
  (let '(p, replaced) := subst_keys n cfg false in
   if replaced then _config_dir_path fuel p configdir cfg else Ok p).
Proof.
  intros H. split; [|split].
  - exact (config_dir_placeholder_absent _ _ _ H).
  - intros key val c Hc Hk. apply (upper_pattern_absent path configdir n _ _ c H Hc).
    apply (contains_app_r "{"). apply contains_app_l. exact Hk.
  - cbn [_config_dir_path]. rewrite H. cbn [rbind].
    rewrite (config_dir_placeholder_absent _ _ _ H). reflexivity.
Qed.

End ConfigFacts.

(* ================================================================= *)
(** * Folders *)

Section FoldersFacts.
Context {W : Type} {FS : Filesystem W} {PL : PyLib}.
Import PyStr PyStrFacts.

Lemma bind_Ok_inv {A B} (m : M W A) (k : A -> M W B) (st st' : state W) (b : B) :
  bind m k st = (Ok b, st') ->
  exists a st1, m st = (Ok a, st1) /\ k a st1 = (Ok b, st').
Proof.
  unfold bind. destruct (m st) as [[a|e|] st1]; intros H; try discriminate. eauto.
Qed.

Lemma lift_Ok_inv {A} (r : res A) (st st' : state W) (a : A) :
  lift r st = (Ok a, st') -> r = Ok a /\ st' = st.
Proof. unfold lift. intros H. injection H as -> ->. auto. Qed.

Lemma bind_assoc {A B C} (m : M W A) (f : A -> M W B) (g : B -> M W C) (st : state W) :
  bind (bind m f) g st = bind m (fun a => bind (f a) g) st.
Proof. unfold bind. destruct (m st) as [[a|e|] st1]; reflexivity. Qed.

Lemma bind_ret_r {A} (m : M W A) (st : state W) : bind m ret st = m st.
Proof. unfold bind, ret. destruct (m st) as [[a|e|] st1]; reflexivity. Qed.

Lemma bind_ext {A B} (m : M W A) (f g : A -> M W B) (st : state W) :
  (forall a s, f a s = g a s) -> bind m f st = bind m g st.
Proof. intros H. unfold bind. destruct (m st) as [[a|e|] st1]; auto. Qed.

Lemma abort_if_not_true (f : option string) (lineno : Z) (file : string) (st : state W) :
  abort_if_not true f lineno file st = (Ok tt, st).
Proof. reflexivity. Qed.

Lemma ignore_loop_cons (mo2dir : string) (ignore : json) (ignores : list json)
    (acc : list string) :
  ignore_loop (W := W) mo2dir (ignore :: ignores) acc =
  bind (ignore_step mo2dir ignore acc) (fun acc' => ignore_loop mo2dir ignores acc').
Proof. reflexivity. Qed.

Lemma ignore_loop_app (mo2dir : string) (l1 l2 : list json) :
  forall acc (st : state W),
    ignore_loop mo2dir (l1 ++ l2) acc st =
    bind (ignore_loop mo2dir l1 acc) (fun acc' => ignore_loop mo2dir l2 acc') st.
Proof.
  induction l1 as [|x l1 IH]; intros acc st; [reflexivity|].
  cbn [app]. rewrite !ignore_loop_cons, bind_assoc.
  apply bind_ext. intros a s. apply IH.
Qed.

Lemma ignore_step_extends (mo2dir : string) (ignore : json) (acc r : list string)
    (st st' : state W) :
  ignore_step mo2dir ignore acc st = (Ok r, st') -> exists tail, r = (acc ++ tail)%list.
Proof.
  unfold ignore_step. destruct (json_eq_str ignore "{DEFAULT-IGNORES}").
  - intros H. apply bind_Ok_inv in H as (ds & st1 & _ & H).
    injection H as <- _. eauto.
  - destruct ignore; try discriminate.
    intros H. apply bind_Ok_inv in H as (d & st1 & _ & H).
    injection H as <- _. eauto.
Qed.

Lemma ignore_loop_extends (mo2dir : string) (ignores : list json) :
  forall acc r (st st' : state W),
    ignore_loop mo2dir ignores acc st = (Ok r, st') -> exists tail, r = (acc ++ tail)%list.
Proof.
  induction ignores as [|x ignores IH]; intros acc r st st' H.
  - injection H as <- _. exists []. symmetry. apply app_nil_r.
  - rewrite ignore_loop_cons in H. apply bind_Ok_inv in H as (acc' & st1 & Hs & H).
    apply ignore_step_extends in Hs as [t1 ->].
    apply IH in H as [t2 ->]. exists (t1 ++ t2)%list. symmetry. apply app_assoc.
Qed.

Lemma normalize_mo2_dir_path_resolved (path mo2dir out : string) (st : state W) :
  normalize_dir_path (if os_path_isabs path then path else mo2dir ++ path) = Ok out ->
  _normalize_mo2_dir_path path mo2dir st =
  bind (abort_if_not (startswith out mo2dir)
          (Some ("expected path within mo2, got " ++ repr (JStr path))) 33 "folders.py")
       (fun _ => ret out) st.
Proof.
  intros H. unfold _normalize_mo2_dir_path.
  replace (if os_path_isabs path then normalize_dir_path path
           else normalize_dir_path (mo2dir ++ path))
    with (normalize_dir_path (if os_path_isabs path then path else mo2dir ++ path))
    by (destruct (os_path_isabs path); reflexivity).
  rewrite H. reflexivity.
Qed.

Lemma Folders_init_rest_fields (fuel : nat) (cfg : config) (cd mo2 : string)
    (dls igs : list string) (st st' : state W) (F : Folders) :
  Folders_init_rest fuel cfg cd mo2 dls igs st = (Ok F, st') ->
  mo2_dir F = mo2 /\ ignore_dirs F = igs /\
  exists oms,
    json_iter (dict_get_default cfg "ownmods" (JList [])) = Ok oms /\
    rmapM normalize_file_name_json oms = Ok (own_mod_names F).
Proof.
  unfold Folders_init_rest. intros H.
  apply bind_Ok_inv in H as (cache & s1 & _ & H).
  apply bind_Ok_inv in H as (tmp & s2 & _ & H).
  apply bind_Ok_inv in H as (gh & s3 & _ & H).
  apply bind_Ok_inv in H as (oms & s4 & Hi & H).
  apply bind_Ok_inv in H as (names & s5 & Hn & H).
  apply lift_Ok_inv in Hi as [Hi _]. apply lift_Ok_inv in Hn as [Hn _].
  injection H as <- _. cbn. eauto.
Qed.

Lemma Folders_init_Ok (fuel : nat) (fname : string) (cfg : config)
    (st st' : state W) (F : Folders) :
  Folders_init fuel fname cfg st = (Ok F, st') ->
  exists cd dls l st1 st2 igs,
    Folders_init_roots fuel fname cfg st = (Ok (cd, mo2_dir F, dls), st1) /\
    config_ignores cfg = JList l /\
    ignore_loop (mo2_dir F) l [] st1 = (Ok igs, st2) /\
    Folders_init_rest fuel cfg cd (mo2_dir F) dls igs st2 = (Ok F, st').
Proof.
  unfold Folders_init. intros H.
  apply bind_Ok_inv in H as ([[cd mo2] dls] & st1 & Hroots & H).
  destruct (config_ignores cfg) as [| | | |l|] eqn:Hig;
    try (unfold abort_if_not, bind, critical, emit, raise in H; discriminate).
  cbn [is_jlist] in H. unfold bind at 1 in H. rewrite abort_if_not_true in H.
  apply bind_Ok_inv in H as (igs & st2 & Hloop & H).
  destruct (Folders_init_rest_fields _ _ _ _ _ _ _ _ _ H) as (Hm & _).
  subst mo2. exists cd, dls, l, st1, st2, igs. auto.
Qed.

(** C4 (as amended). An [ignores] entry that is a string other than the
    sentinel is resolved against [mo2_dir] (taken as it is when absolute)
    by [normalize_dir_path].  Where [normalize_dir_path] accepts the
    resolved path, which it does for any path but a root directory, and
    the entries before it have been accepted: when the resolved path does
    not start with [mo2_dir], [Folders.__init__] raises [SanguinicError]
    with a message that ends with the [repr] of the entry; when it starts
    with [mo2_dir], the loop goes on with that very path added to
    [ignore_dirs]: it is [mo2_dir] followed by its short form, and it
    stands after the directories of the earlier entries in the
    [ignore_dirs] of the constructed object. *)
Theorem C4_ignores_within_mo2 (fuel : nat) (fname : string) (cfg : config)
    (st st1 st2 : state W) (cd mo2 : string) (dls : list string)
    (pre post : list json) (path out : string) (acc : list string) :
  Folders_init_roots fuel fname cfg st = (Ok (cd, mo2, dls), st1) ->
  config_ignores cfg = JList (pre ++ JStr path :: post) ->
  ignore_loop mo2 pre [] st1 = (Ok acc, st2) ->
  path <> "{DEFAULT-IGNORES}" ->
  normalize_dir_path (if os_path_isabs path then path else mo2 ++ path) = Ok out ->
  (startswith out mo2 = false ->
   Folders_init fuel fname cfg st =
   (Raise (mk_exn SanguinicError
             ("abort_if_not() failed:expected path within mo2, got " ++ repr (JStr path))),
    mk_state (world st2)
      (events st2 ++
       [EvCritical ("abort_if_not() failed:expected path within mo2, got "
                    ++ repr (JStr path) ++ " @line 33 of folders.py")])%list)) /\
  (startswith out mo2 = true ->
   ignore_loop mo2 (pre ++ [JStr path]) [] st1 = (Ok (acc ++ [out])%list, st2) /\
   to_short_path mo2 out = Ok (slice_from (String.length mo2) out) /\
   out = mo2 ++ slice_from (String.length mo2) out /\
   forall F st',
     Folders_init fuel fname cfg st = (Ok F, st') ->
     mo2_dir F = mo2 /\ exists tail, ignore_dirs F = (acc ++ out :: tail)%list).
Proof.
  intros Hroots Hig Hpre Hpath Hout.
  assert (Hne : json_eq_str (JStr path) "{DEFAULT-IGNORES}" = false).
  { cbn [json_eq_str]. apply String.eqb_neq. exact Hpath. }
  assert (Hstep : forall s : state W,
            ignore_step mo2 (JStr path) acc s =
            bind (bind (abort_if_not (startswith out mo2)
                          (Some ("expected path within mo2, got " ++ repr (JStr path)))
                          33 "folders.py")
                       (fun _ => ret out))
                 (fun d => ret (acc ++ [d])%list) s).
  { intros s. unfold ignore_step. rewrite Hne. unfold bind at 1 3.
    rewrite (normalize_mo2_dir_path_resolved _ _ _ s Hout). reflexivity. }
  split; intros Hsw.
  - unfold Folders_init. unfold bind at 1. rewrite Hroots, Hig. cbn [is_jlist].
    unfold bind at 1. rewrite abort_if_not_true.
    unfold bind at 1. rewrite ignore_loop_app. unfold bind at 1. rewrite Hpre.
    rewrite ignore_loop_cons. unfold bind at 1. rewrite Hstep, Hsw.
    unfold abort_if_not, bind, critical, emit, raise. cbn [world events].
    rewrite !append_assoc. reflexivity.
  - assert (Hloop : ignore_loop mo2 (pre ++ [JStr path]) [] st1
                    = (Ok (acc ++ [out])%list, st2)).
    { rewrite ignore_loop_app. unfold bind at 1. rewrite Hpre.
      rewrite ignore_loop_cons. unfold bind at 1. rewrite Hstep, Hsw. reflexivity. }
    split; [exact Hloop|]. split; [|split].
    + unfold to_short_path. rewrite Hsw. reflexivity.
    + apply startswith_slice. exact Hsw.
    + intros F st' HF.
      apply Folders_init_Ok in HF as (cd' & dls' & l & s1 & s2 & igs & Hr & Hl & Hlp & Hrest).
      rewrite Hroots in Hr. injection Hr as <- Hm <- <-.
      rewrite Hig in Hl. injection Hl as <-.
      split; [symmetry; exact Hm|]. rewrite <- Hm in *.
      replace (pre ++ JStr path :: post)%list
        with ((pre ++ [JStr path]) ++ post)%list in Hlp
        by (rewrite <- app_assoc; reflexivity).
      rewrite ignore_loop_app in Hlp. unfold bind at 1 in Hlp. rewrite Hloop in Hlp.
      apply ignore_loop_extends in Hlp as [tail Htail].
      apply Folders_init_rest_fields in Hrest as (_ & -> & _).
      exists tail. rewrite Htail, <- app_assoc. reflexivity.
Qed.

(** An entry whose resolved path [normalize_dir_path] rejects ends the
    construction with the exception of [normalize_dir_path]: the
    containment check is not reached and nothing is logged. *)
Lemma ignores_entry_not_normalized (fuel : nat) (fname : string) (cfg : config)
    (st st1 st2 : state W) (cd mo2 : string) (dls : list string)
    (pre post : list json) (path : string) (acc : list string) (e : exn) :
  Folders_init_roots fuel fname cfg st = (Ok (cd, mo2, dls), st1) ->
  config_ignores cfg = JList (pre ++ JStr path :: post) ->
  ignore_loop mo2 pre [] st1 = (Ok acc, st2) ->
  path <> "{DEFAULT-IGNORES}" ->
  normalize_dir_path (if os_path_isabs path then path else mo2 ++ path) = Raise e ->
  Folders_init fuel fname cfg st = (Raise e, st2).
Proof.
  intros Hroots Hig Hpre Hpath Hout.
  assert (Hne : json_eq_str (JStr path) "{DEFAULT-IGNORES}" = false).
  { cbn [json_eq_str]. apply String.eqb_neq. exact Hpath. }
  assert (Hstep : forall s : state W, ignore_step mo2 (JStr path) acc s = (Raise e, s)).
  { intros s. unfold ignore_step. rewrite Hne. unfold _normalize_mo2_dir_path.
    replace (if os_path_isabs path then normalize_dir_path path
             else normalize_dir_path (mo2 ++ path))
      with (normalize_dir_path (if os_path_isabs path then path else mo2 ++ path))
      by (destruct (os_path_isabs path); reflexivity).
    rewrite Hout. reflexivity. }
  unfold Folders_init. unfold bind at 1. rewrite Hroots, Hig. cbn [is_jlist].
  unfold bind at 1. rewrite abort_if_not_true.
  unfold bind at 1. rewrite ignore_loop_app. unfold bind at 1. rewrite Hpre.
  rewrite ignore_loop_cons. unfold bind at 1. rewrite Hstep. reflexivity.
Qed.

Lemma not_normalized_without_sep (s : string) (c : ascii) :
  c <> "\"%char -> is_normalized_dir_path (s ++ String c "") = false.
Proof.
  intros Hc. unfold is_normalized_dir_path. apply String.eqb_neq.
  apply last_char_differs. exact Hc.
Qed.

(** C7. With [ownmods == ["MyPatch"]] the constructed object has
    [own_mod_names == ["mypatch"]].  [all_mo2_own_mod_dirs] then builds
    [mo2_dir + "mypatch"], without a separator at the end, and its
    assertion [is_normalized_dir_path(out)] fails before anything is
    yielded. *)
Theorem C7_own_mod_dirs_assertion_fails (fuel : nat) (fname : string) (cfg : config)
    (st st' : state W) (F : Folders) :
  dict_get cfg "ownmods" = Some (JList [JStr "MyPatch"]) ->
  Folders_init fuel fname cfg st = (Ok F, st') ->
  own_mod_names F = ["mypatch"] /\
  is_normalized_dir_path (mo2_dir F ++ "mypatch") = false /\
  all_mo2_own_mod_dirs F = ([], Some assertion_error).
Proof.
  intros Hown HF.
  apply Folders_init_Ok in HF as (cd & dls & l & s1 & s2 & igs & _ & _ & _ & Hrest).
  apply Folders_init_rest_fields in Hrest as (_ & _ & oms & Hiter & Hnames).
  unfold dict_get_default in Hiter. rewrite Hown in Hiter.
  injection Hiter as <-.
  assert (Hn : own_mod_names F = ["mypatch"]).
  { assert (E : rmapM normalize_file_name_json [JStr "MyPatch"] = Ok ["mypatch"])
      by reflexivity.
    rewrite E in Hnames. injection Hnames as <-. reflexivity. }
  assert (Hnot : is_normalized_dir_path (mo2_dir F ++ "mypatch") = false).
  { change "mypatch" with ("mypatc" ++ "h"). rewrite <- append_assoc.
    apply not_normalized_without_sep. discriminate. }
  repeat split; [exact Hn | exact Hnot |].
  unfold all_mo2_own_mod_dirs. rewrite Hn. cbn [all_mo2_own_mod_dirs_from].
  rewrite Hnot. reflexivity.
Qed.

End FoldersFacts.

(* ================================================================= *)
(** * The lexical path model satisfies what is assumed of [os.path] *)

Module NtPathFacts.
Import PyStr PyStrFacts NtPath.

Lemma nosep_inv (c : string) :
  nosep c = true -> contains c "\" = false /\ contains c "/" = false.
Proof.
  unfold nosep. intros H. apply andb_true_iff in H as [H1 H2].
  apply negb_true_iff in H1, H2. auto.
Qed.

Lemma regular_inv (c : string) :
  regular c = true -> c <> "" /\ c <> "." /\ c <> ".." /\ nosep c = true.
Proof.
  unfold regular. intros H.
  apply andb_true_iff in H as [H H4]. apply andb_true_iff in H as [H H3].
  apply andb_true_iff in H as [H1 H2].
  apply negb_true_iff, String.eqb_neq in H1, H2, H3. auto.
Qed.

Lemma unslash_not_slash (a : ascii) : Ascii.eqb "/" (unslash a) = false.
Proof.
  unfold unslash, altsep. destruct (Ascii.eqb_spec a "/") as [->|Hn]; [reflexivity|].
  apply Ascii.eqb_neq. congruence.
Qed.

Lemma map_unslash_no_slash (s : string) : contains (map_char unslash s) "/" = false.
Proof.
  induction s as [|a s IH]; [reflexivity|].
  cbn [map_char]. rewrite contains_char_cons, IH, unslash_not_slash. reflexivity.
Qed.

Lemma map_unslash_id (s : string) : contains s "/" = false -> map_char unslash s = s.
Proof.
  induction s as [|a s IH]; [reflexivity|].
  rewrite contains_char_cons. intros H. apply orb_false_iff in H as [Ha Hs].
  cbn [map_char]. rewrite (IH Hs). unfold unslash, altsep.
  rewrite Ascii.eqb_sym, Ha. reflexivity.
Qed.

Lemma split_on_nonempty (c : ascii) (s : string) : split_on c s <> [].
Proof.
  destruct s as [|a s]; cbn [split_on]; [discriminate|].
  destruct (Ascii.eqb a c); [discriminate|].
  destruct (split_on c s); discriminate.
Qed.

Lemma split_on_nosep (s : string) :
  contains s "/" = false -> all_nosep (split_on sep s).
Proof.
  induction s as [|a s IH]; intros H.
  - repeat constructor.
  - rewrite contains_char_cons in H. apply orb_false_iff in H as [Ha Hs].
    specialize (IH Hs). cbn [split_on].
    destruct (Ascii.eqb a sep) eqn:Ea.
    + constructor; [reflexivity | exact IH].
    + destruct (split_on sep s) as [|h t] eqn:E.
      * repeat constructor. unfold nosep. rewrite !contains_char_cons.
        rewrite Ha, (Ascii.eqb_sym "\"%char a). change (Ascii.eqb a "\") with (Ascii.eqb a sep).
        rewrite Ea. reflexivity.
      * inversion IH as [|? ? Hh Ht]; subst. constructor; [|exact Ht].
        apply nosep_inv in Hh as [H1 H2].
        unfold nosep. rewrite !contains_char_cons, H1, H2, Ha.
        rewrite (Ascii.eqb_sym "\"%char a). change (Ascii.eqb a "\") with (Ascii.eqb a sep).
        rewrite Ea. reflexivity.
Qed.

Lemma norm_comps_regular (comps : list string) :
  forall stack, all_regular stack -> all_nosep comps ->
                all_regular (norm_comps stack comps).
Proof.
  induction comps as [|c comps IH]; intros stack Hst Hc; cbn [norm_comps].
  - apply Forall_rev. exact Hst.
  - inversion Hc as [|? ? Hc1 Hc2]; subst.
    destruct (String.eqb c "" || String.eqb c ".") eqn:E1; [apply IH; assumption|].
    destruct (String.eqb c "..") eqn:E2.
    + apply IH; [|assumption]. destruct stack; [constructor|].
      inversion Hst; subst. assumption.
    + apply IH; [|assumption]. constructor; [|exact Hst].
      apply orb_false_iff in E1 as [E0 E1].
      unfold regular. rewrite E0, E1, E2, Hc1. reflexivity.
Qed.

Lemma split_on_single (c : string) :
  contains c "\" = false -> split_on sep c = [c].
Proof.
  induction c as [|a c IH]; [reflexivity|].
  rewrite contains_char_cons. intros H. apply orb_false_iff in H as [Ha Hc].
  assert (Ea : Ascii.eqb a sep = false) by (rewrite Ascii.eqb_sym; exact Ha).
  cbn [split_on]. rewrite Ea, (IH Hc). reflexivity.
Qed.

Lemma split_on_app_sep (c s : string) :
  contains c "\" = false ->
  split_on sep (c ++ String sep s) = c :: split_on sep s.
Proof.
  induction c as [|a c IH]; intros H.
  - cbn [append split_on]. rewrite Ascii.eqb_refl. reflexivity.
  - rewrite contains_char_cons in H. apply orb_false_iff in H as [Ha Hc].
    assert (Ea : Ascii.eqb a sep = false) by (rewrite Ascii.eqb_sym; exact Ha).
    cbn [append split_on]. rewrite Ea, (IH Hc). reflexivity.
Qed.

Lemma norm_comps_keep (c : string) (stack comps : list string) :
  regular c = true -> norm_comps stack (c :: comps) = norm_comps (c :: stack) comps.
Proof.
  intros H. apply regular_inv in H as (H1 & H2 & H3 & _).
  apply String.eqb_neq in H1, H2, H3. cbn [norm_comps]. rewrite H1, H2, H3. reflexivity.
Qed.

(** normalizing the components of an already normal path, with or without
    a separator after it, gives them back *)
Lemma norm_comps_join (cs : list string) :
  all_regular cs ->
  forall stack trail, trail = "" \/ trail = "\" ->
    norm_comps stack (split_on sep (join "\" cs ++ trail)) = (rev stack ++ cs)%list.
Proof.
  induction cs as [|c cs IH]; intros Hcs stack trail Ht.
  - cbn [join append]. rewrite app_nil_r. destruct Ht as [-> | ->]; reflexivity.
  - inversion Hcs as [|? ? Hc Hcs']; subst.
    destruct (regular_inv _ Hc) as (_ & _ & _ & Hns).
    apply nosep_inv in Hns as [Hns _].
    destruct cs as [|c' cs].
    + cbn [join]. destruct Ht as [-> | ->].
      * rewrite append_nil_r, (split_on_single _ Hns), (norm_comps_keep _ _ _ Hc).
        reflexivity.
      * change "\" with (String sep "") at 1.
        rewrite (split_on_app_sep _ _ Hns), (norm_comps_keep _ _ _ Hc).
        reflexivity.
    + change (join "\" (c :: c' :: cs)) with (c ++ "\" ++ join "\" (c' :: cs)).
      rewrite !append_assoc.
      change ("\" ++ join "\" (c' :: cs) ++ trail)
        with (String sep (join "\" (c' :: cs) ++ trail)).
      rewrite (split_on_app_sep _ _ Hns), (norm_comps_keep _ _ _ Hc).
      rewrite (IH Hcs' (c :: stack) trail Ht). cbn [rev].
      rewrite <- app_assoc. reflexivity.
Qed.

Lemma join_no_slash (cs : list string) :
  all_regular cs -> contains (join "\" cs) "/" = false.
Proof.
  induction cs as [|c cs IH]; intros H; [reflexivity|].
  inversion H as [|? ? Hc Hcs]; subst.
  destruct (regular_inv _ Hc) as (_ & _ & _ & Hns).
  apply nosep_inv in Hns as [_ Hns].
  destruct cs as [|c' cs]; [exact Hns|].
  change (join "\" (c :: c' :: cs)) with (c ++ "\" ++ join "\" (c' :: cs)).
  rewrite !contains_char_app, Hns, (IH Hcs). reflexivity.
Qed.

(** the absolute form of a path written as drive, root and regular
    components is that path, a separator after it dropped *)
Lemma abspath_of_form (c0 : ascii) (cs : list string) (trail : string) :
  is_sep c0 = false -> all_regular cs -> trail = "" \/ trail = "\" ->
  abspath (render (String c0 ":") cs ++ trail) = render (String c0 ":") cs.
Proof.
  intros Hc0 Hcs Ht. unfold abspath, render.
  change ((String c0 ":" ++ "\" ++ join "\" cs) ++ trail)
    with (String c0 (String colon (String sep ((join "\" cs) ++ trail)))).
  cbn [splitroot]. rewrite Hc0, Ascii.eqb_refl.
  change (is_sep sep) with true. cbv iota.
  rewrite map_unslash_id.
  - cbn [rev]. rewrite (norm_comps_join cs Hcs [] trail Ht). reflexivity.
  - rewrite contains_char_app, (join_no_slash cs Hcs).
    destruct Ht as [-> | ->]; reflexivity.
Qed.

Lemma splitroot_drive (p d : string) (rooted : bool) (rest : string) :
  splitroot p = (Some d, rooted, rest) ->
  exists c0, d = String c0 ":" /\ is_sep c0 = false.
Proof.
  unfold splitroot. destruct p as [|c0 p]; [discriminate|].
  destruct (is_sep c0) eqn:E; [discriminate|].
  destruct p as [|c1 p]; [discriminate|].
  destruct (Ascii.eqb c1 colon) eqn:E1; [|discriminate].
  apply Ascii.eqb_eq in E1. subst c1.
  destruct p as [|c2 p]; [|destruct (is_sep c2)];
    intros H; injection H as <- _ _; eauto.
Qed.

(** every absolute form is a drive, a root and regular components *)
Lemma abspath_form (p : string) :
  exists c0 cs, is_sep c0 = false /\ all_regular cs /\
                abspath p = render (String c0 ":") cs.
Proof.
  unfold abspath. destruct (splitroot p) as [[drive rooted] rest] eqn:E.
  assert (Hd : exists c0, match drive with Some d => d | None => cwd_drive end = String c0 ":"
                          /\ is_sep c0 = false).
  { destruct drive as [d|]; [exact (splitroot_drive _ _ _ _ E)|].
    exists "C"%char. split; reflexivity. }
  destruct Hd as (c0 & Hd & Hc0). rewrite Hd.
  exists c0. eexists. split; [exact Hc0|]. split; [|reflexivity].
  apply norm_comps_regular.
  - apply Forall_rev.
    destruct rooted; [constructor|].
    destruct (String.eqb (lower (String c0 ":")) (lower cwd_drive)); [|constructor].
    repeat constructor.
  - apply split_on_nosep, map_unslash_no_slash.
Qed.

Lemma lower_join (cs : list string) :
  lower (join "\" cs) = join "\" (map lower cs).
Proof.
  induction cs as [|c cs IH]; [reflexivity|].
  destruct cs as [|c' cs]; [reflexivity|].
  change (join "\" (c :: c' :: cs)) with (c ++ "\" ++ join "\" (c' :: cs)).
  rewrite !lower_app, IH. reflexivity.
Qed.

Lemma lower_eqb_dotdot (s : string) : String.eqb (lower s) ".." = String.eqb s "..".
Proof.
  destruct s as [|a [|b s]]; try reflexivity.
  - cbn [lower]. rewrite !eqb_cons, lower_char_dot. reflexivity.
  - cbn [lower]. rewrite !eqb_cons, !lower_char_dot. f_equal. f_equal.
    destruct s; reflexivity.
Qed.

Lemma regular_lower (c : string) : regular c = true -> regular (lower c) = true.
Proof.
  unfold regular, nosep. intros H.
  rewrite (lower_eqb_char c "."%char lower_char_dot), lower_eqb_dotdot.
  rewrite (contains_lower c "\"%char lower_char_backslash).
  rewrite (contains_lower c "/"%char lower_char_slash).
  replace (String.eqb (lower c) "") with (String.eqb c "") by (destruct c; reflexivity).
  exact H.
Qed.

Lemma is_sep_lower (c : ascii) : is_sep (lower_char c) = is_sep c.
Proof.
  unfold is_sep, sep, altsep. rewrite lower_char_backslash, lower_char_slash. reflexivity.
Qed.

Lemma lower_render (c0 : ascii) (cs : list string) :
  lower (render (String c0 ":") cs) = render (String (lower_char c0) ":") (map lower cs).
Proof.
  unfold render. rewrite !lower_app, lower_join. reflexivity.
Qed.

Lemma nt_abspath_lower (p : string) : abspath (lower (abspath p)) = lower (abspath p).
Proof.
  destruct (abspath_form p) as (c0 & cs & Hc0 & Hcs & ->).
  rewrite lower_render.
  rewrite <- (append_nil_r (render _ (map lower cs))) at 1.
  apply abspath_of_form; [rewrite is_sep_lower; exact Hc0 | | left; reflexivity].
  unfold all_regular in *. rewrite Forall_map.
  eapply Forall_impl; [|exact Hcs]. intros c. apply regular_lower.
Qed.


End NtPathFacts.

(* ================================================================= *)
(** * The model filesystem *)

Module SimFSFacts.
Import PyStr PyStrFacts SimFS.

Lemma startswith_refl (p : string) : startswith p p = true.
Proof. rewrite <- (append_nil_r p) at 1. apply startswith_app. Qed.

Lemma mem_filter_out (p : string) (ds : list string) :
  mem p (filter (fun d => negb (startswith d p)) ds) = false.
Proof.
  induction ds as [|d ds IH]; [reflexivity|].
  cbn [filter]. destruct (startswith d p) eqn:E; cbn [negb]; [exact IH|].
  unfold mem in *. cbn [existsb]. rewrite IH, orb_false_r.
  apply String.eqb_neq. intros ->. rewrite startswith_refl in E. discriminate.
Qed.

(** what [sim_rmtree] reports removed is gone *)
Lemma sim_rmtree_removes (w1 w2 : fs) (p : string) :
  sim_rmtree w1 p = (w2, None) -> sim_isdir w2 p = false.
Proof.
  unfold sim_rmtree, sim_isdir.
  destruct (mem p (locked w1)); [discriminate|].
  destruct (pop_fault p (rm_faults w1)) as [[e f]|]; [discriminate|].
  destruct (mem p (dirs w1)); [|discriminate].
  intros H. injection H as <-. apply mem_filter_out.
Qed.

End SimFSFacts.

(* ================================================================= *)
(** * The properties on the scenarios *)

Section OnScenarios.
Import PyStr NtPath SimFS Scenarios.

Lemma C1_witness :
  __debug__ = true /\
  contains "c:\mo2\mods\" marker_segment = false /\
  rm_tmp_tree 3 "c:\mo2\mods\" (mk_state fs_mods [])
  = (Raise assertion_error, mk_state fs_mods []).
Proof.
  split; [reflexivity|]. split; [reflexivity|].
  apply (C1_rm_tmp_tree_refuses_unmarked 3 "c:\mo2\mods\" (mk_state fs_mods []));
    reflexivity.
Defined.

(** C1 as stated fails: under [python -O] the marker assertion is not
    there, and [rm_tmp_tree] called with a mod directory, which has no
    marker segment, removes it with all it holds. *)
Lemma C1_counterexample :
  contains "c:\mo2\mods\" marker_segment = false /\
  rm_tmp_tree (PY := python_O) 3 "c:\mo2\mods\" (mk_state fs_mods [])
  = (Ok tt, mk_state (mk_fs ["c:\mo2\"] [] []) [EvRmtree "c:\mo2\mods\"]) /\
  ~ (forall (PY : Interpreter) (fuel : nat) (path : string) (st : state fs),
       contains path marker_segment = false ->
       rm_tmp_tree fuel path st = (Raise assertion_error, st)).
Proof.
  split; [reflexivity|]. split; [reflexivity|].
  intros H.
  specialize (H python_O 3 "c:\mo2\mods\" (mk_state fs_mods []) eq_refl).
  vm_compute in H. discriminate H.
Qed.

Lemma C10_witness :
  endswith marker_dir "\" = true /\
  contains marker_dir marker_segment = true /\
  tmp_in_tmp marker_dir "x" 12 = Ok "c:\tmp\JBSLtet9\x12\" /\
  endswith "c:\tmp\JBSLtet9\x12\" "\" = true /\
  contains "c:\tmp\JBSLtet9\x12\" marker_segment = true /\
  forall fuel (st : state fs),
    rm_tmp_tree fuel "c:\tmp\JBSLtet9\x12\" st
    = rm_tmp_tree_loop fuel "c:\tmp\JBSLtet9\x12\" MAX_RMTREE_RETRIES st.
Proof.
  split; [reflexivity|]. split; [reflexivity|].
  exact (C10_tmp_in_tmp_stays_marked (W := fs) marker_dir "x" 12 eq_refl eq_refl).
Defined.

(** Scenario D: two failed removals, the third succeeds *)
Lemma C8_witness :
  exists w' evs,
    attempts 3 fs_two_faults marker_dir w' true evs /\
    rm_tmp_tree 3 marker_dir (mk_state fs_two_faults [])
    = (Ok tt, mk_state w' ([] ++ evs)%list) /\
    List.length (removals evs) <= 3 /\
    os_path_isdir w' marker_dir = false.
Proof.
  assert (Hat : exists w' evs, attempts 3 fs_two_faults marker_dir w' true evs).
  { do 2 eexists.
    eapply att_retry; [reflexivity | reflexivity |].
    eapply att_retry; [reflexivity | reflexivity |].
    eapply att_removed. reflexivity. }
  destruct Hat as (w' & evs & Hat). exists w', evs.
  destruct (C8_release_retries_and_swallows 3 marker_dir (mk_state fs_two_faults [])
              w' true evs eq_refl (le_n 3) Hat) as (Hrun & Hlen & Hgone & _).
  repeat split; [exact Hat | exact Hrun | exact Hlen |].
  apply Hgone; [reflexivity|]. intros w1 w2. apply SimFSFacts.sim_rmtree_removes.
Defined.

Lemma fs_all_locked_unremovable (p : string) :
  In p (marker_dir :: map (reserve_slot base) (seq 0 MAX_RESERVE_FOLDERS)) ->
  unremovable (fun w => w = fs_all_locked) p.
Proof.
  intros Hin w ->.
  cbn in Hin.
  repeat (destruct Hin as [<- | Hin];
          [split; [reflexivity | exists fs_all_locked, in_use; repeat split; reflexivity]|]).
  destruct Hin.
Qed.

(** Scenario C *)
Lemma C3_witness :
  TmpPath_init base = Ok self0 /\
  unremovable (fun w => w = fs_all_locked) (tmpdir self0) /\
  (forall i, i < MAX_RESERVE_FOLDERS ->
             unremovable (fun w => w = fs_all_locked) (reserve_slot base i)) /\
  exists st',
    TmpPath_enter self0 (mk_state fs_all_locked [])
    = (Raise (mk_exn SanguinicError "abort_if_not() failed"), st') /\
    creations (events st') = creations [].
Proof.
  assert (H1 : unremovable (fun w => w = fs_all_locked) (tmpdir self0))
    by (apply fs_all_locked_unremovable; left; reflexivity).
  assert (H2 : forall i, i < MAX_RESERVE_FOLDERS ->
                         unremovable (fun w => w = fs_all_locked) (reserve_slot base i)).
  { intros i Hi. apply fs_all_locked_unremovable. right.
    apply in_map, in_seq. unfold MAX_RESERVE_FOLDERS in *. lia. }
  split; [reflexivity|]. split; [exact H1|]. split; [exact H2|].
  exact (C3_enter_fails_when_all_slots_locked (fun w => w = fs_all_locked) base self0
           (mk_state fs_all_locked []) eq_refl eq_refl H1 H2).
Defined.

Lemma C6_witness :
  exists w1 w2,
    shutil_rmtree fs_stale_slot0 marker_dir = (w1, Some lock_error) /\
    first_usable w1 (map (reserve_slot base) (seq 0 MAX_RESERVE_FOLDERS))
      [reserve_slot base 0; reserve_slot base 1] w2 (reserve_slot base 1) /\
    exists evs,
      examined evs = [marker_dir; reserve_slot base 0; reserve_slot base 1] /\
      creations evs = [reserve_slot base 1] /\
      TmpPath_enter self0 (mk_state fs_stale_slot0 [])
      = (match snd (os_makedirs w2 (reserve_slot base 1)) with
         | None => Ok (mk_TmpPath (reserve_slot base 1))
         | Some e' => Raise e'
         end,
         mk_state (fst (os_makedirs w2 (reserve_slot base 1))) ([] ++ evs)%list).
Proof.
  assert (Hfu : exists w1 w2,
             shutil_rmtree fs_stale_slot0 marker_dir = (w1, Some lock_error) /\
             first_usable w1 (map (reserve_slot base) (seq 0 MAX_RESERVE_FOLDERS))
               [reserve_slot base 0; reserve_slot base 1] w2 (reserve_slot base 1)).
  { do 2 eexists. split; [reflexivity|].
    eapply fu_next; [reflexivity | reflexivity | reflexivity |].
    eapply fu_absent. reflexivity. }
  destruct Hfu as (w1 & w2 & Hrm & Hfu). exists w1, w2.
  split; [exact Hrm|]. split; [exact Hfu|].
  exact (proj2 (C6_reserve_slots_in_order base self0 (mk_state fs_stale_slot0 [])
                  w1 lock_error _ w2 _ eq_refl eq_refl Hrm eq_refl Hfu)).
Defined.

(** C6 as stated fails: with a stale, locked marker directory and no
    [base_dir + MARKER + "_0\"] on disk, the directory looked at after the
    marker directory and taken as the workspace is
    [base_dir + MARKER + "\_0\"], inside the marker directory. *)
Lemma C6_counterexample :
  let r := TmpPath_enter self0 (mk_state fs_stale []) in
  os_path_isdir fs_stale (tmpdir self0) = true /\
  fst (shutil_rmtree fs_stale (tmpdir self0)) = mk_fs [base; marker_dir] [] [] /\
  os_path_isdir (mk_fs [base; marker_dir] [] []) (sibling_slot base 0) = false /\
  fst r = Ok (mk_TmpPath "c:\tmp\JBSLtet9\_0\") /\
  examined (events (snd r)) = ["c:\tmp\JBSLtet9\"; "c:\tmp\JBSLtet9\_0\"] /\
  sibling_slot base 0 = "c:\tmp\JBSLtet9_0\" /\
  ~ In (sibling_slot base 0) (examined (events (snd r))) /\
  fst r <> Ok (mk_TmpPath (sibling_slot base 0)).
Proof.
  cbv zeta. repeat split; try reflexivity.
  - vm_compute. intros [H|[H|[]]]; discriminate.
  - vm_compute. discriminate.
Qed.

(** the sibling form of a slot lacks the marker segment, the form the
    code uses has it *)
Example sibling_slot_unmarked :
  contains (sibling_slot base 0) marker_segment = false /\
  contains (reserve_slot base 0) marker_segment = true.
Proof. split; reflexivity. Qed.

Lemma C5_witness :
  (normalize_dir_path "C:\MO2\Mods" = Ok "c:\mo2\mods\" /\
   "c:\mo2\mods\" = os_path_abspath "c:\mo2\mods\" ++ "\" /\
   rbind (normalize_dir_path "C:\MO2\Mods") normalize_dir_path
   = normalize_dir_path "C:\MO2\Mods") /\
  (normalize_file_path "Mods\A.esp" = Ok "c:\work\mods\a.esp" /\
   endswith "c:\work\mods\a.esp" "\" = false /\
   os_path_abspath "c:\work\mods\a.esp" = "c:\work\mods\a.esp" /\
   rbind (normalize_file_path "Mods\A.esp") normalize_file_path
   = normalize_file_path "Mods\A.esp").
Proof.
  split.
  - split; [reflexivity|]. split; [reflexivity|].
    exact (proj1 (C5_normalize_idempotent (PL := pylib))
             "C:\MO2\Mods" "c:\mo2\mods\" eq_refl eq_refl).
  - split; [reflexivity|]. split; [reflexivity|]. split; [reflexivity|].
    exact (proj2 (C5_normalize_idempotent (PL := pylib))
             "Mods\A.esp" "c:\work\mods\a.esp" eq_refl eq_refl eq_refl).
Defined.

(** C5 as stated fails for files: ["c:\."] is accepted and normalized to
    the drive root ["c:\"], which [normalize_file_path] rejects. *)
Lemma C5_counterexample :
  normalize_file_path "c:\." = Ok "c:\" /\
  normalize_file_path "c:\" = Raise assertion_error /\
  rbind (normalize_file_path "c:\.") normalize_file_path <> normalize_file_path "c:\.".
Proof.
  split; [reflexivity|]. split; [reflexivity|]. vm_compute. discriminate.
Qed.

Lemma C4_witness :
  exists acc out,
    Folders_init_roots 5 config_file config_ignores_inside (mk_state fs_empty [])
    = (Ok ("c:\cfg\", "c:\mo2\", ["c:\mo2\downloads\"]), mk_state fs_empty []) /\
    config_ignores config_ignores_inside
    = JList ([JStr "{DEFAULT-IGNORES}"] ++ JStr "Mods\Cache" :: [])%list /\
    ignore_loop "c:\mo2\" [JStr "{DEFAULT-IGNORES}"] [] (mk_state fs_empty [])
    = (Ok acc, mk_state fs_empty []) /\
    normalize_dir_path (if os_path_isabs "Mods\Cache" then "Mods\Cache"
                        else "c:\mo2\" ++ "Mods\Cache") = Ok out /\
    out = "c:\mo2\mods\cache\" /\
    startswith out "c:\mo2\" = true /\
    ignore_loop "c:\mo2\" ([JStr "{DEFAULT-IGNORES}"] ++ [JStr "Mods\Cache"])%list []
      (mk_state fs_empty [])
    = (Ok (acc ++ [out])%list, mk_state fs_empty []) /\
    to_short_path "c:\mo2\" out = Ok (slice_from (String.length "c:\mo2\") out) /\
    out = "c:\mo2\" ++ slice_from (String.length "c:\mo2\") out /\
    forall F st',
      Folders_init 5 config_file config_ignores_inside (mk_state fs_empty []) = (Ok F, st') ->
      mo2_dir F = "c:\mo2\" /\ exists tail, ignore_dirs F = (acc ++ out :: tail)%list.
Proof.
  do 2 eexists.
  split; [reflexivity|]. split; [reflexivity|]. split; [reflexivity|].
  split; [reflexivity|]. split; [reflexivity|]. split; [reflexivity|].
  refine (proj2 (C4_ignores_within_mo2 5 config_file config_ignores_inside
                   (mk_state fs_empty []) (mk_state fs_empty []) (mk_state fs_empty [])
                   "c:\cfg\" "c:\mo2\" ["c:\mo2\downloads\"]
                   [JStr "{DEFAULT-IGNORES}"] [] "Mods\Cache" _ _
                   eq_refl eq_refl eq_refl _ eq_refl) eq_refl).
  discriminate.
Defined.

(** C4 as stated fails: the entry [".."] under ["c:\mo2\"] resolves to
    the root of the drive, outside [mo2_dir]; [normalize_dir_path] rejects
    a root by its own assertion, so the construction ends in
    [AssertionError] before the containment check, with nothing logged and
    no [SanguinicError] that names the entry. *)
Lemma C4_counterexample :
  let r := Folders_init 5 config_file config_ignores_root (mk_state fs_empty []) in
  Folders_init_roots 5 config_file config_ignores_root (mk_state fs_empty [])
  = (Ok ("c:\cfg\", "c:\mo2\", ["c:\mo2\downloads\"]), mk_state fs_empty []) /\
  config_ignores config_ignores_root = JList [JStr ".."] /\
  os_path_isabs ".." = false /\
  os_path_abspath ("c:\mo2\" ++ "..") = "c:\" /\
  startswith "c:\" "c:\mo2\" = false /\
  r = (Raise assertion_error, mk_state fs_empty []) /\
  forall msg, fst r <> Raise (mk_exn SanguinicError msg).
Proof.
  cbv zeta. repeat split; try reflexivity.
  intros msg. vm_compute. discriminate.
Qed.

(** an entry that resolves outside [mo2_dir] *)
Example ignores_outside_rejected :
  Folders_init 5 config_file config_ignores_outside (mk_state fs_empty [])
  = (Raise (mk_exn SanguinicError
              "abort_if_not() failed:expected path within mo2, got '..\\other'"),
     mk_state fs_empty
       [EvCritical ("abort_if_not() failed:expected path within mo2, got '..\\other'"
                    ++ " @line 33 of folders.py")]).
Proof. reflexivity. Qed.

(** Scenario E *)
Lemma C7_witness :
  exists F st',
    dict_get config_ownmods "ownmods" = Some (JList [JStr "MyPatch"]) /\
    Folders_init 5 config_file config_ownmods (mk_state fs_empty []) = (Ok F, st') /\
    mo2_dir F = "c:\mo2\" /\
    own_mod_names F = ["mypatch"] /\
    is_normalized_dir_path (mo2_dir F ++ "mypatch") = false /\
    all_mo2_own_mod_dirs F = ([], Some assertion_error).
Proof.
  do 2 eexists.
  split; [reflexivity|]. split; [reflexivity|]. split; [reflexivity|].
  exact (C7_own_mod_dirs_assertion_fails 5 config_file config_ownmods
           (mk_state fs_empty []) _ _ eq_refl eq_refl).
Defined.

(** the fixed-point example: the token of [x] is replaced in the first
    pass, nothing is in the second *)
Example config_tokens_resolve :
  _config_dir_path 2 "{mo2}sub\" "c:\cfg\" config_tokens = Ok "c:\cfg\m\sub\" /\
  _config_dir_path 1 "{mo2}sub\" "c:\cfg\" config_tokens = NoFuel.
Proof. split; reflexivity. Qed.

(** the config-directory placeholder of a value is lower-cased by the
    normalization before the replacement looks for it *)
Example config_dir_placeholder_kept :
  _config_dir_path 1 "{CONFIG-DIR}sub" "c:\cfg\" config_tokens
  = Ok "c:\cfg\{config-dir}sub\".
Proof. reflexivity. Qed.

(** a [mo2] value that starts from the config directory: the placeholder
    stays in the result, in lower case *)
Lemma C2_witness :
  _normalize_config_dir_path "{CONFIG-DIR}MO2" "c:\cfg\" = Ok "c:\cfg\{config-dir}mo2\" /\
  replace "c:\cfg\{config-dir}mo2\" "{CONFIG-DIR}" "c:\cfg\" = "c:\cfg\{config-dir}mo2\" /\
  (forall key val c,
     is_upper c = true -> contains key (String c "") = true ->
     replace "c:\cfg\{config-dir}mo2\" ("{" ++ key ++ "}") val = "c:\cfg\{config-dir}mo2\") /\
  _config_dir_path 1 "{CONFIG-DIR}MO2" "c:\cfg\" config_placeholder
  = Ok "c:\cfg\{config-dir}mo2\".
Proof.
  split; [reflexivity|].
  exact (C2_config_dir_placeholder_not_substituted (PL := pylib) 0 "{CONFIG-DIR}MO2"
           "c:\cfg\" config_placeholder "c:\cfg\{config-dir}mo2\" eq_refl).
Defined.

Example mo2_dir_keeps_placeholder :
  exists F st',
    Folders_init 5 config_file config_placeholder (mk_state fs_empty []) = (Ok F, st') /\
    mo2_dir F = "c:\cfg\{config-dir}mo2\".
Proof. do 2 eexists. split; reflexivity. Qed.

(** Scenarios A and B: no marker directory, or a removable one *)
Example enter_fresh :
  TmpPath_enter self0 (mk_state (mk_fs [base] [] []) [])
  = (Ok self0,
     mk_state (mk_fs [base; "c:\"; marker_dir] [] [])
       [EvIsdir marker_dir; EvMakedirs marker_dir]) /\
  TmpPath_enter self0 (mk_state (mk_fs ["c:\"; base; marker_dir; marker_dir ++ "old\"] [] []) [])
  = (Ok self0,
     mk_state (mk_fs ["c:\"; base; marker_dir] [] [])
       [EvIsdir marker_dir; EvRmtree marker_dir; EvMakedirs marker_dir]).
Proof. split; reflexivity. Qed.

End OnScenarios.

(* ================================================================= *)
(** * More on normalized and short paths *)

Module PyStrMoreFacts.
Import PyStr PyStrFacts PyStrMore.


Lemma any_upper_lower (s : string) : any_char is_upper (lower s) = false.
Proof.
  induction s as [|c s IH]; [reflexivity|].
  cbn [lower any_char]. rewrite IH, lower_char_not_upper. reflexivity.
Qed.

Lemma lower_char_id (c : ascii) : is_upper c = false -> lower_char c = c.
Proof. unfold lower_char. intros ->. reflexivity. Qed.

Lemma lower_id (s : string) : any_char is_upper s = false -> lower s = s.
Proof.
  induction s as [|c s IH]; [reflexivity|].
  cbn [any_char lower]. intros H. apply orb_false_iff in H as [Hc Hs].
  rewrite (lower_char_id c Hc), (IH Hs). reflexivity.
Qed.

Lemma islower_lower_id (s : string) : islower s = true -> lower s = s.
Proof.
  unfold islower. intros H. apply andb_true_iff in H as [H _].
  apply negb_true_iff in H. apply lower_id. exact H.
Qed.

Lemma lower_char_letter (c : ascii) :
  is_lower_letter (lower_char c) = is_upper c || is_lower_letter c.
Proof. destruct c as [[] [] [] [] [] [] [] []]; reflexivity. Qed.

Lemma endswith_inv (s suf : string) :
  endswith s suf = true -> exists x, s = x ++ suf.
Proof.
  induction s as [|c s IH]; cbn [endswith]; intros H.
  - rewrite orb_false_r in H. apply String.eqb_eq in H. exists "". exact H.
  - apply orb_true_iff in H as [H|H].
    + apply String.eqb_eq in H. exists "". exact H.
    + destruct (IH H) as [x ->]. exists (String c x). reflexivity.
Qed.

Lemma slice_to_app (a b : string) : slice_to (String.length a) (a ++ b) = a.
Proof. induction a as [|c a IH]; [destruct b; reflexivity|]. cbn. rewrite IH. reflexivity. Qed.

Lemma endswith_false_app_char (s : string) (c d : ascii) :
  c <> d -> endswith (s ++ String c "") (String d "") = false.
Proof.
  intros Hcd. destruct (endswith (s ++ String c "") (String d "")) eqn:E; [|reflexivity].
  apply endswith_inv in E as [x E]. exfalso. exact (last_char_differs _ _ _ _ Hcd E).
Qed.

End PyStrMoreFacts.

Section MorePathFacts.
Context {PL : PyLib}.
Import PyStr PyStrFacts PyStrMore PyStrMoreFacts.

(** X1. [to_short_path] returns the remainder [s] with [path == base + s],
    and fails, with [AssertionError], exactly when [path] does not start
    with [base]. *)
Theorem X1_to_short_path_inverse (base path : string) :
  match to_short_path base path with
  | Ok s => path = base ++ s
  | Raise e => e = assertion_error /\ startswith path base = false
  | NoFuel => False
  end.
Proof.
  unfold to_short_path, py_assert.
  destruct (startswith path base) eqn:E; cbn [rbind].
  - apply startswith_slice. exact E.
  - auto.
Qed.

(** X4. A name accepted by [normalize_file_name] comes back lower-cased
    and free of separators; the result is accepted again and returned
    unchanged, and [is_normalized_file_name] recognizes it as soon as it
    has a letter. *)
Theorem X4_normalize_file_name_idempotent (fname n : string) :
  normalize_file_name fname = Ok n ->
  n = lower fname /\
  contains n "\" = false /\ contains n "/" = false /\
  normalize_file_name n = Ok n /\
  (any_char is_lower_letter n = true -> is_normalized_file_name n = true).
Proof.
  unfold normalize_file_name, py_assert.
  destruct (contains fname "\") eqn:E1; cbn [negb andb rbind]; [discriminate|].
  destruct (contains fname "/") eqn:E2; cbn [negb andb rbind]; [discriminate|].
  intros H. injection H as <-.
  assert (H1 : contains (lower fname) "\" = false)
    by (rewrite contains_lower by apply lower_char_backslash; exact E1).
  assert (H2 : contains (lower fname) "/" = false)
    by (rewrite contains_lower by apply lower_char_slash; exact E2).
  repeat split; try assumption.
  - rewrite H1, H2, lower_idem. reflexivity.
  - intros Hl. unfold is_normalized_file_name, islower.
    rewrite H1, H2, any_upper_lower, Hl. reflexivity.
Qed.

(** X5. What [normalize_archive_intra_path] returns is the lower-cased
    argument, is a short file path, and is returned unchanged by a second
    call. *)
Theorem X5_normalize_archive_intra_path_idempotent (fpath r : string) :
  normalize_archive_intra_path fpath = Ok r ->
  r = lower fpath /\
  is_short_file_path r = Ok true /\
  normalize_archive_intra_path r = Ok r.
Proof.
  unfold normalize_archive_intra_path. intros H.
  destruct (is_short_file_path (lower fpath)) as [b| |] eqn:E; cbn [rbind] in H;
    try discriminate.
  destruct b; cbn [py_assert rbind] in H; [|discriminate].
  injection H as <-. rewrite lower_idem, E. auto.
Qed.

Section WithAbspathLaws.
Hypothesis abspath_lower :
  forall p, os_path_abspath (lower (os_path_abspath p)) = lower (os_path_abspath p).
Hypothesis abspath_trailing_sep :
  forall p, endswith (os_path_abspath p) "\" = false ->
            os_path_abspath (os_path_abspath p ++ "\") = os_path_abspath p.



(** X3. What [normalize_file_path] returns satisfies
    [is_normalized_file_path] and holds neither a ["/"] nor an upper-case
    letter. *)
Theorem X3_normalize_file_path_is_normalized (p q : string) :
  normalize_file_path p = Ok q ->
  is_normalized_file_path q = true /\
  contains q "/" = false /\
  any_char is_upper q = false.
Proof.
  intros H. apply normalize_file_path_Ok in H as (_ & _ & Hs & ->).
  repeat split.
  - unfold is_normalized_file_path. rewrite abspath_lower, lower_idem.
    apply String.eqb_refl.
  - rewrite contains_lower by apply lower_char_slash. exact Hs.
  - apply any_upper_lower.
Qed.

End WithAbspathLaws.

(** X6. A short directory path whose join with [mo2_dir] is a normalized
    directory path goes to that join and back: [short_dir_path_to_path]
    gives [mo2_dir + s] and [dir_path_to_short_path] of it gives [s]. *)
Theorem X6_short_dir_path_round_trip (self : Folders) (s : string) :
  is_short_dir_path s = true ->
  is_normalized_dir_path (mo2_dir self ++ s) = true ->
  short_dir_path_to_path self s = Ok (mo2_dir self ++ s) /\
  dir_path_to_short_path self (mo2_dir self ++ s) = Ok s /\
  rbind (short_dir_path_to_path self s) (dir_path_to_short_path self) = Ok s.
Proof.
  intros Hs Hn.
  assert (H1 : short_dir_path_to_path self s = Ok (mo2_dir self ++ s))
    by (unfold short_dir_path_to_path; rewrite Hs; reflexivity).
  assert (H2 : dir_path_to_short_path self (mo2_dir self ++ s) = Ok s).
  { unfold dir_path_to_short_path, to_short_path. rewrite Hn, startswith_app.
    cbn [py_assert rbind]. rewrite slice_from_app. reflexivity. }
  repeat split; [exact H1 | exact H2 |]. rewrite H1. exact H2.
Qed.

(** X7. The same for files: a short file path whose join with [mo2_dir] is
    a normalized file path goes to that join and back. *)
Theorem X7_short_file_path_round_trip (self : Folders) (s : string) :
  is_short_file_path s = Ok true ->
  is_normalized_file_path (mo2_dir self ++ s) = true ->
  short_file_path_to_path self s = Ok (mo2_dir self ++ s) /\
  file_path_to_short_path self (mo2_dir self ++ s) = Ok s /\
  rbind (short_file_path_to_path self s) (file_path_to_short_path self) = Ok s.
Proof.
  intros Hs Hn.
  assert (H1 : short_file_path_to_path self s = Ok (mo2_dir self ++ s))
    by (unfold short_file_path_to_path; rewrite Hs; reflexivity).
  assert (H2 : file_path_to_short_path self (mo2_dir self ++ s) = Ok s).
  { unfold file_path_to_short_path, to_short_path. rewrite Hn, startswith_app.
    cbn [py_assert rbind]. rewrite slice_from_app. reflexivity. }
  repeat split; [exact H1 | exact H2 |]. rewrite H1. exact H2.
Qed.

(** X8. The way back can fail: a normalized directory under [mo2_dir]
    whose remainder is made of ASCII characters and has no lower-case
    letter (a numeric folder name, or [mo2_dir] itself with the empty
    remainder) gets its short form from [dir_path_to_short_path], and
    [short_dir_path_to_path] refuses that short form. *)
Theorem X8_short_form_without_letters_rejected (self : Folders) (s : string) :
  is_normalized_dir_path (mo2_dir self ++ s) = true ->
  isascii s = true ->
  any_char is_lower_letter s = false ->
  dir_path_to_short_path self (mo2_dir self ++ s) = Ok s /\
  short_dir_path_to_path self s = Raise assertion_error.
Proof.
  intros Hn _ Hl. split.
  - unfold dir_path_to_short_path, to_short_path. rewrite Hn, startswith_app.
    cbn [py_assert rbind]. rewrite slice_from_app. reflexivity.
  - unfold short_dir_path_to_path, is_short_dir_path, islower.
    rewrite Hl, andb_false_r. reflexivity.
Qed.

End MorePathFacts.

(* ================================================================= *)
(** * More on the temporary workspace *)

Section MoreTmpPathFacts.
Context {W : Type} {FS : Filesystem W} {PY : Interpreter}.
Import PyStr PyStrFacts.

Lemma reserve_loop_result (self : TmpPath) (range : list nat) :
  forall (st st' : state W) s' ok,
    reserve_loop self range st = (Ok (s', ok), st') ->
    (ok = false /\ s' = self) \/
    (ok = true /\ exists i, In i range /\
                   tmpdir s' = tmpdir self ++ "_" ++ str_of_int (Z.of_nat i) ++ "\").
Proof.
  induction range as [|i range IH]; intros st st' s' ok H.
  - injection H as <- <- _. left. auto.
  - cbn [reserve_loop] in H. unfold bind at 1, isdir at 1 in H. cbn [world events] in H.
    destruct (os_path_isdir (world st) _); cbn [negb] in H.
    + unfold try_except, bind at 1, rmtree at 1 in H. cbn [world events] in H.
      destruct (shutil_rmtree (world st) _) as [w1 [e|]].
      * destruct (is_Exception e); [|discriminate].
        unfold bind at 1, warn, emit in H. cbn [world events] in H.
        apply IH in H as [H|(Hok & j & Hj & Ht)]; [left; exact H|].
        right. split; [exact Hok|]. exists j. split; [right; exact Hj | exact Ht].
      * injection H as <- <- _. right. split; [reflexivity|].
        exists i. split; [left; reflexivity | reflexivity].
    + injection H as <- <- _. right. split; [reflexivity|].
      exists i. split; [left; reflexivity | reflexivity].
Qed.

(** X9. The workspace [__enter__] returns is the marker directory itself
    or one of the ten reserve slots inside it; either way its path holds
    the marker segment, so [rm_tmp_tree] will not refuse it at release. *)
Theorem X9_enter_returns_marked_path (base : string) (self self' : TmpPath)
    (st st' : state W) :
  TmpPath_init base = Ok self ->
  TmpPath_enter self st = (Ok self', st') ->
  (tmpdir self' = tmpdir self \/
   exists i, i < MAX_RESERVE_FOLDERS /\ tmpdir self' = reserve_slot base i) /\
  contains (tmpdir self') marker_segment = true /\
  endswith (tmpdir self') "\" = true.
Proof.
  intros Hinit H.
  assert (Hwhich : tmpdir self' = tmpdir self \/
                   exists i, i < MAX_RESERVE_FOLDERS /\ tmpdir self' = reserve_slot base i).
  { unfold TmpPath_enter in H.
    apply bind_Ok_inv in H as (b & s1 & Hb & H).
    apply bind_Ok_inv in H as (self1 & s2 & Hsel & H).
    apply bind_Ok_inv in H as (u & s3 & _ & H).
    injection H as <- _.
    destruct b; [|injection Hsel as <- _; left; reflexivity].
    unfold try_except, bind at 1, rmtree at 1 in Hsel.
    destruct (shutil_rmtree (world s1) (tmpdir self)) as [w1 [e|]];
      [|injection Hsel as <- _; left; reflexivity].
    destruct (is_Exception e); [|discriminate].
    unfold bind at 1, warn, emit in Hsel.
    apply bind_Ok_inv in Hsel as ([s' ok] & s4 & Hloop & Hsel).
    apply bind_Ok_inv in Hsel as (u1 & s5 & Hab & Hsel).
    apply bind_Ok_inv in Hsel as (u2 & s6 & _ & Hsel).
    injection Hsel as <- _. cbn [fst snd] in *.
    destruct ok; [|unfold abort_if_not, bind, critical, emit, raise in Hab; discriminate].
    apply reserve_loop_result in Hloop as [[Hf _]|(_ & i & Hi & Ht)]; [discriminate|].
    right. exists i. apply in_seq in Hi. split; [lia|].
    rewrite Ht. apply (reserve_folder_slot base self i Hinit). }
  split; [exact Hwhich|].
  pose proof (TmpPath_init_tmpdir base self Hinit) as [He Htd].
  destruct Hwhich as [-> | (i & _ & ->)].
  - split; [exact (TmpPath_init_marked base self Hinit)|].
    rewrite Htd, <- append_assoc. apply endswith_app.
  - split; [exact (reserve_slot_marked base i He)|].
    unfold reserve_slot. rewrite <- !append_assoc. apply endswith_app.
Qed.

(** Without a directory at the workspace path [__enter__] removes
    nothing and only calls [os.makedirs] on it; with one that
    [shutil.rmtree] removes it calls [os.makedirs] on the same path right
    after. *)
Lemma enter_without_fallback (self : TmpPath) (st : state W) :
  (os_path_isdir (world st) (tmpdir self) = false ->
   TmpPath_enter self st =
   (match snd (os_makedirs (world st) (tmpdir self)) with
    | None => Ok self
    | Some e => Raise e
    end,
    mk_state (fst (os_makedirs (world st) (tmpdir self)))
      (events st ++ [EvIsdir (tmpdir self); EvMakedirs (tmpdir self)])%list)) /\
  (forall w1,
     os_path_isdir (world st) (tmpdir self) = true ->
     shutil_rmtree (world st) (tmpdir self) = (w1, None) ->
     TmpPath_enter self st =
     (match snd (os_makedirs w1 (tmpdir self)) with
      | None => Ok self
      | Some e => Raise e
      end,
      mk_state (fst (os_makedirs w1 (tmpdir self)))
        (events st ++ [EvIsdir (tmpdir self); EvRmtree (tmpdir self);
                       EvMakedirs (tmpdir self)])%list)).
Proof.
  split.
  - intros Hd. unfold TmpPath_enter, bind, isdir, ret, makedirs. cbn [world events].
    rewrite Hd. cbn [world events].
    destruct (os_makedirs (world st) (tmpdir self)) as [w2 [e|]]; cbn [fst snd];
      rewrite <- app_assoc; reflexivity.
  - intros w1 Hd Hrm.
    unfold TmpPath_enter, bind, isdir, try_except, bind, rmtree, ret, makedirs.
    cbn [world events]. rewrite Hd. cbn [world events]. rewrite Hrm. cbn [world events].
    destruct (os_makedirs w1 (tmpdir self)) as [w2 [e|]]; cbn [fst snd];
      rewrite <- !app_assoc; reflexivity.
Qed.

(** X11. [__exit__] with an exception in flight: after the removal
    attempts — successful or given up — it raises that same exception;
    without one it returns.  The attempts are those of [rm_tmp_tree]. *)
Theorem X11_exit_reraises (fuel : nat) (self : TmpPath) (exc_val : option exn)
    (st : state W) (w' : W) (removed : bool) (evs : list event) :
  contains (tmpdir self) marker_segment = true ->
  3 <= fuel ->
  attempts 3 (world st) (tmpdir self) w' removed evs ->
  TmpPath_exit fuel self exc_val st =
  (match exc_val with Some e => Raise e | None => Ok tt end,
   mk_state w' (events st ++ evs)%list).
Proof.
  intros Hm Hfuel Hat. unfold TmpPath_exit, bind.
  rewrite rm_tmp_tree_marked by exact Hm.
  destruct st as [w ev0]. cbn [world events] in *.
  change MAX_RMTREE_RETRIES with (Z.of_nat 3).
  rewrite (rm_tmp_tree_loop_attempts _ _ _ _ _ _ Hat fuel ev0 Hfuel).
  destruct exc_val; reflexivity.
Qed.

(** X12. An exception of [shutil.rmtree] that is not an [OSError] is not
    retried: [rm_tmp_tree] raises it after that one attempt, without a
    warning and without sleeping. *)
Theorem X12_rm_tmp_tree_other_exception (fuel : nat) (path : string) (st : state W)
    (w1 : W) (e : exn) :
  contains path marker_segment = true ->
  shutil_rmtree (world st) path = (w1, Some e) ->
  is_OSError e = false ->
  rm_tmp_tree (S fuel) path st =
  (Raise e, mk_state w1 (events st ++ [EvRmtree path])%list).
Proof.
  intros Hm Hrm He. rewrite rm_tmp_tree_marked by exact Hm.
  cbn [rm_tmp_tree_loop]. unfold try_except, rmtree. rewrite Hrm, He. reflexivity.
Qed.

(** X13. [tmp_in_tmp] fails with [AssertionError] exactly when the base
    lacks the final separator or the marker segment; what it returns can
    be the base of a further [tmp_in_tmp], to any depth. *)
Theorem X13_tmp_in_tmp_nests (tmpbase prefix : string) (num : Z) :
  match tmp_in_tmp tmpbase prefix num with
  | Ok sub =>
      endswith tmpbase "\" = true /\ contains tmpbase marker_segment = true /\
      forall prefix' num',
        tmp_in_tmp sub prefix' num' = Ok (sub ++ prefix' ++ str_of_int num' ++ "\")
  | Raise e =>
      e = assertion_error /\
      (endswith tmpbase "\" = false \/ contains tmpbase marker_segment = false)
  | NoFuel => False
  end.
Proof.
  unfold tmp_in_tmp at 1, py_assert.
  destruct (endswith tmpbase "\") eqn:He; cbn [rbind]; [|auto].
  destruct (contains tmpbase marker_segment) eqn:Hc; cbn [rbind]; [|auto].
  split; [reflexivity|]. split; [reflexivity|].
  intros prefix' num'. unfold tmp_in_tmp, py_assert.
  replace (endswith (tmpbase ++ prefix ++ str_of_int num ++ "\") "\") with true
    by (symmetry; rewrite <- !append_assoc; apply endswith_app).
  rewrite (contains_app_l _ _ _ Hc). reflexivity.
Qed.

End MoreTmpPathFacts.

(* ================================================================= *)
(** * Dictionaries of lists, the ESL flag *)

Section DictOfListsFacts.
Variables K V : Type.
Variable key_eqb : K -> K -> bool.
Hypothesis key_eqb_eq : forall a b, key_eqb a b = true <-> a = b.

(** X14. After [add_to_dict_of_lists(d, key, val)] the list under [key]
    is the former one with [val] at its end, or [[val]] if there was
    none; the lists under all other keys are as before. *)
Theorem X14_add_to_dict_of_lists_get (d : dict_of_lists K V) (key : K) (val : V) :
  dol_get key_eqb (add_to_dict_of_lists key_eqb d key val) key
  = Some (match dol_get key_eqb d key with
          | Some l => l ++ [val]
          | None => [val]
          end)%list /\
  forall key', key' <> key ->
    dol_get key_eqb (add_to_dict_of_lists key_eqb d key val) key' = dol_get key_eqb d key'.
Proof.
  assert (Hrefl : key_eqb key key = true) by (apply key_eqb_eq; reflexivity).
  split.
  - induction d as [|[k l] d IH]; cbn [add_to_dict_of_lists dol_get].
    + rewrite Hrefl. reflexivity.
    + destruct (key_eqb k key) eqn:E; cbn [dol_get]; rewrite E; [reflexivity | exact IH].
  - intros key' Hne.
    assert (Hne' : key_eqb key key' = false).
    { destruct (key_eqb key key') eqn:E; [|reflexivity].
      apply key_eqb_eq in E. congruence. }
    induction d as [|[k l] d IH]; cbn [add_to_dict_of_lists dol_get].
    + rewrite Hne'. reflexivity.
    + destruct (key_eqb k key) eqn:E; cbn [dol_get].
      * apply key_eqb_eq in E. subst k. rewrite Hne'. reflexivity.
      * destruct (key_eqb k key'); [reflexivity | exact IH].
Qed.

End DictOfListsFacts.

Section EslFacts.

Lemma land_2_testbit (b : Z) : Z.eqb (Z.land b 2) 2 = Z.testbit b 1.
Proof.
  assert (H : Z.land b (2 ^ 1) = if Z.testbit b 1 then (2 ^ 1)%Z else 0%Z).
  { apply Z.bits_inj'. intros n Hn. rewrite Z.land_spec, Z.pow2_bits_eqb by lia.
    destruct (Z.eqb_spec 1 n) as [<-|Hne].
    - rewrite andb_true_r. destruct (Z.testbit b 1); [|reflexivity].
      rewrite Z.pow2_bits_eqb by lia. reflexivity.
    - rewrite andb_false_r. destruct (Z.testbit b 1).
      + rewrite Z.pow2_bits_eqb by lia. symmetry. apply Z.eqb_neq. exact Hne.
      + symmetry. apply Z.bits_0. }
  change (2 ^ 1)%Z with 2%Z in H. rewrite H. destruct (Z.testbit b 1); reflexivity.
Qed.

(** X15. On a file that opens, [is_esl_flagged] raises [IndexError] when
    the file has fewer than ten bytes, and otherwise tells whether bit 1
    of the byte at offset 9 is set; nothing else of the file matters. *)
Theorem X15_is_esl_flagged_bit (open_rb : string -> res (list Z)) (filename : string)
    (content : list Z) :
  open_rb filename = Ok content ->
  match nth_error content 9 with
  | Some b => is_esl_flagged open_rb filename = Ok (Z.testbit b 1)
  | None => List.length content < 10 /\
            is_esl_flagged open_rb filename = Raise index_error
  end.
Proof.
  intros Ho. unfold is_esl_flagged. rewrite Ho. cbn [rbind].
  assert (Hn : nth_error (firstn 10 content) 9 = nth_error content 9).
  { rewrite nth_error_firstn. reflexivity. }
  rewrite Hn. destruct (nth_error content 9) as [b|] eqn:E.
  - rewrite land_2_testbit. reflexivity.
  - split; [|reflexivity]. apply nth_error_None in E. lia.
Qed.

End EslFacts.

(* ================================================================= *)
(** * More on Folders *)

Section MoreFoldersFacts.
Context {W : Type} {FS : Filesystem W} {PL : PyLib}.
Import PyStr PyStrFacts PyStrMore PyStrMoreFacts.

Lemma abort_if_not_Ok_inv (cond : bool) (f : option string) (lineno : Z) (file : string)
    (st st' : state W) (u : unit) :
  abort_if_not cond f lineno file st = (Ok u, st') -> cond = true /\ st' = st.
Proof.
  destruct cond; cbn [abort_if_not].
  - intros H. injection H as _ <-. auto.
  - unfold bind, critical, emit, raise. discriminate.
Qed.

Lemma quiet_ret {A} (a : A) : quiet (W := W) (ret a).
Proof. intros st r st' H. injection H as <- <-. auto. Qed.

Lemma quiet_lift {A} (r : res A) : quiet (W := W) (lift r).
Proof. intros st r' st' H. injection H as <- <-. auto. Qed.

Lemma quiet_raise {A} (e : exn) : quiet (W := W) (raise (A := A) e).
Proof. intros st r st' H. injection H as <- <-. split; [reflexivity | discriminate]. Qed.

Lemma quiet_abort_if_not (cond : bool) (f : option string) (lineno : Z) (file : string) :
  quiet (W := W) (abort_if_not cond f lineno file).
Proof.
  destruct cond; [apply quiet_ret|].
  intros st r st' H. unfold abort_if_not, bind, critical, emit, raise in H.
  injection H as <- <-. split; [reflexivity | discriminate].
Qed.

Lemma quiet_bind {A B} (m : M W A) (k : A -> M W B) :
  quiet m -> (forall a, quiet (k a)) -> quiet (bind m k).
Proof.
  intros Hm Hk st r st' H. unfold bind in H.
  destruct (m st) as [[a|e|] s1] eqn:E; destruct (Hm _ _ _ E) as [Hw Hs].
  - rewrite (Hs a eq_refl) in *. exact (Hk a _ _ _ H).
  - injection H as <- <-. split; [exact Hw | discriminate].
  - injection H as <- <-. split; [exact Hw | discriminate].
Qed.

Lemma quiet_normalize_mo2_dir_path (path mo2dir : string) :
  quiet (W := W) (_normalize_mo2_dir_path path mo2dir).
Proof.
  unfold _normalize_mo2_dir_path.
  apply quiet_bind; [apply quiet_lift|]. intros out.
  apply quiet_bind; [apply quiet_abort_if_not|]. intros _. apply quiet_ret.
Qed.

Lemma quiet_ignore_loop (mo2dir : string) (ignores : list json) :
  forall acc, quiet (W := W) (ignore_loop mo2dir ignores acc).
Proof.
  induction ignores as [|x ignores IH]; intros acc; [apply quiet_ret|].
  cbn [ignore_loop]. apply quiet_bind; [|exact IH].
  unfold ignore_step. destruct (json_eq_str x "{DEFAULT-IGNORES}").
  - apply quiet_bind; [apply quiet_lift|]. intros ds. apply quiet_ret.
  - destruct x; try apply quiet_raise.
    apply quiet_bind; [apply quiet_normalize_mo2_dir_path|]. intros d. apply quiet_ret.
Qed.

(** X20. Constructing [Folders] never changes the filesystem, and a
    construction that succeeds has logged nothing: the only events it can
    add are the [critical] messages of a failing [abort_if_not]. *)
Theorem X20_Folders_init_quiet (fuel : nat) (fname : string) (cfg : config) :
  quiet (W := W) (Folders_init fuel fname cfg).
Proof.
  unfold Folders_init.
  apply quiet_bind.
  - unfold Folders_init_roots.
    apply quiet_bind; [apply quiet_lift|]. intros cd.
    apply quiet_bind; [apply quiet_abort_if_not|]. intros _.
    apply quiet_bind; [apply quiet_abort_if_not|]. intros _.
    apply quiet_bind; [apply quiet_lift|]. intros mo2.
    apply quiet_bind; [apply quiet_abort_if_not|]. intros _.
    apply quiet_bind; [apply quiet_lift|]. intros dls. apply quiet_ret.
  - intros [[cd mo2] dls].
    apply quiet_bind; [apply quiet_abort_if_not|]. intros _.
    apply quiet_bind; [apply quiet_ignore_loop|]. intros igs.
    unfold Folders_init_rest.
    repeat (apply quiet_bind; [apply quiet_lift|]; intros ?).
    apply quiet_ret.
Qed.

(** X16. Without a ['mo2'] key, or with a ['mo2'] that is not a string,
    [Folders.__init__] raises [SanguinicError] once the configuration
    directory is normalized; the message tells which of the two, the second
    with the [repr] of the value. *)
Theorem X16_Folders_init_mo2_required (fuel : nat) (fname : string) (cfg : config)
    (st : state W) (cd : string) :
  normalize_dir_path (fst (os_path_split fname)) = Ok cd ->
  is_jstr (dict_get_default cfg "mo2" JNull) = false ->
  let msg := "abort_if_not() failed:" ++
             match dict_get cfg "mo2" with
             | None => "'mo2' must be present in config"
             | Some v => "config.'mo2' must be a string, got " ++ repr v
             end in
  let line := match dict_get cfg "mo2" with None => "64" | Some _ => "66" end in
  Folders_init fuel fname cfg st =
  (Raise (mk_exn SanguinicError msg),
   mk_state (world st)
     (events st ++ [EvCritical (msg ++ " @line " ++ line ++ " of folders.py")])%list).
Proof.
  intros Hcd Hty msg line. unfold Folders_init, Folders_init_roots.
  unfold bind at 1 2, lift at 1. rewrite Hcd.
  unfold str_in_dict, dict_get_default in *. subst msg line.
  destruct (dict_get cfg "mo2") as [v|].
  - cbn [abort_if_not]. unfold bind at 1, ret at 1.
    unfold bind at 1. rewrite Hty.
    unfold abort_if_not, bind, critical, emit, raise. cbn [world events].
    rewrite !append_assoc. reflexivity.
  - unfold abort_if_not, bind, critical, emit, raise. cbn [world events].
    reflexivity.
Qed.

Lemma rmapM_Forall {A B} (f : A -> res B) (P : B -> Prop) (l : list A) :
  (forall a b, f a = Ok b -> P b) ->
  forall bs, rmapM f l = Ok bs -> Forall P bs.
Proof.
  intros Hf. induction l as [|a l IH]; intros bs H; cbn [rmapM] in H.
  - injection H as <-. constructor.
  - destruct (f a) as [b| |] eqn:E; cbn [rbind] in H; try discriminate.
    destruct (rmapM f l) as [bs'| |]; cbn [rbind] in H; try discriminate.
    injection H as <-. constructor; [exact (Hf a b E) | apply IH; reflexivity].
Qed.



Lemma normalize_mo2_dir_path_Ok (path mo2dir d : string) (st st' : state W) :
  _normalize_mo2_dir_path path mo2dir st = (Ok d, st') ->
  (exists x, normalize_dir_path x = Ok d) /\ startswith d mo2dir = true.
Proof.
  unfold _normalize_mo2_dir_path. intros H.
  apply bind_Ok_inv in H as (out & s1 & Hout & H).
  apply bind_Ok_inv in H as (u & s2 & Hab & H).
  apply lift_Ok_inv in Hout as [Hout _]. apply abort_if_not_Ok_inv in Hab as [Hsw _].
  injection H as <- _. split; [|exact Hsw].
  destruct (os_path_isabs path); eauto.
Qed.




Section FoldersNormalized.
Hypothesis abspath_lower :
  forall p, os_path_abspath (lower (os_path_abspath p)) = lower (os_path_abspath p).
Hypothesis abspath_trailing_sep :
  forall p, endswith (os_path_abspath p) "\" = false ->
            os_path_abspath (os_path_abspath p ++ "\") = os_path_abspath p.


End FoldersNormalized.

Lemma ignore_loop_contained (mo2dir : string) (ignores : list json) :
  Forall (fun x => json_eq_str x "{DEFAULT-IGNORES}" = false) ignores ->
  forall acc r (st st' : state W),
    ignore_loop mo2dir ignores acc st = (Ok r, st') ->
    exists added, r = (acc ++ added)%list /\
                  List.length added = List.length ignores /\
                  Forall (fun d => startswith d mo2dir = true) added.
Proof.
  induction 1 as [|x ignores Hx _ IH]; intros acc r st st' H.
  - injection H as <- _. exists []. rewrite app_nil_r. repeat split. constructor.
  - rewrite ignore_loop_cons in H. apply bind_Ok_inv in H as (acc' & s1 & Hs & H).
    unfold ignore_step in Hs. rewrite Hx in Hs. destruct x; try discriminate.
    apply bind_Ok_inv in Hs as (d & s2 & Hd & Hs). injection Hs as <- _.
    apply normalize_mo2_dir_path_Ok in Hd as [_ Hsw].
    apply IH in H as (added & -> & Hlen & Hall).
    exists (d :: added). rewrite <- app_assoc. cbn [app List.length].
    repeat split; [congruence|]. constructor; assumption.
Qed.

(** X18. When the [ignores] list holds no sentinel, a constructed
    [Folders] has one [ignore_dirs] entry per list entry, and every one of
    them starts with [mo2_dir]. *)
Theorem X18_ignore_dirs_within_mo2 (fuel : nat) (fname : string) (cfg : config)
    (st st' : state W) (F : Folders) (l : list json) :
  Folders_init fuel fname cfg st = (Ok F, st') ->
  config_ignores cfg = JList l ->
  Forall (fun x => json_eq_str x "{DEFAULT-IGNORES}" = false) l ->
  List.length (ignore_dirs F) = List.length l /\
  Forall (fun d => startswith d (mo2_dir F) = true) (ignore_dirs F).
Proof.
  intros HF Hl Hns.
  apply Folders_init_Ok in HF as (cd & dls & l' & s1 & s2 & igs & _ & Hl' & Hlp & Hrest).
  rewrite Hl in Hl'. injection Hl' as <-.
  apply Folders_init_rest_fields in Hrest as (_ & -> & _).
  apply (ignore_loop_contained _ _ Hns) in Hlp as (added & -> & Hlen & Hall).
  cbn [app]. auto.
Qed.

Lemma normalize_file_name_json_Ok (om : json) (n : string) :
  normalize_file_name_json om = Ok n ->
  exists fname, om = JStr fname /\ n = lower fname /\ contains n "\" = false.
Proof.
  destruct om as [| | |fname|l|d]; cbn [normalize_file_name_json]; try discriminate.
  - unfold normalize_file_name, py_assert.
    destruct (contains fname "\") eqn:E1; cbn [negb andb rbind]; [discriminate|].
    destruct (contains fname "/"); cbn [negb andb rbind]; [discriminate|].
    intros H. injection H as <-. exists fname. repeat split.
    rewrite contains_lower by apply lower_char_backslash. exact E1.
  - unfold py_assert. destruct (_ && _); discriminate.
  - unfold py_assert. destruct (_ && _); discriminate.
Qed.

Lemma not_normalized_nonempty_tail (x n : string) :
  n <> "" -> contains n "\" = false -> is_normalized_dir_path (x ++ n) = false.
Proof.
  intros Hn Hc. destruct (is_normalized_dir_path (x ++ n)) eqn:E; [|reflexivity].
  unfold is_normalized_dir_path in E. apply String.eqb_eq in E.
  assert (He : endswith (x ++ n) "\" = true) by (rewrite E; apply endswith_app).
  apply (endswith_app_tail x n "\"%char Hn) in He. congruence.
Qed.

(** X19. For a constructed [Folders] whose first own-mod name is not
    empty, both [all_mo2_own_mod_dirs] and [all_git_own_mod_dirs] stop on
    their assertion before yielding anything: the path they build ends
    with the name, not with a separator. *)
Theorem X19_own_mod_dir_enumerators_fail (fuel : nat) (fname : string) (cfg : config)
    (st st' : state W) (F : Folders) (n : string) (rest : list string) :
  Folders_init fuel fname cfg st = (Ok F, st') ->
  own_mod_names F = n :: rest ->
  n <> "" ->
  all_mo2_own_mod_dirs F = ([], Some assertion_error) /\
  all_git_own_mod_dirs F = ([], Some assertion_error).
Proof.
  intros HF Hnames Hn.
  apply Folders_init_Ok in HF as (cd & dls & l & s1 & s2 & igs & _ & _ & _ & Hrest).
  apply Folders_init_rest_fields in Hrest as (_ & _ & oms & _ & Hrm).
  assert (Hall : Forall (fun n => contains n "\" = false) (own_mod_names F)).
  { refine (rmapM_Forall _ _ _ _ _ Hrm). intros a b Hab.
    apply normalize_file_name_json_Ok in Hab as (f & _ & _ & Hc). exact Hc. }
  rewrite Hnames in Hall. inversion Hall as [|? ? Hc _]; subst.
  unfold all_mo2_own_mod_dirs, all_git_own_mod_dirs. rewrite Hnames.
  cbn [all_mo2_own_mod_dirs_from all_git_own_mod_dirs_from].
  rewrite (not_normalized_nonempty_tail _ n Hn Hc).
  rewrite <- append_assoc, (not_normalized_nonempty_tail _ n Hn Hc). auto.
Qed.

Lemma rmapM_normalize_names (names : list string) (r : list string) :
  rmapM normalize_file_name_json (map JStr names) = Ok r -> r = map lower names.
Proof.
  revert r. induction names as [|f names IH]; intros r H; cbn [map rmapM] in H.
  - injection H as <-. reflexivity.
  - destruct (normalize_file_name_json (JStr f)) as [n| |] eqn:E; cbn [rbind] in H;
      try discriminate.
    destruct (rmapM normalize_file_name_json (map JStr names)) as [ns| |];
      cbn [rbind] in H; try discriminate.
    injection H as <-. apply normalize_file_name_json_Ok in E as (f' & Hf & -> & _).
    injection Hf as <-. cbn [map]. f_equal. apply IH. reflexivity.
Qed.

(** X21. The [own_mod_names] of a constructed [Folders] are the entries
    of [ownmods] lower-cased, in order, and empty without the key.  An
    [ownmods] given as one string is gone through character by character:
    every character becomes a name. *)
Theorem X21_own_mod_names (fuel : nat) (fname : string) (cfg : config)
    (st st' : state W) (F : Folders) :
  Folders_init fuel fname cfg st = (Ok F, st') ->
  match dict_get cfg "ownmods" with
  | None => own_mod_names F = []
  | Some (JList l) =>
      forall names, l = map JStr names -> own_mod_names F = map lower names
  | Some (JStr s) =>
      own_mod_names F
      = map (fun c => lower (String c EmptyString)) (list_ascii_of_string s)
  | Some _ => True
  end.
Proof.
  intros HF.
  apply Folders_init_Ok in HF as (cd & dls & l & s1 & s2 & igs & _ & _ & _ & Hrest).
  apply Folders_init_rest_fields in Hrest as (_ & _ & oms & Hit & Hrm).
  unfold dict_get_default in Hit.
  destruct (dict_get cfg "ownmods") as [[| | |s|l'|d]|]; try exact I.
  - injection Hit as <-. rewrite <- map_map with (f := fun c => String c EmptyString) in Hrm.
    apply rmapM_normalize_names in Hrm. rewrite Hrm, map_map. reflexivity.
  - injection Hit as <-. intros names ->. apply rmapM_normalize_names. exact Hrm.
  - injection Hit as <-. injection Hrm as <-. reflexivity.
Qed.

End MoreFoldersFacts.

(* ================================================================= *)
(** * The mod list (modlist.py) *)

Module ModListFacts.
Import PyStr PyStrFacts PyStrMore PyStrMoreFacts ModListPy.

Lemma rstrip_app_space (s : string) (c : ascii) :
  is_space c = true -> rstrip (s ++ String c "") = rstrip s.
Proof.
  intros Hc. induction s as [|a s IH]; cbn [append rstrip].
  - rewrite Hc. reflexivity.
  - rewrite IH. reflexivity.
Qed.

Lemma rstrip_idem (s : string) : rstrip (rstrip s) = rstrip s.
Proof.
  induction s as [|a s IH]; [reflexivity|].
  cbn [rstrip]. destruct (rstrip s) as [|b r] eqn:E.
  - destruct (is_space a) eqn:Ea; [reflexivity|]. cbn [rstrip]. rewrite Ea. reflexivity.
  - cbn [rstrip]. cbn [rstrip] in IH. rewrite IH. reflexivity.
Qed.

Lemma rstrip_nl (x : string) : rstrip (rstrip x ++ nl) = rstrip x.
Proof. unfold nl. rewrite rstrip_app_space by reflexivity. apply rstrip_idem. Qed.

(** a stripped line stays stripped when its first character is replaced
    by one that is no white space *)
Lemma rstrip_swap_head (a b : ascii) (t : string) :
  rstrip (String a t) = String a t -> is_space b = false ->
  rstrip (String b t) = String b t.
Proof.
  cbn [rstrip]. intros H Hb. destruct (rstrip t) as [|c r] eqn:E.
  - destruct (is_space a); [discriminate|]. injection H as <-. rewrite Hb. reflexivity.
  - injection H as <-. reflexivity.
Qed.

Lemma filter_idem {A} (f : A -> bool) (l : list A) : filter f (filter f l) = filter f l.
Proof.
  induction l as [|a l IH]; [reflexivity|].
  cbn [filter]. destruct (f a) eqn:E; [|exact IH]. cbn [filter]. rewrite E, IH. reflexivity.
Qed.

Lemma filter_all {A} (f : A -> bool) (l : list A) :
  Forall (fun a => f a = true) l -> filter f l = l.
Proof.
  induction 1 as [|a l Ha _ IH]; [reflexivity|]. cbn [filter]. rewrite Ha, IH. reflexivity.
Qed.

Lemma modlist_init (rfile : list string) :
  modlist (ModList_init rfile) = rev (kept_lines rfile).
Proof. reflexivity. Qed.

Lemma kept_lines_stripped (rfile : list string) :
  Forall (fun l => rstrip l = l /\ kept l = true) (kept_lines rfile).
Proof.
  unfold kept_lines. apply Forall_forall. intros l Hl.
  apply filter_In in Hl as [Hl Hk]. apply in_map_iff in Hl as (x & <- & _).
  split; [apply rstrip_idem | exact Hk].
Qed.

Lemma header_stripped :
  rstrip header = "# This file was automatically modified by mo2git." /\
  kept (rstrip header) = true.
Proof. split; reflexivity. Qed.

Lemma write_then_init (rfile : list string) :
  let m := ModList_init rfile in
  write m = header :: map (fun l => l ++ nl) (filter kept (map rstrip rfile)) /\
  modlist (ModList_init (write m))
  = (modlist m ++ ["# This file was automatically modified by mo2git."])%list.
Proof.
  cbv zeta.
  assert (Hw : write (ModList_init rfile)
               = header :: map (fun l => l ++ nl) (kept_lines rfile)).
  { unfold write. rewrite modlist_init, rev_involutive. reflexivity. }
  split; [exact Hw|].
  rewrite Hw, !modlist_init. unfold kept_lines at 1. cbn [map filter].
  destruct header_stripped as [Hh Hk]. rewrite Hk, Hh.
  rewrite map_map.
  assert (Hid : map (fun l => rstrip (l ++ nl)) (kept_lines rfile) = kept_lines rfile).
  { rewrite <- (map_id (kept_lines rfile)) at 2. apply map_ext_in. intros l Hl.
    pose proof (kept_lines_stripped rfile) as Hall.
    rewrite Forall_forall in Hall. destruct (Hall l Hl) as [Hs _].
    rewrite <- Hs at 1. rewrite rstrip_nl. exact Hs. }
  rewrite Hid. unfold kept_lines at 1. rewrite filter_idem. reflexivity.
Qed.

Lemma nonl_cons (c : ascii) (s : string) :
  nonl (String c s) <-> Ascii.eqb c (ascii_of_nat 10) = false /\ nonl s.
Proof.
  unfold nonl, nl. rewrite contains_char_cons, orb_false_iff, (Ascii.eqb_sym c). tauto.
Qed.

Lemma file_lines_line (l rest : string) :
  nonl l -> file_lines ((l ++ nl) ++ rest) = (l ++ nl) :: file_lines rest.
Proof.
  induction l as [|c l IH]; intros Hl.
  - reflexivity.
  - apply nonl_cons in Hl as [Hc Hl]. cbn [append file_lines].
    rewrite Hc. cbn [append] in IH. rewrite (IH Hl). reflexivity.
Qed.

Lemma written_cons (x : string) (xs : list string) : written (x :: xs) = x ++ written xs.
Proof.
  unfold written. destruct xs; cbn [concat]; [symmetry; apply append_nil_r | reflexivity].
Qed.

(** lines without a newline inside, each written with one, are the lines
    of the file written *)
Lemma file_lines_written (ls : list string) :
  Forall nonl ls ->
  file_lines (written (map (fun l => l ++ nl) ls)) = map (fun l => l ++ nl) ls.
Proof.
  induction 1 as [|l ls Hl _ IH]; [reflexivity|].
  cbn [map]. rewrite written_cons, (file_lines_line l _ Hl), IH. reflexivity.
Qed.

Lemma file_lines_nonl (content : string) :
  Forall (fun l => exists body, nonl body /\ (l = body \/ l = body ++ nl))
    (file_lines content).
Proof.
  induction content as [|c content IH]; [constructor|].
  cbn [file_lines]. destruct (Ascii.eqb c (ascii_of_nat 10)) eqn:Ec.
  - constructor; [|exact IH]. apply Ascii.eqb_eq in Ec. subst c.
    exists "". split; [reflexivity | right; reflexivity].
  - destruct (file_lines content) as [|l ls].
    + repeat constructor. exists (String c ""). split; [|left; reflexivity].
      apply nonl_cons. split; [exact Ec | reflexivity].
    + inversion IH as [|? ? (body & Hb & Hl) Hls]; subst.
      constructor; [|exact Hls]. exists (String c body).
      split; [apply nonl_cons; auto|].
      destruct Hl as [-> | ->]; [left | right]; reflexivity.
Qed.

Lemma rstrip_prefix (s : string) : exists t, s = rstrip s ++ t.
Proof.
  induction s as [|a s [t IH]]; [exists ""; reflexivity|].
  cbn [rstrip]. destruct (rstrip s) as [|b r] eqn:E.
  - destruct (is_space a); [exists (String a s) | exists s]; reflexivity.
  - exists t. cbn [append]. cbn [append] in IH. rewrite <- IH. reflexivity.
Qed.

Lemma rstrip_nonl (s : string) : nonl s -> nonl (rstrip s).
Proof.
  unfold nonl, nl. intros H. destruct (rstrip_prefix s) as [t Ht].
  rewrite Ht, contains_char_app in H. apply orb_false_iff in H as [H _]. exact H.
Qed.

Lemma kept_lines_nonl (content : string) :
  Forall nonl (kept_lines (file_lines content)).
Proof.
  unfold kept_lines. apply Forall_forall. intros l Hl.
  apply filter_In in Hl as [Hl _]. apply in_map_iff in Hl as (x & <- & Hx).
  pose proof (file_lines_nonl content) as Hall. rewrite Forall_forall in Hall.
  destruct (Hall x Hx) as (body & Hb & [-> | ->]).
  - apply rstrip_nonl. exact Hb.
  - unfold nl. rewrite rstrip_app_space by reflexivity. apply rstrip_nonl. exact Hb.
Qed.

(** X22. From a [modlist.txt] of any content, [write] puts out the header
    and then the kept lines in the order of the file, each with one
    newline.  Reading the written file back gives the same mod list with
    the header line added at its end: every write and read round adds one
    header entry. *)
Theorem X22_write_then_read (content : string) :
  let m := ModList_init (file_lines content) in
  write m = header :: map (fun l => l ++ nl)
                        (filter kept (map rstrip (file_lines content))) /\
  modlist (ModList_init (file_lines (written (write m))))
  = (modlist m ++ ["# This file was automatically modified by mo2git."])%list.
Proof.
  cbv zeta. destruct (write_then_init (file_lines content)) as [Hw Hr].
  split; [exact Hw|]. rewrite <- Hr. f_equal. f_equal.
  rewrite Hw. rewrite written_cons.
  change (filter kept (map rstrip (file_lines content)))
    with (kept_lines (file_lines content)).
  change header with ("# This file was automatically modified by mo2git." ++ nl) at 1.
  rewrite file_lines_line by reflexivity.
  rewrite (file_lines_written _ (kept_lines_nonl content)). reflexivity.
Qed.

(** X23. [isSeparator] takes the suffix ["_separator"] off a name that has
    it and gives [None] for any other name: adding the suffix and asking
    gives the name back, and an answer [n] means the name was
    [n + "_separator"]. *)
Theorem X23_isSeparator_round_trip :
  (forall name, isSeparator (name ++ "_separator") = Some name) /\
  (forall s n, isSeparator s = Some n -> s = n ++ "_separator") /\
  (forall s, isSeparator s = None <-> endswith s "_separator" = false).
Proof.
  assert (H1 : forall name, isSeparator (name ++ "_separator") = Some name).
  { intros name. unfold isSeparator. rewrite endswith_app, length_append.
    replace (String.length name + String.length "_separator" - String.length "_separator")
      with (String.length name) by lia.
    rewrite slice_to_app. reflexivity. }
  split; [exact H1|]. split.
  - intros s n H. unfold isSeparator in H.
    destruct (endswith s "_separator") eqn:E; [|discriminate].
    apply endswith_inv in E as [x ->].
    pose proof (H1 x) as Hx. unfold isSeparator in Hx. rewrite endswith_app in Hx.
    congruence.
  - intros s. unfold isSeparator. destruct (endswith s "_separator"); split;
      intros H; try reflexivity; discriminate.
Qed.

Lemma plus_head (c : ascii) (t : string) : plus (String c t) = Ascii.eqb c "+".
Proof.
  unfold plus, startswith. rewrite prefix_cons, prefix_nil, andb_true_r.
  apply Ascii.eqb_sym.
Qed.

Lemma allEnabled_from_names (lines : list string) :
  ~ In "" lines -> allEnabled_from lines = (enabled_names lines, None).
Proof.
  unfold enabled_names.
  induction lines as [|l lines IH]; intros Hno; [reflexivity|].
  cbn [allEnabled_from]. destruct l as [|c t]; [exfalso; apply Hno; left; reflexivity|].
  rewrite IH by (intros H; apply Hno; right; exact H).
  cbn [filter]. rewrite plus_head. destruct (Ascii.eqb c "+"); reflexivity.
Qed.

Lemma allEnabled_from_blank (lines : list string) :
  In "" lines -> snd (allEnabled_from lines) = Some index_error.
Proof.
  induction lines as [|l lines IH]; intros Hin; [destruct Hin|].
  cbn [allEnabled_from]. destruct l as [|c t]; [reflexivity|].
  destruct Hin as [Hin|Hin]; [discriminate|].
  specialize (IH Hin). destruct (allEnabled_from lines) as [ys stop].
  destruct (Ascii.eqb c "+"); exact IH.
Qed.

Lemma writeDisablingIf_loop_blank (lines : list string) (f : string -> bool) :
  In "" lines -> snd (writeDisablingIf_loop lines f) = Some index_error.
Proof.
  induction lines as [|l lines IH]; intros Hin; [destruct Hin|].
  cbn [writeDisablingIf_loop]. destruct l as [|c t]; [reflexivity|].
  destruct Hin as [Hin|Hin]; [discriminate|].
  specialize (IH Hin). destruct (writeDisablingIf_loop lines f) as [ws stop]. exact IH.
Qed.

(** X24. On a mod list without an empty line [allEnabled] yields, in the
    order of the list, the names of the lines that start with ["+"], and
    ends normally. *)
Theorem X24_allEnabled_names (self : ModList) :
  ~ In "" (modlist self) ->
  allEnabled self
  = (map (slice_from 1) (filter (fun l => startswith l "+") (modlist self)), None).
Proof. intros H. exact (allEnabled_from_names _ H). Qed.

(** X25. A line of the file that is blank after [rstrip] is kept by
    [__init__] as an empty entry, and the first character test on it
    raises [IndexError]: [allEnabled] and [writeDisablingIf] both stop on
    it. *)
Theorem X25_blank_line_breaks_enumeration (rfile : list string) (raw : string)
    (f : string -> bool) :
  In raw rfile -> rstrip raw = "" ->
  In "" (modlist (ModList_init rfile)) /\
  snd (allEnabled (ModList_init rfile)) = Some index_error /\
  snd (writeDisablingIf (ModList_init rfile) f) = Some index_error.
Proof.
  intros Hin Hraw.
  assert (Hk : In "" (kept_lines rfile)).
  { unfold kept_lines. apply filter_In. split; [|reflexivity].
    rewrite <- Hraw. apply in_map. exact Hin. }
  assert (Hm : In "" (modlist (ModList_init rfile)))
    by (rewrite modlist_init; apply -> in_rev; exact Hk).
  split; [exact Hm|]. split.
  - apply allEnabled_from_blank. exact Hm.
  - unfold writeDisablingIf. rewrite modlist_init, rev_involutive.
    pose proof (writeDisablingIf_loop_blank (kept_lines rfile) f Hk) as H.
    destruct (writeDisablingIf_loop (kept_lines rfile) f) as [ws stop]. exact H.
Qed.

Lemma writeDisablingIf_loop_lines (lines : list string) (f : string -> bool) :
  ~ In "" lines ->
  writeDisablingIf_loop lines f = (map (fun l => disabled_line f l ++ nl) lines, None).
Proof.
  induction lines as [|l lines IH]; intros Hno; [reflexivity|].
  cbn [writeDisablingIf_loop map]. destruct l as [|c t]; [exfalso; apply Hno; left; reflexivity|].
  rewrite IH by (intros H; apply Hno; right; exact H).
  unfold disabled_line. rewrite plus_head.
  destruct (Ascii.eqb c "+"); cbn [andb]; [|reflexivity].
  destruct (f (slice_from 1 (String c t))); [|reflexivity].
  rewrite append_assoc. reflexivity.
Qed.

Lemma enabled_names_rev (lines : list string) :
  enabled_names (rev lines) = rev (enabled_names lines).
Proof.
  unfold enabled_names. induction lines as [|l lines IH]; [reflexivity|].
  cbn [rev filter]. rewrite filter_app, map_app, IH. cbn [filter].
  destruct (plus l); cbn [map rev]; [reflexivity | apply app_nil_r].
Qed.

Lemma enabled_names_kept (lines : list string) :
  enabled_names (filter kept lines) = enabled_names lines.
Proof.
  unfold enabled_names. induction lines as [|l lines IH]; [reflexivity|].
  cbn [filter]. destruct (plus l) eqn:Ep.
  - assert (Hk : kept l = true).
    { destruct l as [|c t]; [discriminate|]. rewrite plus_head in Ep.
      apply Ascii.eqb_eq in Ep. subst c. unfold kept, startswith.
      rewrite prefix_cons. apply orb_true_r. }
    rewrite Hk. cbn [filter map]. rewrite Ep. cbn [map]. f_equal. exact IH.
  - destruct (kept l); [cbn [filter]; rewrite Ep|]; exact IH.
Qed.

Lemma disabled_line_stripped (f : string -> bool) (l : string) :
  rstrip l = l -> rstrip (disabled_line f l ++ nl) = disabled_line f l.
Proof.
  intros Hl. unfold nl. rewrite rstrip_app_space by reflexivity.
  unfold disabled_line. destruct (plus l && f (slice_from 1 l)) eqn:E; [|exact Hl].
  apply andb_true_iff in E as [Ep _]. destruct l as [|c t]; [discriminate|].
  cbn [slice_from append]. exact (rstrip_swap_head c "-" t Hl eq_refl).
Qed.

Lemma enabled_names_disabled (f : string -> bool) (lines : list string) :
  enabled_names (map (disabled_line f) lines)
  = filter (fun n => negb (f n)) (enabled_names lines).
Proof.
  unfold enabled_names. induction lines as [|l lines IH]; [reflexivity|].
  cbn [map filter].
  destruct (plus l) eqn:Ep; [destruct (f (slice_from 1 l)) eqn:Ef|].
  - assert (Hd : disabled_line f l = "-" ++ slice_from 1 l)
      by (unfold disabled_line; rewrite Ep, Ef; reflexivity).
    rewrite Hd. replace (plus ("-" ++ slice_from 1 l)) with false by reflexivity.
    cbn [map filter]. rewrite Ef. cbn [negb]. exact IH.
  - assert (Hd : disabled_line f l = l)
      by (unfold disabled_line; rewrite Ep, Ef; reflexivity).
    rewrite Hd, Ep. cbn [map filter]. rewrite Ef. cbn [negb]. f_equal. exact IH.
  - assert (Hd : disabled_line f l = l)
      by (unfold disabled_line; rewrite Ep; reflexivity).
    rewrite Hd, Ep. exact IH.
Qed.

Lemma writeDisablingIf_then_init (rfile : list string) (f : string -> bool) :
  let m := ModList_init rfile in
  ~ In "" (modlist m) ->
  snd (writeDisablingIf m f) = None /\
  List.length (fst (writeDisablingIf m f)) = List.length (write m) /\
  ((forall n, f n = false) -> fst (writeDisablingIf m f) = write m) /\
  fst (allEnabled (ModList_init (fst (writeDisablingIf m f))))
  = filter (fun n => negb (f n)) (fst (allEnabled m)).
Proof.
  cbv zeta. intros Hno.
  assert (Hno' : ~ In "" (kept_lines rfile))
    by (intros H; apply Hno; rewrite modlist_init; apply -> in_rev; exact H).
  assert (Hw : writeDisablingIf (ModList_init rfile) f
               = (header :: map (fun l => disabled_line f l ++ nl) (kept_lines rfile), None)).
  { unfold writeDisablingIf. rewrite modlist_init, rev_involutive.
    rewrite (writeDisablingIf_loop_lines _ f Hno'). reflexivity. }
  assert (Hwr : write (ModList_init rfile)
                = header :: map (fun l => l ++ nl) (kept_lines rfile)).
  { unfold write. rewrite modlist_init, rev_involutive. reflexivity. }
  rewrite Hw, Hwr. cbn [fst snd].
  split; [reflexivity|]. split; [cbn [List.length]; rewrite !length_map; reflexivity|].
  split.
  - intros Hf. f_equal. apply map_ext. intros l. unfold disabled_line.
    rewrite Hf, andb_false_r. reflexivity.
  - assert (Hread : modlist (ModList_init
                       (header :: map (fun l => disabled_line f l ++ nl) (kept_lines rfile)))
                    = rev (filter kept (rstrip header
                                        :: map (disabled_line f) (kept_lines rfile)))).
    { rewrite modlist_init. unfold kept_lines at 1. cbn [map]. rewrite map_map.
      f_equal. f_equal. f_equal. apply map_ext_in. intros l Hl.
      pose proof (kept_lines_stripped rfile) as Hall.
      rewrite Forall_forall in Hall. destruct (Hall l Hl) as [Hs _].
      exact (disabled_line_stripped f l Hs). }
    assert (Hno2 : ~ In "" (modlist (ModList_init
                       (header :: map (fun l => disabled_line f l ++ nl) (kept_lines rfile))))).
    { rewrite Hread. intros H. apply in_rev in H. apply filter_In in H as [H _].
      destruct H as [H|H]; [discriminate|].
      apply in_map_iff in H as (l & Hl & Hin). unfold disabled_line in Hl.
      destruct (plus l && f (slice_from 1 l)); [discriminate|].
      subst l. exact (Hno' Hin). }
    unfold allEnabled.
    rewrite (allEnabled_from_names _ Hno2), (allEnabled_from_names _ Hno). cbn [fst].
    rewrite Hread, enabled_names_rev, enabled_names_kept.
    replace (enabled_names (rstrip header :: map (disabled_line f) (kept_lines rfile)))
      with (enabled_names (map (disabled_line f) (kept_lines rfile))) by reflexivity.
    rewrite enabled_names_disabled, modlist_init, enabled_names_rev.
    generalize (enabled_names (kept_lines rfile)). intros l.
    induction l as [|a l IH]; [reflexivity|].
    cbn [rev filter]. rewrite filter_app, <- IH. cbn [filter].
    destruct (negb (f a)); cbn [rev]; [reflexivity | rewrite app_nil_r; reflexivity].
Qed.

Lemma disabled_line_nonl (f : string -> bool) (l : string) :
  nonl l -> nonl (disabled_line f l).
Proof.
  intros Hl. unfold disabled_line. destruct (plus l && f (slice_from 1 l)); [|exact Hl].
  destruct l as [|c t]; [reflexivity|]. apply nonl_cons in Hl as [_ Hl].
  cbn [slice_from append]. apply nonl_cons. split; [reflexivity | exact Hl].
Qed.

(** X26. On a mod list read from a file without blank lines,
    [writeDisablingIf] writes every line, and with an [f] that selects
    nothing it writes what [write] writes.  Reading the file it wrote, the
    enabled mods are those enabled before that [f] does not select, in the
    same order. *)
Theorem X26_writeDisablingIf_then_read (content : string) (f : string -> bool) :
  let m := ModList_init (file_lines content) in
  ~ In "" (modlist m) ->
  snd (writeDisablingIf m f) = None /\
  List.length (fst (writeDisablingIf m f)) = List.length (write m) /\
  ((forall n, f n = false) -> fst (writeDisablingIf m f) = write m) /\
  fst (allEnabled (ModList_init (file_lines (written (fst (writeDisablingIf m f))))))
  = filter (fun n => negb (f n)) (fst (allEnabled m)).
Proof.
  cbv zeta. intros Hno.
  destruct (writeDisablingIf_then_init (file_lines content) f Hno) as (H1 & H2 & H3 & H4).
  split; [exact H1|]. split; [exact H2|]. split; [exact H3|].
  rewrite <- H4. f_equal. f_equal. f_equal.
  assert (Hno' : ~ In "" (kept_lines (file_lines content)))
    by (intros H; apply Hno; rewrite modlist_init; apply -> in_rev; exact H).
  unfold writeDisablingIf. rewrite modlist_init, rev_involutive.
  rewrite (writeDisablingIf_loop_lines _ f Hno'). cbn [fst].
  rewrite written_cons.
  change header with ("# This file was automatically modified by mo2git." ++ nl) at 1.
  rewrite file_lines_line by reflexivity. f_equal.
  rewrite <- (map_map (disabled_line f) (fun l => l ++ nl)).
  apply file_lines_written. apply Forall_map.
  eapply Forall_impl; [|exact (kept_lines_nonl content)].
  intros l. apply disabled_line_nonl.
Qed.

End ModListFacts.

(* ================================================================= *)
(** * The install checks *)

Module InstallChecksFacts.
Import InstallChecks.

(** X10. [check_sanguine_prerequisites] imports [json5],
    [bethesda_structs], [win32api] and [win32file] in this order.  At the
    first that cannot be imported it logs which one and ends the process
    with status 1, before git is called.  With all four importable it calls
    [git --version]: a status other than 0 ends the process with status 1
    after two messages, status 0 lets it log that all is well and return,
    and an exception of [subprocess.call] is not caught. *)
Theorem X10_check_sanguine_prerequisites (E : env) (frominstall : bool)
    (t : list ievent) :
  check_sanguine_prerequisites E frominstall t =
  match find (fun m => negb (importable E m)) python_modules with
  | Some m =>
      (Exit 1,
       t ++ map IvImport (tried E python_modules)
         ++ [IvCritical ("Module " ++ m ++ " is not installed.");
             IvCritical "Aborting. Please make sure to run sanguine-rose/sanguine-install.py"])
  | None =>
      let called := (t ++ map IvImport python_modules
                       ++ [IvCall ["git"; "--version"]]) in
      match git_version E with
      | inl rc =>
          if Z.eqb rc 0
          then (Next tt, called ++ [IvInfo "All sanguine prerequisites are ok."])
          else (Exit 1, called ++ [IvCritical "git is not found in PATH.";
                                   IvCritical (git_message frominstall)])
      | inr e => (Fail e, called)
      end
  end%list.
Proof.
  unfold check_sanguine_prerequisites, python_modules.
  cbn [find tried map negb].
  unfold ibind at 1. cbn [REQUIRED_PIP_MODULES for_each].
  unfold check_pip_module. cbn [dict_get PIP2PYTHON_MODULE_NAME_REMAPPING String.eqb Ascii.eqb Bool.eqb].
  cbn [for_each check_json_name].
  unfold subprocess_call, _check_module, _is_module_installed, _not_installed.
  unfold ibind, iemit, iret, os_exit.
  destruct (importable E "json5"); cbn [negb];
    [|rewrite <- !app_assoc; reflexivity].
  destruct (importable E "bethesda_structs"); cbn [negb];
    [|rewrite <- !app_assoc; reflexivity].
  destruct (importable E "win32api"); cbn [negb];
    [|rewrite <- !app_assoc; reflexivity].
  destruct (importable E "win32file"); cbn [negb];
    [|rewrite <- !app_assoc; reflexivity].
  destruct (git_version E) as [rc|e]; [|rewrite <- !app_assoc; reflexivity].
  destruct (Z.eqb rc 0); cbn [negb]; rewrite <- !app_assoc; reflexivity.
Qed.

End InstallChecksFacts.

(* ================================================================= *)
(** * The further properties on scenarios *)

Section OnMoreScenarios.
Import PyStr PyStrMore NtPath SimFS Scenarios MoreScenarios ModListPy.


Lemma X3_witness :
  normalize_file_path "c:\MO2\Mods\A.esp" = Ok "c:\mo2\mods\a.esp" /\
  is_normalized_file_path "c:\mo2\mods\a.esp" = true /\
  contains "c:\mo2\mods\a.esp" "/" = false /\
  any_char is_upper "c:\mo2\mods\a.esp" = false.
Proof.
  split; [reflexivity|].
  exact (X3_normalize_file_path_is_normalized (PL := pylib)
           NtPathFacts.nt_abspath_lower "c:\MO2\Mods\A.esp" "c:\mo2\mods\a.esp" eq_refl).
Defined.

Lemma X4_witness :
  normalize_file_name "MyPatch" = Ok "mypatch" /\
  "mypatch" = lower "MyPatch" /\
  contains "mypatch" "\" = false /\ contains "mypatch" "/" = false /\
  normalize_file_name "mypatch" = Ok "mypatch" /\
  (any_char is_lower_letter "mypatch" = true -> is_normalized_file_name "mypatch" = true).
Proof.
  split; [reflexivity|].
  exact (X4_normalize_file_name_idempotent "MyPatch" "mypatch" eq_refl).
Defined.

Lemma X5_witness :
  normalize_archive_intra_path "Textures\Armor\Iron.DDS" = Ok "textures\armor\iron.dds" /\
  "textures\armor\iron.dds" = lower "Textures\Armor\Iron.DDS" /\
  is_short_file_path "textures\armor\iron.dds" = Ok true /\
  normalize_archive_intra_path "textures\armor\iron.dds" = Ok "textures\armor\iron.dds".
Proof.
  split; [reflexivity|].
  exact (X5_normalize_archive_intra_path_idempotent (PL := pylib)
           "Textures\Armor\Iron.DDS" "textures\armor\iron.dds" eq_refl).
Defined.

Lemma X6_witness :
  is_short_dir_path "mods\patch\" = true /\
  is_normalized_dir_path (mo2_dir folders0 ++ "mods\patch\") = true /\
  short_dir_path_to_path folders0 "mods\patch\" = Ok "c:\mo2\mods\patch\" /\
  dir_path_to_short_path folders0 "c:\mo2\mods\patch\" = Ok "mods\patch\" /\
  rbind (short_dir_path_to_path folders0 "mods\patch\") (dir_path_to_short_path folders0)
  = Ok "mods\patch\".
Proof.
  split; [reflexivity|]. split; [reflexivity|].
  exact (X6_short_dir_path_round_trip (PL := pylib) folders0 "mods\patch\" eq_refl eq_refl).
Defined.

Lemma X7_witness :
  is_short_file_path "mods\patch\a.esp" = Ok true /\
  is_normalized_file_path (mo2_dir folders0 ++ "mods\patch\a.esp") = true /\
  short_file_path_to_path folders0 "mods\patch\a.esp" = Ok "c:\mo2\mods\patch\a.esp" /\
  file_path_to_short_path folders0 "c:\mo2\mods\patch\a.esp" = Ok "mods\patch\a.esp" /\
  rbind (short_file_path_to_path folders0 "mods\patch\a.esp")
    (file_path_to_short_path folders0) = Ok "mods\patch\a.esp".
Proof.
  split; [reflexivity|]. split; [reflexivity|].
  exact (X7_short_file_path_round_trip (PL := pylib) folders0 "mods\patch\a.esp"
           eq_refl eq_refl).
Defined.

(** a folder named by digits *)
Lemma X8_witness :
  is_normalized_dir_path (mo2_dir folders0 ++ "2024\") = true /\
  isascii "2024\" = true /\
  any_char is_lower_letter "2024\" = false /\
  dir_path_to_short_path folders0 (mo2_dir folders0 ++ "2024\") = Ok "2024\" /\
  short_dir_path_to_path folders0 "2024\" = Raise assertion_error.
Proof.
  split; [reflexivity|]. split; [reflexivity|]. split; [reflexivity|].
  exact (X8_short_form_without_letters_rejected (PL := pylib) folders0 "2024\"
           eq_refl eq_refl eq_refl).
Defined.

(** [mo2_dir] itself, with the empty remainder *)
Example mo2_dir_has_no_way_back :
  dir_path_to_short_path folders0 "c:\mo2\" = Ok "" /\
  short_dir_path_to_path folders0 "" = Raise assertion_error.
Proof. split; reflexivity. Qed.

Lemma X9_witness :
  exists st',
    TmpPath_init base = Ok self0 /\
    TmpPath_enter self0 (mk_state fs_stale []) = (Ok (mk_TmpPath (reserve_slot base 0)), st') /\
    (reserve_slot base 0 = tmpdir self0 \/
     exists i, i < MAX_RESERVE_FOLDERS /\ reserve_slot base 0 = reserve_slot base i) /\
    contains (reserve_slot base 0) marker_segment = true /\
    endswith (reserve_slot base 0) "\" = true.
Proof.
  eexists. split; [reflexivity|]. split; [reflexivity|].
  exact (X9_enter_returns_marked_path base self0 (mk_TmpPath (reserve_slot base 0))
           (mk_state fs_stale []) _ eq_refl eq_refl).
Defined.

Lemma X11_witness :
  exists w' evs,
    attempts 3 fs_two_faults marker_dir w' true evs /\
    TmpPath_exit 3 self0 (Some interrupt) (mk_state fs_two_faults [])
    = (Raise interrupt, mk_state w' ([] ++ evs)%list).
Proof.
  assert (Hat : exists w' evs, attempts 3 fs_two_faults marker_dir w' true evs).
  { do 2 eexists.
    eapply att_retry; [reflexivity | reflexivity |].
    eapply att_retry; [reflexivity | reflexivity |].
    eapply att_removed. reflexivity. }
  destruct Hat as (w' & evs & Hat). exists w', evs. split; [exact Hat|].
  exact (X11_exit_reraises 3 self0 (Some interrupt) (mk_state fs_two_faults [])
           w' true evs eq_refl (le_n 3) Hat).
Defined.

Lemma X12_witness :
  contains marker_dir marker_segment = true /\
  is_OSError value_error = false /\
  rm_tmp_tree 3 marker_dir (mk_state fs_odd_fault [])
  = (Raise value_error,
     mk_state (mk_fs [base; marker_dir] [] []) ([] ++ [EvRmtree marker_dir])%list).
Proof.
  split; [reflexivity|]. split; [reflexivity|].
  exact (X12_rm_tmp_tree_other_exception 2 marker_dir (mk_state fs_odd_fault [])
           (mk_fs [base; marker_dir] [] []) value_error eq_refl eq_refl eq_refl).
Defined.

Lemma X14_witness :
  (forall a b, String.eqb a b = true <-> a = b) /\
  dol_get String.eqb (add_to_dict_of_lists String.eqb [("a", [1; 2])] "a" 3) "a"
  = Some [1; 2; 3] /\
  dol_get String.eqb (add_to_dict_of_lists String.eqb [("a", [1; 2])] "b" 3) "b"
  = Some [3] /\
  dol_get String.eqb (add_to_dict_of_lists String.eqb [("a", [1; 2])] "b" 3) "a"
  = Some [1; 2].
Proof.
  split; [exact String.eqb_eq|].
  destruct (X14_add_to_dict_of_lists_get string nat String.eqb String.eqb_eq
              [("a", [1; 2])] "a" 3) as [H1 _].
  split; [exact H1|]. split; reflexivity.
Defined.

Lemma X15_witness :
  let open_rb := fun _ : string => Ok plugin_bytes in
  open_rb "a.esp" = Ok plugin_bytes /\
  is_esl_flagged open_rb "a.esp" = Ok (Z.testbit 2 1).
Proof.
  cbv zeta. split; [reflexivity|].
  exact (X15_is_esl_flagged_bit (fun _ => Ok plugin_bytes) "a.esp" plugin_bytes eq_refl).
Defined.

Lemma X16_witness :
  normalize_dir_path (fst (os_path_split config_file)) = Ok "c:\cfg\" /\
  is_jstr (dict_get_default [("mo2", JList [])] "mo2" JNull) = false /\
  Folders_init 5 config_file [("mo2", JList [])] (mk_state fs_empty [])
  = (Raise (mk_exn SanguinicError
              ("abort_if_not() failed:" ++ "config.'mo2' must be a string, got " ++ "[]")),
     mk_state fs_empty
       ([] ++ [EvCritical (("abort_if_not() failed:"
                            ++ "config.'mo2' must be a string, got " ++ "[]")
                           ++ " @line " ++ "66" ++ " of folders.py")])%list).
Proof.
  split; [reflexivity|]. split; [reflexivity|].
  exact (X16_Folders_init_mo2_required 5 config_file [("mo2", JList [])]
           (mk_state fs_empty []) "c:\cfg\" eq_refl eq_refl).
Defined.


Lemma X18_witness :
  exists F st',
    Folders_init 5 config_file config_two_ignores (mk_state fs_empty []) = (Ok F, st') /\
    ignore_dirs F = ["c:\mo2\logs\"; "c:\mo2\mods\cache\"] /\
    List.length (ignore_dirs F) = 2 /\
    Forall (fun d => startswith d (mo2_dir F) = true) (ignore_dirs F).
Proof.
  do 2 eexists. split; [reflexivity|]. split; [reflexivity|].
  refine (X18_ignore_dirs_within_mo2 5 config_file config_two_ignores
            (mk_state fs_empty []) _ _ [JStr "logs"; JStr "Mods\Cache"]
            eq_refl eq_refl _).
  repeat constructor.
Defined.

Lemma X19_witness :
  exists F st',
    Folders_init 5 config_file config_ownmods (mk_state fs_empty []) = (Ok F, st') /\
    own_mod_names F = ["mypatch"] /\
    all_mo2_own_mod_dirs F = ([], Some assertion_error) /\
    all_git_own_mod_dirs F = ([], Some assertion_error).
Proof.
  do 2 eexists. split; [reflexivity|]. split; [reflexivity|].
  refine (X19_own_mod_dir_enumerators_fail 5 config_file config_ownmods
            (mk_state fs_empty []) _ _ "mypatch" [] eq_refl eq_refl _).
  discriminate.
Defined.

Lemma X21_witness :
  exists F st',
    Folders_init 5 config_file [("mo2", JStr "c:\MO2"); ("ownmods", JStr "Ab")]
      (mk_state fs_empty []) = (Ok F, st') /\
    own_mod_names F = ["a"; "b"].
Proof.
  do 2 eexists. split; [reflexivity|].
  exact (X21_own_mod_names 5 config_file [("mo2", JStr "c:\MO2"); ("ownmods", JStr "Ab")]
           (mk_state fs_empty []) _ _ eq_refl).
Defined.

Lemma X24_witness :
  modlist (ModList_init (file_lines modlist_txt))
  = ["-Visuals_separator"; "+Textures"; "+Patch";
     "# This file was automatically generated by Mod Organizer."] /\
  allEnabled (ModList_init (file_lines modlist_txt)) = (["Textures"; "Patch"], None).
Proof.
  split; [reflexivity|].
  refine (ModListFacts.X24_allEnabled_names (ModList_init (file_lines modlist_txt)) _).
  intros [H|[H|[H|[H|[]]]]]; discriminate.
Defined.

Lemma X25_witness :
  In nl modlist_blank /\ rstrip nl = "" /\
  In "" (modlist (ModList_init modlist_blank)) /\
  snd (allEnabled (ModList_init modlist_blank)) = Some index_error /\
  snd (writeDisablingIf (ModList_init modlist_blank) (fun _ => true)) = Some index_error.
Proof.
  assert (H : In nl modlist_blank) by (right; left; reflexivity).
  split; [exact H|]. split; [reflexivity|].
  exact (ModListFacts.X25_blank_line_breaks_enumeration modlist_blank nl (fun _ => true) H eq_refl).
Defined.

Lemma X26_witness :
  let m := ModList_init (file_lines modlist_txt) in
  let f := String.eqb "Patch" in
  snd (writeDisablingIf m f) = None /\
  List.length (fst (writeDisablingIf m f)) = List.length (write m) /\
  ((forall n, f n = false) -> fst (writeDisablingIf m f) = write m) /\
  fst (allEnabled (ModList_init (file_lines (written (fst (writeDisablingIf m f))))))
  = filter (fun n => negb (f n)) (fst (allEnabled m)).
Proof.
  cbv zeta.
  refine (ModListFacts.X26_writeDisablingIf_then_read modlist_txt (String.eqb "Patch") _).
  intros [H|[H|[H|[H|[]]]]]; discriminate.
Defined.

(** the enabled mods of the example after [Patch] is disabled *)
Example patch_disabled :
  fst (allEnabled (ModList_init (file_lines (written
         (fst (writeDisablingIf (ModList_init (file_lines modlist_txt))
                 (String.eqb "Patch")))))))
  = ["Textures"].
Proof. reflexivity. Qed.

End OnMoreScenarios.
